(** * Greenlight: feature detection and baseline evaluation

    A shallow embedding of the checker core of the repository
    (parsers' matchers, suppression comments, configuration resolver,
    baseline engine and result aggregator) together with the properties
    stated about it.

    Layout: the JavaScript built-ins the code relies on, the data model,
    the catalog, the matchers, the configuration loader, the baseline
    engine, the aggregator, a table of sample inputs, and then the
    theorems. *)

From Stdlib Require Import String Ascii List ZArith QArith Bool Lia.
From Stdlib Require PrimFloat Uint63.
From stdpp Require Import base gmap sets list strings.

#[local] Set Warnings "-register-all".
#[local] Set Default Proof Using "Type".

(** ** JavaScript built-ins

    A string is kept as the sequence of bytes of its UTF-8 encoding.
    The catalog, the markers and every constant of the checker are
    ASCII, and an ASCII byte never occurs inside the encoding of another
    character, so searching for them, splitting at a line feed and
    comparing with them give the same answers as on the program's
    strings; white space is recognised in its encoded form.  Numbers are the
    extended rationals: finite values are kept exact, so the rounding of
    binary64 is not represented; [NaN] and the infinities behave as in
    JavaScript under comparison. *)

Module JS.

Inductive number :=
| NaN
| Inf (negative : bool)
| Num (q : Q).

(** [a <= b] on numbers: false as soon as one side is [NaN]. *)
Definition le (a b : number) : bool :=
  match a, b with
  | NaN, _ | _, NaN => false
  | Inf true, _ => true
  | _, Inf false => true
  | Inf false, _ => false
  | _, Inf true => false
  | Num x, Num y => Qle_bool x y
  end.

(** [a >= b]. *)
Definition ge (a b : number) : bool := le b a.

(** [a / b] for two non-negative integer counters. *)
Definition div (a b : nat) : number :=
  match b with
  | O => match a with O => NaN | S _ => Inf false end
  | S _ => Num (Z.of_nat a # Pos.of_nat b)
  end.

Definition of_nat (n : nat) : number := Num (inject_Z (Z.of_nat n)).

(** White space recognised by [trim] and by the numeric parsers: the
    WhiteSpace and LineTerminator code points of the language.  Those
    below U+0080 are single bytes (tab, line feed, vertical tab, form
    feed, carriage return, space). *)
Definition is_whitespace (c : ascii) : bool :=
  let n := nat_of_ascii c in
  (n =? 32) || ((9 <=? n) && (n <=? 13)).

(** U+00A0 (no-break space), encoded on two bytes. *)
Definition is_whitespace2 (c1 c2 : ascii) : bool :=
  (nat_of_ascii c1 =? 194) && (nat_of_ascii c2 =? 160).

(** Encoded on three bytes: U+1680, U+2000 to U+200A, U+2028, U+2029,
    U+202F, U+205F, U+3000 and U+FEFF (the byte order mark). *)
Definition is_whitespace3 (c1 c2 c3 : ascii) : bool :=
  let n1 := nat_of_ascii c1 in
  let n2 := nat_of_ascii c2 in
  let n3 := nat_of_ascii c3 in
  ((n1 =? 225) && (n2 =? 154) && (n3 =? 128))
  || ((n1 =? 226) && (n2 =? 128)
      && (((128 <=? n3) && (n3 <=? 138)) || (n3 =? 168) || (n3 =? 169) || (n3 =? 175)))
  || ((n1 =? 226) && (n2 =? 129) && (n3 =? 159))
  || ((n1 =? 227) && (n2 =? 128) && (n3 =? 128))
  || ((n1 =? 239) && (n2 =? 187) && (n3 =? 191)).

(** Removes the white space a string begins with; with [mirrored] the
    string is read back to front, the bytes of a character last first. *)
Fixpoint strip (mirrored : bool) (s : string) : string :=
  match s with
  | EmptyString => EmptyString
  | String c1 r1 =>
      if is_whitespace c1 then strip mirrored r1
      else
        match r1 with
        | EmptyString => s
        | String c2 r2 =>
            if (if mirrored then is_whitespace2 c2 c1 else is_whitespace2 c1 c2)
            then strip mirrored r2
            else
              match r2 with
              | EmptyString => s
              | String c3 r3 =>
                  if (if mirrored then is_whitespace3 c3 c2 c1
                      else is_whitespace3 c1 c2 c3)
                  then strip mirrored r3
                  else s
              end
        end
  end.

(** [s.trimStart()] *)
Definition trimStart (s : string) : string := strip false s.

Definition reverse (s : string) : string :=
  string_of_list_ascii (rev (list_ascii_of_string s)).

(** [s.trimEnd()] *)
Definition trimEnd (s : string) : string := reverse (strip true (reverse s)).

(** [s.trim()] *)
Definition trim (s : string) : string := trimEnd (trimStart s).

(** [s.startsWith(p)] *)
Definition startsWith (s p : string) : bool := String.prefix p s.

(** [s.endsWith(p)] *)
Definition endsWith (s p : string) : bool := String.prefix (reverse p) (reverse s).

(** [s.includes(sub)] *)
Fixpoint includes (s sub : string) : bool :=
  String.prefix sub s ||
  match s with
  | EmptyString => false
  | String _ r => includes r sub
  end.

(** [s.split(sep)] for a one-character separator; the result is never
    empty. *)
Fixpoint split (s : string) (sep : ascii) : list string :=
  match s with
  | EmptyString => [EmptyString]
  | String c r =>
      if Ascii.eqb c sep then EmptyString :: split r sep
      else match split r sep with
           | h :: t => String c h :: t
           | [] => [String c EmptyString]
           end
  end.

Definition lower_char (c : ascii) : ascii :=
  let n := nat_of_ascii c in
  if (65 <=? n) && (n <=? 90) then ascii_of_nat (n + 32) else c.

(** [s.toLowerCase()] *)
Fixpoint toLowerCase (s : string) : string :=
  match s with
  | EmptyString => EmptyString
  | String c r => String (lower_char c) (toLowerCase r)
  end.

(** [s.substring(n)] *)
Fixpoint substring_from (n : nat) (s : string) : string :=
  match n, s with
  | O, _ => s
  | S n', String _ r => substring_from n' r
  | S _, EmptyString => EmptyString
  end.

Definition digit_of (c : ascii) : option nat :=
  let n := nat_of_ascii c in
  if (48 <=? n) && (n <=? 57) then Some (n - 48) else None.

Definition hex_digit_of (c : ascii) : option nat :=
  let n := nat_of_ascii c in
  if (48 <=? n) && (n <=? 57) then Some (n - 48)
  else if (97 <=? n) && (n <=? 102) then Some (n - 87)
  else if (65 <=? n) && (n <=? 70) then Some (n - 55)
  else None.

(** The longest prefix of digits, as digit values, and what follows it. *)
Fixpoint digits_with (digit : ascii -> option nat) (s : string) : list nat * string :=
  match s with
  | EmptyString => ([], EmptyString)
  | String c r =>
      match digit c with
      | Some d => let '(ds, rest) := digits_with digit r in (d :: ds, rest)
      | None => ([], s)
      end
  end.

Definition value_in (radix : nat) (ds : list nat) : nat :=
  fold_left (fun acc d => radix * acc + d) ds 0.

Definition take_sign (s : string) : bool * string :=
  match s with
  | String "-" r => (true, r)
  | String "+" r => (false, r)
  | _ => (false, s)
  end.

Definition signed (negative : bool) (q : Q) : Q :=
  if negative then Qopp q else q.

(** [parseInt(s)] without a radix argument: leading white space, a sign,
    an optional [0x] prefix, then the longest run of digits. *)
Definition parseInt (s : string) : number :=
  let '(negative, s1) := take_sign (trimStart s) in
  let '(radix, s2) :=
    match s1 with
    | String "0" (String "x" r) | String "0" (String "X" r) => (16, r)
    | _ => (10, s1)
    end in
  let '(ds, _) := digits_with (if radix =? 16 then hex_digit_of else digit_of) s2 in
  match ds with
  | [] => NaN
  | _ => Num (signed negative (inject_Z (Z.of_nat (value_in radix ds))))
  end.

(** The exponent part [e+12] at the head of [s], or 0 when there is no
    well-formed one. *)
Definition exponent_part (s : string) : Z :=
  match s with
  | String c r =>
      if Ascii.eqb c "e" || Ascii.eqb c "E" then
        let '(negative, r1) := take_sign r in
        let '(ds, _) := digits_with digit_of r1 in
        match ds with
        | [] => 0%Z
        | _ => if negative then (- Z.of_nat (value_in 10 ds))%Z
               else Z.of_nat (value_in 10 ds)
        end
      else 0%Z
  | EmptyString => 0%Z
  end.

(** [m * 10^e] as a rational. *)
Definition scale10 (m : Z) (e : Z) : Q :=
  if (0 <=? e)%Z then inject_Z (m * 10 ^ e)
  else (m # Z.to_pos (10 ^ (- e))).

(** [parseFloat(s)]: leading white space, a sign, then [Infinity] or the
    longest prefix that is a decimal literal. *)
Definition parseFloat (s : string) : number :=
  let '(negative, s1) := take_sign (trimStart s) in
  if startsWith s1 "Infinity" then Inf negative
  else
    let '(ip, r) := digits_with digit_of s1 in
    let '(fp, r') :=
      match r with
      | String "." r1 => digits_with digit_of r1
      | _ => ([], r)
      end in
    match ip ++ fp with
    | [] => NaN
    | ds =>
        Num (signed negative
               (scale10 (Z.of_nat (value_in 10 ds))
                        (exponent_part r' - Z.of_nat (length fp))))
    end.

(** The line feed, as a string. *)
Definition newline : string := String "010" EmptyString.

(** [a.includes(x)] on an array of strings. *)
Definition array_includes (a : list string) (x : string) : bool :=
  existsb (String.eqb x) a.

(** [[...new Set(a)]]: duplicates removed, first occurrences kept. *)
Fixpoint unique (seen : list string) (a : list string) : list string :=
  match a with
  | [] => []
  | x :: r => if array_includes seen x then unique seen r
              else x :: unique (x :: seen) r
  end.

End JS.

(** ** The threshold test in binary64

    The comparison [supportedBrowsers / totalBrowsers >= 0.95] as the
    engine evaluates it, on IEEE 754 doubles; the literal is the double
    nearest to 0.95.  It serves to check the exact arithmetic of [JS]
    against the rounded one on small counters. *)

Module Binary64.
Import PrimFloat.

Definition of_counter (n : nat) : PrimFloat.float :=
  PrimFloat.of_uint63 (Uint63.of_Z (Z.of_nat n)).

Definition meets_threshold (supported total : nat) : bool :=
  PrimFloat.leb 0x1.e666666666666p-1%float
    (PrimFloat.div (of_counter supported) (of_counter total)).

(** Whether the rounded and the exact test agree for every pair of
    counters [supported <= total <= bound]. *)
Definition agrees_upto (bound : nat) : bool :=
  forallb (fun total =>
             forallb (fun supported =>
                        Bool.eqb (meets_threshold supported total)
                          (JS.ge (JS.div supported total) (JS.Num (95 # 100))))
               (seq 0 (S total)))
    (seq 0 (S bound)).

End Binary64.

(** ** Data model ([types.ts], [baseline-features.ts]) *)

Inductive Status := widely | newly | limited.

Definition status_string (s : Status) : string :=
  match s with
  | widely => "widely"
  | newly => "newly"
  | limited => "limited"
  end.

Inductive Severity := error | warning | info.

(** The values a per-feature override may take. *)
Inductive Override :=
| level (s : Severity)
| ignore.

(** An entry of [baselineFeatures]; the [description] text is display
    only and is left out. *)
Record BaselineData := {
  bd_status : Status;
  bd_since : option string
}.

(** The [baseline] member of a [WebFeature]. *)
Record BaselineInfo := {
  status : Status;
  since : option string
}.

(** A [WebFeature]; [name] and [description] are display only and are
    left out.  [browser_support] keeps the engines in the order they are
    written. *)
Record WebFeature := {
  wf_id : string;
  wf_baseline : BaselineInfo;
  browser_support : list (string * string);
  mdn_url : option string
}.

(** What [createResult] receives as its optional last argument: an entry
    of the catalog, or a descriptor written in place that has a
    [baseline.status] member only. *)
Inductive Descriptor :=
| catalog_entry (w : WebFeature)
| status_only (s : Status).

Record CompatibilityFix := {
  fix_type : string;
  fix_description : string;
  fix_url : option string
}.

Record CompatibilityResult := {
  file : string;
  line : Z;
  column : Z;
  feature : string;
  message : string;
  severity : Severity;
  baseline : string;
  browserSupport : list string;
  fixes : option (list CompatibilityFix)
}.

(** The two read-only registries. *)
Class Catalog := {
  baselineFeatures : gmap string BaselineData;
  webFeaturesData : gmap string WebFeature
}.

(** A JavaScript value used as a condition: [undefined] and the empty
    string are falsy. *)
Definition truthy (s : option string) : bool :=
  match s with
  | Some EmptyString | None => false
  | Some _ => true
  end.

(** Property lookup in an object literal kept in insertion order. *)
Fixpoint prop {A : Type} (o : list (string * A)) (k : string) : option A :=
  match o with
  | [] => None
  | (k', v) :: r => if String.eqb k' k then Some v else prop r k
  end.

(** [Object.keys(o)] *)
Definition keys {A : Type} (o : list (string * A)) : list string := map fst o.

(** ** Syntax trees

    The script tree keeps the node kinds the matcher discriminates, with
    the members it reads; every other kind is [Other] (or [FunctionNode]
    when it is a function boundary), with its children in traversal
    order.  [loc] is the start position of a node, when recorded.
    Decorators and type annotations of class members are not
    represented. *)

Record Position := {
  pos_line : Z;
  pos_column : Z
}.

Inductive Node :=
| Identifier (loc : option Position) (name : string)
| StringLiteral (loc : option Position) (value : string)
| PrivateName (loc : option Position) (id : Node)
| MemberExpression (loc : option Position) (object property : Node)
| OptionalMemberExpression (loc : option Position) (object property : Node)
| CallExpression (loc : option Position) (callee : Node) (arguments : list Node)
| OptionalCallExpression (loc : option Position) (callee : Node) (arguments : list Node)
| NewExpression (loc : option Position) (callee : Node) (arguments : list Node)
| LogicalExpression (loc : option Position) (operator : string) (left right : Node)
| AwaitExpression (loc : option Position) (argument : Node)
| ClassPrivateProperty (loc : option Position) (key : Node) (value : option Node)
| ClassPrivateMethod (loc : option Position) (key : Node) (children : list Node)
| FunctionNode (loc : option Position) (children : list Node)
| Other (loc : option Position) (children : list Node).

(** The stylesheet tree: at-rules, rules, declarations and comments, each
    with the start position of its source range. *)
Inductive CssNode :=
| AtRule (source : option Position) (name params : string) (nodes : list CssNode)
| Rule (source : option Position) (selector : string) (nodes : list CssNode)
| Declaration (source : option Position) (prop_name value : string)
| Comment (source : option Position) (text : string).

(** A parsed JSON document; object members in document order. *)
Inductive json :=
| JNull
| JBool (b : bool)
| JNumber (q : Q)
| JString (s : string)
| JArray (items : list json)
| JObject (members : list (string * json)).

(** ** Collaborators outside the repository

    The parsers ([@babel/parser], [postcss]), the compatibility-query
    resolver ([browserslist]), the glob matchers, [JSON.parse] and the
    file system.  A call that throws is [None]. *)
Class Externals := {
  babel_parse : string -> option Node;
  postcss_parse : string -> option (list CssNode);
  browserslist : list string -> option (list string);
  minimatch : string -> string -> bool;
  glob : string -> list string -> list string;
  readFileSync : string -> option string;
  existsSync : string -> bool;
  JSON_parse : string -> option json;
  process_cwd : string;
  path_join : string -> string -> string
}.

(** ** [detectors/web-features.ts] *)

Definition apiMappings : gmap string string :=
  list_to_map [
    ("navigator.clipboard.write", "clipboard-api");
    ("navigator.clipboard.writeText", "clipboard-api");
    ("navigator.clipboard.read", "clipboard-api");
    ("navigator.clipboard.readText", "clipboard-api");
    ("window.showOpenFilePicker", "file-system-access");
    ("window.showSaveFilePicker", "file-system-access");
    ("window.showDirectoryPicker", "file-system-access");
    ("document.startViewTransition", "view-transitions");
    ("navigator.share", "web-share");
    ("dialog.showModal", "dialog-element");
    ("new IntersectionObserver", "intersection-observer");
    ("new ResizeObserver", "resize-observer");
    ("new BroadcastChannel", "broadcast-channel");
    ("Array.prototype.flat", "array-flat");
    ("Array.prototype.flatMap", "array-flatmap");
    ("Array.prototype.at", "array-at");
    ("Object.fromEntries", "object-fromentries");
    ("String.prototype.matchAll", "string-matchall");
    ("BigInt", "bigint");
    ("globalThis", "globalthis");
    ("flat", "array-flat");
    ("flatMap", "array-flatmap");
    ("at", "array-at");
    ("fromEntries", "object-fromentries");
    ("matchAll", "string-matchall")
  ].

Definition detectWebFeatures `{Catalog} (apiCall : string) : option WebFeature :=
  let featureId :=
    match apiMappings !! apiCall with
    | Some f => Some f
    | None =>
        if JS.includes apiCall ".flat(" || JS.endsWith apiCall ".flat" then Some "array-flat"
        else if JS.includes apiCall ".flatMap(" || JS.endsWith apiCall ".flatMap" then Some "array-flatmap"
        else if JS.includes apiCall ".at(" || JS.endsWith apiCall ".at" then Some "array-at"
        else if JS.includes apiCall ".matchAll(" || JS.endsWith apiCall ".matchAll" then Some "string-matchall"
        else if JS.includes apiCall "fromEntries(" || JS.endsWith apiCall "fromEntries" then Some "object-fromentries"
        else if JS.includes apiCall "BigInt(" || String.eqb apiCall "BigInt" then Some "bigint"
        else None
    end in
  match featureId with
  | Some f => webFeaturesData !! f
  | None => None
  end.

(** ** [parsers/javascript.ts] *)

Module Javascript.

(** [node.loc?.start.line || 0] and [node.loc?.start.column || 0] *)
Definition start_line (loc : option Position) : Z :=
  match loc with Some p => pos_line p | None => 0 end.

Definition start_column (loc : option Position) : Z :=
  match loc with Some p => pos_column p | None => 0 end.

Definition loc_of (node : Node) : option Position :=
  match node with
  | Identifier loc _ | StringLiteral loc _ | PrivateName loc _
  | MemberExpression loc _ _ | OptionalMemberExpression loc _ _
  | CallExpression loc _ _ | OptionalCallExpression loc _ _
  | NewExpression loc _ _ | LogicalExpression loc _ _ _
  | AwaitExpression loc _ | ClassPrivateProperty loc _ _
  | ClassPrivateMethod loc _ _ | FunctionNode loc _ | Other loc _ => loc
  end.

Definition isOptionalMemberExpression (node : Node) : bool :=
  match node with OptionalMemberExpression _ _ _ => true | _ => false end.

Definition isOptionalCallExpression (node : Node) : bool :=
  match node with OptionalCallExpression _ _ _ => true | _ => false end.

(** The node kinds [getFunctionParent] stops at. *)
Definition isFunction (node : Node) : bool :=
  match node with
  | FunctionNode _ _ | ClassPrivateMethod _ _ _ => true
  | _ => false
  end.

Definition line_marker : string := "// baseline-buddy-ignore".
Definition block_marker : string := "/* baseline-buddy-ignore */".

(** The body of the loop of [parseIgnoreComments] for one marker, at
    index [i] of [total] lines. *)
Definition mark (marker : string) (text : string) (i total : nat)
    (ignoredLines : gset Z) : gset Z :=
  let lineNumber := (Z.of_nat i + 1)%Z in
  if JS.includes text marker then
    let ignoredLines := {[ lineNumber ]} ∪ ignoredLines in
    if String.eqb (JS.trim text) marker && (i + 1 <? total)
    then {[ (lineNumber + 1)%Z ]} ∪ ignoredLines
    else ignoredLines
  else ignoredLines.

(** The loop of [parseIgnoreComments] from index [i] on, [lines] being
    the lines still to scan. *)
Fixpoint scan (lines : list string) (i total : nat) (ignoredLines : gset Z) : gset Z :=
  match lines with
  | [] => ignoredLines
  | text :: rest =>
      scan rest (S i) total
        (mark block_marker text i total (mark line_marker text i total ignoredLines))
  end.

Definition parseIgnoreComments (content : string) : gset Z :=
  let lines := JS.split content "010" in
  scan lines 0 (length lines) ∅.

Definition isLineIgnored (line : Z) (ignoredLines : gset Z) : bool :=
  bool_decide (line ∈ ignoredLines) || bool_decide ((line - 1)%Z ∈ ignoredLines).

Definition createResult (file : string) (line column : Z) (feature message : string)
    (severity : Severity) (webFeature : option Descriptor) : CompatibilityResult :=
  {| file := file;
     line := line;
     column := column;
     feature := feature;
     message := message;
     severity := severity;
     baseline :=
       match webFeature with
       | Some (catalog_entry w) => status_string (status (wf_baseline w))
       | Some (status_only s) => status_string s
       | None => "unknown"
       end;
     browserSupport :=
       match webFeature with
       | Some (catalog_entry w) => keys (browser_support w)
       | _ => []
       end;
     fixes :=
       match webFeature with
       | Some (catalog_entry w) =>
           if truthy (mdn_url w)
           then Some [ {| fix_type := "documentation";
                          fix_description := "Learn more on MDN";
                          fix_url := mdn_url w |} ]
           else None
       | _ => None
       end |}.

Definition getPropertyName (node : Node) : option string :=
  match node with
  | Identifier _ name => Some name
  | StringLiteral _ value => Some value
  | _ => None
  end.

Fixpoint getObjectName (node : Node) : option string :=
  match node with
  | Identifier _ name => Some name
  | MemberExpression _ object property =>
      match getObjectName object, getPropertyName property with
      | Some o, Some p =>
          if truthy (Some o) && truthy (Some p) then Some (o +:+ "." +:+ p) else None
      | _, _ => None
      end
  | _ => None
  end.

(** [checkWebAPI]: [Some r] when it pushed [r] and returned [true].  Each
    hit carries the descriptor [{ baseline: { status: 'limited' } }]. *)
Definition checkWebAPI (apiCall : string) (loc : option Position) (property : Node)
    (filename : string) (ignoredLines : gset Z) : option CompatibilityResult :=
  let line := start_line loc in
  let hit feature message :=
    Some (createResult filename line (start_column loc) feature message warning
            (Some (status_only limited))) in
  if isLineIgnored line ignoredLines then None
  else if String.eqb apiCall "dialog.showModal" || String.eqb apiCall "dialog.close" then
    hit "dialog-element" (apiCall +:+ "() - Dialog element requires modern browsers")
  else if JS.includes apiCall "clipboard.write"
          || String.eqb apiCall "navigator.clipboard.writeText"
          || String.eqb apiCall "navigator.clipboard.read"
          || String.eqb apiCall "navigator.clipboard.readText" then
    hit "clipboard-api"
        (apiCall +:+ "() - Clipboard API requires modern browsers and user permission")
  else if String.eqb apiCall "navigator.share" then
    hit "web-share-api" "navigator.share() - Web Share API is not widely supported"
  else if String.eqb apiCall "document.startViewTransition" then
    hit "view-transitions"
        "document.startViewTransition() - View Transitions API requires modern browsers"
  else if JS.includes apiCall "attributeStyleMap" || JS.includes apiCall "computedStyleMap" then
    hit "css-typed-om" (apiCall +:+ " - CSS Typed Object Model requires modern browsers")
  else if JS.includes apiCall "IntersectionObserver"
          && match property with
             | Identifier _ name =>
                 String.eqb name "trackVisibility" || String.eqb name "delay"
             | _ => false
             end then
    hit "intersection-observer-v2"
        "IntersectionObserver v2 features (trackVisibility, delay) require modern browsers"
  else None.

Definition parent_is_optional (parent : option Node) : bool :=
  match parent with
  | Some p => isOptionalMemberExpression p || isOptionalCallExpression p
  | None => false
  end.

(** A catalog hit that is not widely supported, unless its line is
    suppressed: the common tail of the table-driven visitors. *)
Definition report `{Catalog} (filename : string) (ignoredLines : gset Z)
    (loc : option Position) (feature : option WebFeature)
    (message : WebFeature -> string) : list CompatibilityResult :=
  match feature with
  | Some f =>
      if negb (JS.includes (status_string (status (wf_baseline f))) "widely") then
        let line := start_line loc in
        if negb (isLineIgnored line ignoredLines) then
          [createResult filename line (start_column loc) (wf_id f) (message f)
             warning (Some (catalog_entry f))]
        else []
      else []
  | None => []
  end.

(** A construct with a fixed feature id, unless its line is suppressed. *)
Definition flag (filename : string) (ignoredLines : gset Z) (loc : option Position)
    (feature message : string) : list CompatibilityResult :=
  let line := start_line loc in
  if negb (isLineIgnored line ignoredLines) then
    [createResult filename line (start_column loc) feature message warning None]
  else [].

Definition not_widely_message (what : string) (f : WebFeature) : string :=
  what +:+ " is not widely supported (" +:+ status_string (status (wf_baseline f)) +:+ ")".

(** The visitor object handed to [traverse]: what one node contributes,
    given its parent and whether a function encloses it. *)
Definition visitor `{Catalog} (filename : string) (ignoredLines : gset Z)
    (parent : option Node) (insideFunction : bool) (node : Node)
    : list CompatibilityResult :=
  match node with
  | MemberExpression loc object property =>
      if parent_is_optional parent then []
      else
        match getObjectName object, getPropertyName property with
        | Some objectName, Some propertyName =>
            if truthy (Some objectName) && truthy (Some propertyName) then
              let apiCall := objectName +:+ "." +:+ propertyName in
              match checkWebAPI apiCall loc property filename ignoredLines with
              | Some r => [r]
              | None =>
                  report filename ignoredLines loc (detectWebFeatures apiCall)
                    (not_widely_message apiCall)
              end
            else []
        | _, _ => []
        end
  | OptionalMemberExpression loc _ _ =>
      if parent_is_optional parent then []
      else flag filename ignoredLines loc "optional-chaining"
             "Optional chaining (?.) requires modern browsers"
  | OptionalCallExpression loc _ _ =>
      if parent_is_optional parent then []
      else flag filename ignoredLines loc "optional-chaining"
             "Optional chaining (?.) requires modern browsers"
  | LogicalExpression loc operator _ _ =>
      if String.eqb operator "??" then
        flag filename ignoredLines loc "nullish-coalescing"
          "Nullish coalescing (??) requires modern browsers"
      else []
  | NewExpression loc callee _ =>
      match callee with
      | Identifier _ name =>
          let constructorName := "new " +:+ name in
          report filename ignoredLines loc (detectWebFeatures constructorName)
            (not_widely_message constructorName)
      | _ => []
      end
  | CallExpression loc callee _ =>
      let functionName :=
        match callee with
        | Identifier _ name => name
        | MemberExpression _ object property =>
            match getObjectName object, getPropertyName property with
            | Some objectName, Some methodName =>
                if truthy (Some objectName) && truthy (Some methodName)
                then objectName +:+ "." +:+ methodName
                else EmptyString
            | _, _ => EmptyString
            end
        | _ => EmptyString
        end in
      if truthy (Some functionName) then
        report filename ignoredLines loc (detectWebFeatures functionName)
          (fun f =>
             if String.eqb (wf_id f) "array-at"
             then "Array.at() method is not widely supported ("
                    +:+ status_string (status (wf_baseline f)) +:+ ")"
             else not_widely_message (functionName +:+ "()") f)
      else []
  | ClassPrivateProperty loc _ _ =>
      flag filename ignoredLines loc "private-class-fields"
        "Private class fields require modern browsers"
  | ClassPrivateMethod loc _ _ =>
      flag filename ignoredLines loc "private-class-fields"
        "Private class methods require modern browsers"
  | PrivateName loc _ =>
      flag filename ignoredLines loc "private-class-fields"
        "Private class field access requires modern browsers"
  | AwaitExpression loc _ =>
      if negb insideFunction then
        flag filename ignoredLines loc "top-level-await"
          "Top-level await requires modern browsers and module context"
      else []
  | _ => []
  end.

(** [traverse]: every node once, parents before children, children in
    source order; the results are those pushed, in that order. *)
Fixpoint traverse (visit : option Node -> bool -> Node -> list CompatibilityResult)
    (parent : option Node) (insideFunction : bool) (node : Node)
    : list CompatibilityResult :=
  visit parent insideFunction node ++
  match node with
  | Identifier _ _ | StringLiteral _ _ => []
  | PrivateName _ id => traverse visit (Some node) insideFunction id
  | MemberExpression _ object property
  | OptionalMemberExpression _ object property =>
      traverse visit (Some node) insideFunction object
        ++ traverse visit (Some node) insideFunction property
  | CallExpression _ callee arguments
  | OptionalCallExpression _ callee arguments
  | NewExpression _ callee arguments =>
      traverse visit (Some node) insideFunction callee
        ++ flat_map (traverse visit (Some node) insideFunction) arguments
  | LogicalExpression _ _ lhs rhs =>
      traverse visit (Some node) insideFunction lhs
        ++ traverse visit (Some node) insideFunction rhs
  | AwaitExpression _ argument => traverse visit (Some node) insideFunction argument
  | ClassPrivateProperty _ key value =>
      traverse visit (Some node) insideFunction key
        ++ match value with
           | Some v => traverse visit (Some node) insideFunction v
           | None => []
           end
  | ClassPrivateMethod _ key children =>
      traverse visit (Some node) true key
        ++ flat_map (traverse visit (Some node) true) children
  | FunctionNode _ children => flat_map (traverse visit (Some node) true) children
  | Other _ children => flat_map (traverse visit (Some node) insideFunction) children
  end.

(** [parseJavaScript]: a parse failure is caught and leaves the result
    list empty. *)
Definition parseJavaScript `{Catalog} `{Externals} (content filename : string)
    : list CompatibilityResult :=
  let ignoredLines := parseIgnoreComments content in
  match babel_parse content with
  | Some ast => traverse (visitor filename ignoredLines) None false ast
  | None => []
  end.

End Javascript.

(** ** [detectors/css-features.ts] *)

Definition cssMappings : gmap string string :=
  list_to_map [
    ("pseudo::has", "css-has-selector");
    ("pseudo::focus-visible", "css-focus-visible");
    ("pseudo::focus-within", "css-focus-within");
    ("pseudo::is", "css-is-selector");
    ("pseudo::where", "css-where-selector");
    ("property:container-type", "css-container-queries");
    ("property:container-name", "css-container-queries");
    ("property:container", "css-container-queries");
    ("property:aspect-ratio", "css-aspect-ratio");
    ("property:gap", "css-gap");
    ("property:inset", "css-inset");
    ("property:scroll-behavior", "css-scroll-behavior");
    ("property:scroll-snap-type", "css-scroll-snap");
    ("property:overscroll-behavior", "css-overscroll-behavior");
    ("property:color-scheme", "css-color-scheme");
    ("property:accent-color", "css-accent-color");
    ("property:backdrop-filter", "css-backdrop-filter")
  ].

Definition detectCSSFeatures `{Catalog} (cssFeature : string) : option WebFeature :=
  let by_table :=
    match cssMappings !! cssFeature with
    | Some featureId => webFeaturesData !! featureId
    | None => None
    end in
  if JS.startsWith cssFeature "value:" then
    let value := JS.substring_from 6 cssFeature in
    if JS.includes value "oklch(" then webFeaturesData !! "css-oklch-color"
    else if JS.includes value "oklab(" then webFeaturesData !! "css-oklab-color"
    else if JS.includes value "hwb(" then webFeaturesData !! "css-hwb-color"
    else if JS.includes value "color-mix(" then webFeaturesData !! "css-color-mix"
    else if String.eqb value "subgrid" then webFeaturesData !! "css-subgrid"
    else if String.eqb value "masonry" then webFeaturesData !! "css-masonry"
    else by_table
  else by_table.

(** ** [parsers/css.ts] *)

Module Css.

Definition start_line (source : option Position) : Z :=
  match source with Some p => pos_line p | None => 0 end.

Definition start_column (source : option Position) : Z :=
  match source with Some p => pos_column p | None => 0 end.

Definition block_marker : string := "/* baseline-buddy-ignore */".

Fixpoint scan (lines : list string) (i total : nat) (ignoredLines : gset Z) : gset Z :=
  match lines with
  | [] => ignoredLines
  | text :: rest =>
      let lineNumber := (Z.of_nat i + 1)%Z in
      scan rest (S i) total
        (if JS.includes text block_marker then
           let ignoredLines := {[ lineNumber ]} ∪ ignoredLines in
           if String.eqb (JS.trim text) block_marker && (i + 1 <? total)
           then {[ (lineNumber + 1)%Z ]} ∪ ignoredLines
           else ignoredLines
         else ignoredLines)
  end.

Definition parseIgnoreComments (content : string) : gset Z :=
  let lines := JS.split content "010" in
  scan lines 0 (length lines) ∅.

Definition isLineIgnored (line : Z) (ignoredLines : gset Z) : bool :=
  bool_decide (line ∈ ignoredLines) || bool_decide ((line - 1)%Z ∈ ignoredLines).

(** [Container.walk]: every descendant once, parents before children, in
    document order. *)
Fixpoint walk (callback : CssNode -> list CompatibilityResult) (node : CssNode)
    : list CompatibilityResult :=
  callback node ++
  match node with
  | AtRule _ _ _ nodes | Rule _ _ nodes => flat_map (walk callback) nodes
  | Declaration _ _ _ | Comment _ _ => []
  end.

(** A result record written in place by the stylesheet rules. *)
Definition result (filename : string) (source : option Position)
    (feature message : string) (browserSupport : list string) : CompatibilityResult :=
  {| file := filename;
     line := start_line source;
     column := start_column source;
     feature := feature;
     message := message;
     severity := warning;
     baseline := "limited";
     browserSupport := browserSupport;
     fixes := None |}.

Definition when (b : bool) (r : CompatibilityResult) : list CompatibilityResult :=
  if b then [r] else [].

(** [walkAtRules(name, ...)] for the two cascade keywords. *)
Definition atRule_callback (filename : string) (ignoredLines : gset Z)
    (name feature message : string) (browserSupport : list string) (node : CssNode)
    : list CompatibilityResult :=
  match node with
  | AtRule source n _ _ =>
      when (String.eqb n name && negb (isLineIgnored (start_line source) ignoredLines))
        (result filename source feature message browserSupport)
  | _ => []
  end.

Definition rule_callback (filename : string) (ignoredLines : gset Z) (node : CssNode)
    : list CompatibilityResult :=
  match node with
  | Rule source selector _ =>
      let shown := negb (isLineIgnored (start_line source) ignoredLines) in
      when (JS.includes selector ":has(" && shown)
        (result filename source "css-has-selector"
           ":has() selector is not widely supported" ["chrome"; "firefox"; "safari"])
      ++ when (JS.includes selector ":is(" && shown)
        (result filename source "css-is-selector"
           ":is() selector is not widely supported" ["chrome"; "firefox"; "safari"])
      ++ when (JS.includes selector ":where(" && shown)
        (result filename source "css-where-selector"
           ":where() selector is not widely supported" ["chrome"; "firefox"; "safari"])
  | _ => []
  end.

Definition decl_callback `{Catalog} (filename : string) (ignoredLines : gset Z)
    (node : CssNode) : list CompatibilityResult :=
  match node with
  | Declaration source prop_name value =>
      if isLineIgnored (start_line source) ignoredLines then []
      else
        when (JS.array_includes ["container-type"; "container-name"; "container"] prop_name)
          (result filename source "css-container-queries"
             ("Container query property '" +:+ prop_name +:+ "' is not widely supported")
             ["chrome"; "firefox"])
        ++ when (JS.array_includes ["translate"; "rotate"; "scale"] prop_name)
          (result filename source "css-individual-transform-properties"
             ("Individual transform property '" +:+ prop_name +:+ "' is not widely supported")
             ["chrome"; "firefox"; "safari"])
        ++ when (JS.includes value "subgrid")
          (result filename source "css-subgrid" "subgrid is not widely supported"
             ["firefox"])
        ++ when (JS.includes value "color-mix(")
          (result filename source "css-color-mix"
             "color-mix() function is not widely supported" ["chrome"; "firefox"; "safari"])
        ++ match
             match detectCSSFeatures ("property:" +:+ prop_name) with
             | Some f => Some f
             | None => detectCSSFeatures ("value:" +:+ value)
             end
           with
           | Some f =>
               when (negb (JS.includes (status_string (status (wf_baseline f))) "widely"))
                 {| file := filename;
                    line := start_line source;
                    column := start_column source;
                    feature := wf_id f;
                    message := prop_name +:+ ": " +:+ value +:+ " is not widely supported";
                    severity := warning;
                    baseline := status_string (status (wf_baseline f));
                    browserSupport := keys (browser_support f);
                    fixes :=
                      if truthy (mdn_url f)
                      then Some [ {| fix_type := "documentation";
                                     fix_description := "Learn more on MDN";
                                     fix_url := mdn_url f |} ]
                      else None |}
           | None => []
           end
  | _ => []
  end.

(** [parseCSS]: the four walks in turn; a parse failure is caught and
    leaves the result list empty. *)
Definition parseCSS `{Catalog} `{Externals} (content filename : string)
    : list CompatibilityResult :=
  let ignoredLines := parseIgnoreComments content in
  match postcss_parse content with
  | Some ast =>
      flat_map (walk (atRule_callback filename ignoredLines "layer" "css-cascade-layers"
                        "@layer cascade layers are not widely supported"
                        ["chrome"; "firefox"; "safari"])) ast
      ++ flat_map (walk (atRule_callback filename ignoredLines "container"
                           "css-container-queries"
                           "@container queries are not widely supported"
                           ["chrome"; "firefox"])) ast
      ++ flat_map (walk (rule_callback filename ignoredLines)) ast
      ++ flat_map (walk (decl_callback filename ignoredLines)) ast
  | None => []
  end.

End Css.

(** ** [config/config-schema.ts]

    The schema is kept as data, in the vocabulary it uses: string (with
    an optional [enum]), array (with [items]) and object (with
    [properties], a catch-all [patternProperties] entry, [required] and
    [additionalProperties]).  Annotations ([description], [default],
    [examples], [title]) do not take part in validation. *)

Inductive Schema :=
| string_schema (enum : option (list string))
| array_schema (items : Schema)
| object_schema (properties : list (string * Schema))
    (patternProperties : option Schema)
    (required : list string)
    (additionalProperties : bool).

Definition severity_or_ignore : Schema :=
  string_schema (Some ["error"; "warning"; "info"; "ignore"]).

Definition baselineConfigSchema : Schema :=
  object_schema
    [ ("$schema", string_schema None);
      ("baseline",
        object_schema
          [ ("target", string_schema (Some ["2024"; "2025"; "custom"]));
            ("browserslist", array_schema (string_schema None)) ]
          None ["target"] false);
      ("severity",
        object_schema
          [ ("default", string_schema (Some ["error"; "warning"; "info"]));
            ("features", object_schema [] (Some severity_or_ignore) [] false) ]
          None ["default"] false);
      ("include", array_schema (string_schema None));
      ("exclude", array_schema (string_schema None));
      ("rules",
        object_schema []
          (Some (object_schema
                   [ ("severity", severity_or_ignore);
                     ("message", string_schema None) ]
                   None [] false))
          [] false) ]
    None ["baseline"; "severity"] false.

(** ** [config/config-loader.ts] *)

Inductive Target := target_2024 | target_2025 | target_custom.

Definition target_string (t : Target) : string :=
  match t with
  | target_2024 => "2024"
  | target_2025 => "2025"
  | target_custom => "custom"
  end.

Record RuleEntry := {
  rule_severity : option Override;
  rule_message : option string
}.

Record BaselineConfig := {
  target : Target;
  cfg_browserslist : option (list string);
  severity_default : Severity;
  severity_features : option (gmap string Override);
  include : option (list string);
  exclude : option (list string);
  rules : option (gmap string RuleEntry)
}.

Definition DEFAULT_CONFIG : BaselineConfig :=
  {| target := target_2024;
     cfg_browserslist := None;
     severity_default := warning;
     severity_features := None;
     include := None;
     exclude := Some ["**/node_modules/**"; "**/dist/**"; "**/build/**"; "**/.git/**"];
     rules := None |}.

(** The outcome of a call that may throw. *)
Inductive Exc (A : Type) :=
| OK (a : A)
| Throw (message : string).
Arguments OK {A} a.
Arguments Throw {A} message.

(** One entry of the validator's error list. *)
Record ErrorObject := {
  instancePath : string;
  error_message : string;
  allowedValues : option (list string)
}.

Module Config.

(** [o[k]] on a parsed document (member names of a parsed object are
    distinct); [undefined] is [None]. *)
Definition get (data : option json) (k : string) : option json :=
  match data with
  | Some (JObject members) => prop members k
  | _ => None
  end.

Definition mismatch (path what : string) : list ErrorObject :=
  [ {| instancePath := path; error_message := "must be " +:+ what; allowedValues := None |} ].

(** The validator compiled from a schema, collecting every error. *)
Fixpoint validate (data : json) (schema : Schema) (path : string) {struct data}
    : list ErrorObject :=
  match schema with
  | string_schema enum =>
      match data with
      | JString s =>
          match enum with
          | Some values =>
              if JS.array_includes values s then []
              else [ {| instancePath := path;
                        error_message := "must be equal to one of the allowed values";
                        allowedValues := Some values |} ]
          | None => []
          end
      | _ => mismatch path "string"
      end
  | array_schema items =>
      match data with
      | JArray elements =>
          flat_map (fun element => validate element items (path +:+ "/")) elements
      | _ => mismatch path "array"
      end
  | object_schema properties patternProperties required additionalProperties =>
      match data with
      | JObject members =>
          flat_map
            (fun r =>
               match prop members r with
               | Some _ => []
               | None =>
                   [ {| instancePath := path;
                        error_message := "must have required property '" +:+ r +:+ "'";
                        allowedValues := None |} ]
               end) required
          ++ flat_map
               (fun member =>
                  match member with
                  | (k, v) =>
                      match prop properties k, patternProperties with
                      | None, None =>
                          if additionalProperties then []
                          else [ {| instancePath := path;
                                    error_message := "must NOT have additional properties";
                                    allowedValues := None |} ]
                      | declared, pattern =>
                          match declared with
                          | Some s => validate v s (path +:+ "/" +:+ k)
                          | None => []
                          end
                          ++ match pattern with
                             | Some s => validate v s (path +:+ "/" +:+ k)
                             | None => []
                             end
                      end
                  end) members
      | _ => mismatch path "object"
      end
  end.

(** [validateConfigSchema]: throws when the error list is not empty. *)
Definition validateConfigSchema (config : json) (configPath : string) : Exc unit :=
  match validate config baselineConfigSchema EmptyString with
  | [] => OK tt
  | errors =>
      let errorMessages :=
        map (fun e =>
               "  - "
                 +:+ (if truthy (Some (instancePath e)) then instancePath e else "root")
                 +:+ ": " +:+ error_message e
                 +:+ match allowedValues e with
                     | Some values =>
                         " (allowed values: " +:+ String.concat ", " values +:+ ")"
                     | None => EmptyString
                     end) errors in
      Throw ("Configuration validation failed in " +:+ configPath +:+ ":"
               +:+ JS.newline +:+ String.concat (JS.newline) errorMessages)
  end.

(** The views through which the loader reads a validated document. *)
Definition as_target (v : option json) : option Target :=
  match v with
  | Some (JString "2024") => Some target_2024
  | Some (JString "2025") => Some target_2025
  | Some (JString "custom") => Some target_custom
  | _ => None
  end.

Definition as_severity (v : option json) : option Severity :=
  match v with
  | Some (JString "error") => Some error
  | Some (JString "warning") => Some warning
  | Some (JString "info") => Some info
  | _ => None
  end.

Definition as_override (v : option json) : option Override :=
  match v with
  | Some (JString "ignore") => Some ignore
  | _ => level <$> as_severity v
  end.

Definition as_string (v : option json) : option string :=
  match v with
  | Some (JString s) => Some s
  | _ => None
  end.

Definition as_strings (v : option json) : option (list string) :=
  match v with
  | Some (JArray elements) =>
      Some (omap (fun e => as_string (Some e)) elements)
  | _ => None
  end.

Definition as_map {A : Type} (view : option json -> option A) (v : option json)
    : option (gmap string A) :=
  match v with
  | Some (JObject members) =>
      Some (list_to_map (omap (fun '(k, e) => pair k <$> view (Some e)) members))
  | _ => None
  end.

Definition as_rule (v : option json) : option RuleEntry :=
  match v with
  | Some (JObject _) =>
      Some {| rule_severity := as_override (get v "severity");
              rule_message := as_string (get v "message") |}
  | _ => None
  end.

Definition mergeWithDefaults (userConfig : json) : BaselineConfig :=
  let u := Some userConfig in
  {| target := default (target DEFAULT_CONFIG) (as_target (get (get u "baseline") "target"));
     cfg_browserslist := as_strings (get (get u "baseline") "browserslist");
     severity_default :=
       default (severity_default DEFAULT_CONFIG)
         (as_severity (get (get u "severity") "default"));
     severity_features := as_map as_override (get (get u "severity") "features");
     include := as_strings (get u "include");
     exclude :=
       match as_strings (get u "exclude") with
       | Some patterns => Some patterns
       | None => exclude DEFAULT_CONFIG
       end;
     rules := as_map as_rule (get u "rules") |}.

(** [validateBrowserslist] *)
Definition validateBrowserslist `{Externals} (browsers : list string) : Exc unit :=
  match browserslist browsers with
  | Some _ => OK tt
  | None => Throw "Invalid browserslist configuration"
  end.

Definition json_truthy (v : option json) : bool :=
  match v with
  | None | Some JNull | Some (JBool false) | Some (JString EmptyString) => false
  | Some (JNumber q) => negb (Qeq_bool q 0)
  | Some _ => true
  end.

(** [findConfigFile] *)
Definition findConfigFile `{Externals} (workspaceRoot : option string) : option string :=
  let searchPath := if truthy workspaceRoot then default EmptyString workspaceRoot else process_cwd in
  let candidate (configFile : string) : option string :=
    let fullPath := path_join searchPath configFile in
    if existsSync fullPath then
      if String.eqb configFile "package.json" then
        match readFileSync fullPath with
        | Some text =>
            match JSON_parse text with
            | Some JNull | None => None
            | Some pkg => if json_truthy (get (Some pkg) "baselineBuddy") then Some fullPath else None
            end
        | None => None
        end
      else Some fullPath
    else None in
  match candidate "baseline.config.json" with
  | Some p => Some p
  | None =>
      match candidate ".baseline.json" with
      | Some p => Some p
      | None => candidate "package.json"
      end
  end.

(** The body of the [try] block of [loadConfig]. *)
Definition readConfig `{Externals} (finalConfigPath : string) : Exc BaselineConfig :=
  match readFileSync finalConfigPath with
  | None => Throw "cannot read file"
  | Some configContent =>
      match JSON_parse configContent with
      | None => Throw "Invalid JSON syntax in config file"
      | Some parsed =>
          let extracted :=
            if JS.endsWith finalConfigPath "package.json" then
              match parsed with
              | JNull => Throw "Cannot read properties of null"
              | _ =>
                  OK (if json_truthy (get (Some parsed) "baselineBuddy")
                      then default (JObject []) (get (Some parsed) "baselineBuddy")
                      else JObject [])
              end
            else OK parsed in
          match extracted with
          | Throw m => Throw m
          | OK userConfig =>
              match validateConfigSchema userConfig finalConfigPath with
              | Throw m => Throw m
              | OK _ =>
                  let mergedConfig := mergeWithDefaults userConfig in
                  match target mergedConfig, cfg_browserslist mergedConfig with
                  | target_custom, Some browsers =>
                      match validateBrowserslist browsers with
                      | Throw m => Throw m
                      | OK _ => OK mergedConfig
                      end
                  | _, _ => OK mergedConfig
                  end
              end
          end
      end
  end.

(** [loadConfig], with the loader's cache passed in and out.  A failure
    inside the [try] block is thrown again with the path in front. *)
Definition loadConfig `{Externals} (configCache : gmap string BaselineConfig)
    (workspaceRoot configPath : option string)
    : Exc BaselineConfig * gmap string BaselineConfig :=
  let finalConfigPath := if truthy configPath then configPath else findConfigFile workspaceRoot in
  if truthy finalConfigPath then
    let path := default EmptyString finalConfigPath in
    match configCache !! path with
    | Some cached => (OK cached, configCache)
    | None =>
        match readConfig path with
        | OK mergedConfig => (OK mergedConfig, <[ path := mergedConfig ]> configCache)
        | Throw m =>
            (Throw ("Failed to load config from " +:+ path +:+ ": " +:+ m), configCache)
        end
    end
  else (OK (mergeWithDefaults (JObject [])), configCache).

(** [config.rules?.[featureId]?.severity] *)
Definition ruleSeverity (featureId : string) (config : BaselineConfig) : option Override :=
  match rules config with
  | Some table =>
      match table !! featureId with
      | Some entry => rule_severity entry
      | None => None
      end
  | None => None
  end.

(** [config.severity.features?.[featureId]] *)
Definition featureSeverity (featureId : string) (config : BaselineConfig) : option Override :=
  match severity_features config with
  | Some table => table !! featureId
  | None => None
  end.

(** [shouldIgnoreFeature] *)
Definition shouldIgnoreFeature (featureId : string) (config : BaselineConfig) : bool :=
  match ruleSeverity featureId config with
  | Some ignore => true
  | _ =>
      match featureSeverity featureId config with
      | Some ignore => true
      | _ => false
      end
  end.

(** [getFeatureSeverity] *)
Definition getFeatureSeverity (featureId : string) (config : BaselineConfig) : Severity :=
  match ruleSeverity featureId config with
  | Some (level s) => s
  | _ =>
      match featureSeverity featureId config with
      | Some (level s) => s
      | _ => severity_default config
      end
  end.

(** [getBrowserslistTargets] *)
Definition getBrowserslistTargets (config : BaselineConfig) : list string :=
  match target config, cfg_browserslist config with
  | target_custom, Some browsers => browsers
  | target_2025, _ =>
      ["chrome >= 109"; "firefox >= 109"; "safari >= 16.4"; "edge >= 109"]
  | _, _ =>
      ["chrome >= 105"; "firefox >= 105"; "safari >= 15.4"; "edge >= 105"]
  end.

End Config.

(** ** [baseline-engine.ts] *)

Record BaselineTarget := {
  year : Target;
  customBrowserslist : option (list string)
}.

Module BaselineEngine.

(** [baselineData || webFeature?.baseline] *)
Definition featureOf `{Catalog} (featureId : string) : option BaselineInfo :=
  match baselineFeatures !! featureId with
  | Some baselineData =>
      Some {| status := bd_status baselineData; since := bd_since baselineData |}
  | None => wf_baseline <$> webFeaturesData !! featureId
  end.

Definition browserMap : gmap string string :=
  list_to_map [
    ("chrome", "chrome");
    ("firefox", "firefox");
    ("safari", "safari");
    ("edge", "edge");
    ("and_chr", "chrome");
    ("and_ff", "firefox");
    ("ios_saf", "safari");
    ("ie", "ie")
  ].

Definition normalizeBrowserName (browserName : string) : string :=
  match browserMap !! browserName with
  | Some n => if truthy (Some n) then n else browserName
  | None => browserName
  end.

Definition getDefaultBrowserslistForYear (year : Target) : list string :=
  match year with
  | target_2025 =>
      ["chrome >= 109"; "firefox >= 109"; "safari >= 16.4"; "edge >= 109"]
  | _ =>
      ["chrome >= 105"; "firefox >= 105"; "safari >= 15.4"; "edge >= 105"]
  end.

(** The body of the loop of [calculateBrowserslistCoverage]: whether the
    entry [browser] of the resolved list counts as supported. *)
Definition supports (webFeature : WebFeature) (browser : string) : bool :=
  let parts := JS.split browser " " in
  let browserName := default EmptyString (head parts) in
  let version := default "undefined" (parts !! 1) in
  let requiredVersion := JS.parseFloat version in
  let normalizedBrowserName := normalizeBrowserName browserName in
  let featureSupportVersion := prop (browser_support webFeature) normalizedBrowserName in
  if truthy featureSupportVersion then
    let supportVersion := JS.parseFloat (default EmptyString featureSupportVersion) in
    JS.le supportVersion requiredVersion
  else false.

Definition calculateBrowserslistCoverage `{Catalog} `{Externals}
    (featureId : string) (browserslistQuery : list string) : bool :=
  match webFeaturesData !! featureId with
  | None => false
  | Some webFeature =>
      match browserslist browserslistQuery with
      | None => false
      | Some browsers =>
          let supportedBrowsers :=
            fold_left (fun n browser => if supports webFeature browser then S n else n)
              browsers 0 in
          let totalBrowsers := length browsers in
          let coverage := JS.div supportedBrowsers totalBrowsers in
          JS.ge coverage (JS.Num (95 # 100))
      end
  end.

Definition isFeatureBaseline `{Catalog} `{Externals} (this : BaselineTarget)
    (featureId : string) : bool :=
  match featureOf featureId with
  | None => false
  | Some feature =>
      match status feature, year this, customBrowserslist this with
      | widely, _, _ => true
      | _, target_custom, Some query => calculateBrowserslistCoverage featureId query
      | newly, _, _ =>
          if truthy (since feature) then
            let featureYear :=
              JS.parseInt (default EmptyString (head (JS.split (default EmptyString (since feature)) "-"))) in
            let targetYear := JS.parseInt (target_string (year this)) in
            let yearBaseline := JS.le featureYear targetYear in
            match webFeaturesData !! featureId, year this with
            | _, target_custom | None, _ => yearBaseline
            | Some _, _ =>
                if yearBaseline then
                  calculateBrowserslistCoverage featureId
                    (getDefaultBrowserslistForYear (year this))
                else yearBaseline
            end
          else false
      | limited, _, _ => false
      end
  end.

Definition getSeverityForFeature `{Catalog} (featureId : string) : Severity :=
  match featureOf featureId with
  | None => warning
  | Some feature =>
      match status feature with
      | limited => error
      | newly => warning
      | widely => info
      end
  end.

Definition getBaselineMessage `{Catalog} (featureId : string) : string :=
  match featureOf featureId with
  | None => "Unknown baseline status"
  | Some feature =>
      match status feature with
      | limited => "Limited browser support - use with caution or provide fallbacks"
      | newly =>
          if truthy (since feature)
          then "Newly supported since " +:+ default EmptyString (since feature)
                 +:+ " - consider your browser targets"
          else "Newly supported - consider your browser targets"
      | widely => "Widely supported across browsers"
      end
  end.

Definition filterResults `{Catalog} `{Externals} (this : BaselineTarget)
    (results : list CompatibilityResult) : list CompatibilityResult :=
  List.filter (fun result => negb (isFeatureBaseline this (feature result))) results.

Definition enhanceResults `{Catalog} (results : list CompatibilityResult)
    : list CompatibilityResult :=
  map (fun result =>
         {| file := file result;
            line := line result;
            column := column result;
            feature := feature result;
            message := message result +:+ " - " +:+ getBaselineMessage (feature result);
            severity := severity result;
            baseline := baseline result;
            browserSupport := browserSupport result;
            fixes := fixes result |}) results.

End BaselineEngine.

(** ** [checker.ts] *)

Record DocumentInput := {
  filename : string;
  content : string;
  languageId : option string
}.

(** The first argument of the entry points: file paths or in-memory
    documents. *)
Inductive Files :=
| paths (files : list string)
| documents (files : list DocumentInput).

Record CheckerOptions := {
  opt_config : option string;
  opt_workspaceRoot : option string
}.

Module Checker.

Definition applyConfiguration (results : list CompatibilityResult) (config : BaselineConfig)
    : list CompatibilityResult :=
  map (fun result =>
         {| file := file result;
            line := line result;
            column := column result;
            feature := feature result;
            message := message result;
            severity := Config.getFeatureSeverity (feature result) config;
            baseline := baseline result;
            browserSupport := browserSupport result;
            fixes := fixes result |})
    (List.filter (fun result => negb (Config.shouldIgnoreFeature (feature result) config))
       results).

Definition isFileExcluded `{Externals} (filePath : string) (excludePatterns : list string)
    : bool :=
  existsb (minimatch filePath) excludePatterns.

Definition discoverFiles `{Externals} (config : BaselineConfig) : list string :=
  let includePatterns := default ["**/*.{js,jsx,ts,tsx,css,scss,less}"] (include config) in
  JS.unique []
    (flat_map (fun pattern => glob pattern (default [] (exclude config))) includePatterns).

(** [name.split('.').pop()?.toLowerCase() || ''] *)
Definition extension_of (name : string) : string :=
  JS.toLowerCase (default EmptyString (last (JS.split name "."))).

Definition script_extensions : list string := ["js"; "jsx"; "ts"; "tsx"].
Definition style_extensions : list string := ["css"; "scss"; "less"].

(** The parser chosen for a file path and what it returns. *)
Definition scanFile `{Catalog} `{Externals} (file content : string)
    : list CompatibilityResult :=
  let extension := extension_of file in
  if JS.array_includes script_extensions extension
  then Javascript.parseJavaScript content file
  else if JS.array_includes style_extensions extension
  then Css.parseCSS content file
  else [].

(** What the loop over file paths adds for one file; an unreadable file
    is caught and adds nothing. *)
Definition checkFile `{Catalog} `{Externals} (config : BaselineConfig)
    (baselineEngine : BaselineTarget) (file : string) : list CompatibilityResult :=
  match readFileSync file with
  | None => []
  | Some content =>
      let fileResults := scanFile file content in
      let configuredResults := applyConfiguration fileResults config in
      let baselineFilteredResults :=
        BaselineEngine.filterResults baselineEngine configuredResults in
      BaselineEngine.enhanceResults baselineFilteredResults
  end.

Definition isJavaScript (doc : DocumentInput) : bool :=
  let languageId := JS.toLowerCase <$> languageId doc in
  let extension := extension_of (filename doc) in
  bool_decide (languageId = Some "javascript")
  || bool_decide (languageId = Some "typescript")
  || bool_decide (languageId = Some "javascriptreact")
  || bool_decide (languageId = Some "typescriptreact")
  || JS.array_includes script_extensions extension.

Definition isCSS (doc : DocumentInput) : bool :=
  let languageId := JS.toLowerCase <$> languageId doc in
  let extension := extension_of (filename doc) in
  bool_decide (languageId = Some "css")
  || bool_decide (languageId = Some "scss")
  || bool_decide (languageId = Some "less")
  || JS.array_includes style_extensions extension.

(** The parser chosen for a document and what it returns. *)
Definition scanDocument `{Catalog} `{Externals} (doc : DocumentInput)
    : list CompatibilityResult :=
  if isJavaScript doc then Javascript.parseJavaScript (content doc) (filename doc)
  else if isCSS doc then Css.parseCSS (content doc) (filename doc)
  else [].

(** What the loop over documents adds for one document. *)
Definition checkDocument `{Catalog} `{Externals} (config : BaselineConfig)
    (baselineEngine : BaselineTarget) (doc : DocumentInput) : list CompatibilityResult :=
  let fileResults := scanDocument doc in
  let configuredResults := applyConfiguration fileResults config in
  let baselineFilteredResults :=
    BaselineEngine.filterResults baselineEngine configuredResults in
  BaselineEngine.enhanceResults baselineFilteredResults.

(** The file paths the first branch iterates over. *)
Definition selectFiles `{Externals} (config : BaselineConfig) (filePaths : list string)
    : list string :=
  match filePaths with
  | [] => discoverFiles config
  | _ =>
      match default [] (exclude config) with
      | [] => filePaths
      | excludePatterns =>
          List.filter (fun file => negb (isFileExcluded file excludePatterns)) filePaths
      end
  end.

Definition engineOf (config : BaselineConfig) : BaselineTarget :=
  {| year := target config; customBrowserslist := cfg_browserslist config |}.

Definition checkCompatibilityWithConfig `{Catalog} `{Externals} (files : Files)
    (config : BaselineConfig) : list CompatibilityResult :=
  let baselineEngine := engineOf config in
  match files with
  | paths filePaths =>
      flat_map (checkFile config baselineEngine) (selectFiles config filePaths)
  | documents [] =>
      flat_map (checkFile config baselineEngine) (selectFiles config [])
  | documents docs => flat_map (checkDocument config baselineEngine) docs
  end.

(** [checkCompatibility]: a fresh loader, then the check; a failure to
    load the configuration is thrown to the caller. *)
Definition checkCompatibility `{Catalog} `{Externals} (files : Files)
    (options : CheckerOptions) : Exc (list CompatibilityResult) :=
  match fst (Config.loadConfig ∅ (opt_workspaceRoot options) (opt_config options)) with
  | OK config => OK (checkCompatibilityWithConfig files config)
  | Throw m => Throw m
  end.

End Checker.

(** ** The catalog of the repository
    ([data/baseline-features.ts], [data/web-features-data.ts]) *)

Definition web_feature (id : string) (st : Status) (since : option string)
    (support : list (string * string)) (url : string) : WebFeature :=
  {| wf_id := id;
     wf_baseline := {| status := st; since := since |};
     browser_support := support;
     mdn_url := Some url |}.

Definition baselineFeatures_table : list (string * BaselineData) := [
    ("fetch", Build_BaselineData widely (Some "2017-03"));
    ("promises", Build_BaselineData widely (Some "2016-03"));
    ("arrow-functions", Build_BaselineData widely (Some "2016-03"));
    ("let-const", Build_BaselineData widely (Some "2016-03"));
    ("template-literals", Build_BaselineData widely (Some "2016-03"));
    ("optional-chaining", Build_BaselineData newly (Some "2022-03"));
    ("nullish-coalescing", Build_BaselineData newly (Some "2022-03"));
    ("array-flat", Build_BaselineData newly (Some "2022-03"));
    ("array-flatmap", Build_BaselineData newly (Some "2022-03"));
    ("object-fromentries", Build_BaselineData newly (Some "2022-03"));
    ("string-matchall", Build_BaselineData newly (Some "2022-03"));
    ("intersection-observer", Build_BaselineData newly (Some "2022-03"));
    ("resize-observer", Build_BaselineData newly (Some "2023-03"));
    ("clipboard-api", Build_BaselineData limited (None));
    ("file-system-access", Build_BaselineData limited (None));
    ("web-share", Build_BaselineData limited (None));
    ("view-transitions", Build_BaselineData limited (None));
    ("web-locks", Build_BaselineData limited (None));
    ("broadcast-channel", Build_BaselineData newly (Some "2022-03"));
    ("css-grid", Build_BaselineData widely (Some "2020-03"));
    ("css-flexbox", Build_BaselineData widely (Some "2017-03"));
    ("css-variables", Build_BaselineData widely (Some "2020-03"));
    ("css-has-selector", Build_BaselineData newly (Some "2023-12"));
    ("css-focus-visible", Build_BaselineData newly (Some "2023-03"));
    ("css-focus-within", Build_BaselineData newly (Some "2022-03"));
    ("css-is-selector", Build_BaselineData newly (Some "2023-03"));
    ("css-where-selector", Build_BaselineData newly (Some "2023-03"));
    ("css-container-queries", Build_BaselineData newly (Some "2023-02"));
    ("css-aspect-ratio", Build_BaselineData newly (Some "2022-03"));
    ("css-gap", Build_BaselineData newly (Some "2022-03"));
    ("css-backdrop-filter", Build_BaselineData newly (Some "2022-03"));
    ("css-scroll-behavior", Build_BaselineData newly (Some "2022-03"));
    ("css-accent-color", Build_BaselineData newly (Some "2022-03"));
    ("css-oklch-color", Build_BaselineData limited (None));
    ("css-oklab-color", Build_BaselineData limited (None));
    ("css-color-mix", Build_BaselineData limited (None));
    ("css-relative-colors", Build_BaselineData limited (None));
    ("css-subgrid", Build_BaselineData limited (None));
    ("css-cascade-layers", Build_BaselineData limited (None));
    ("dialog-element", Build_BaselineData newly (Some "2022-03"));
    ("details-element", Build_BaselineData widely (Some "2020-03"));
    ("bigint", Build_BaselineData newly (Some "2022-03"));
    ("dynamic-import", Build_BaselineData newly (Some "2022-03"));
    ("top-level-await", Build_BaselineData newly (Some "2023-03"));
    ("private-fields", Build_BaselineData newly (Some "2022-03"));
    ("array-at", Build_BaselineData newly (Some "2022-03"))
  ].

Definition webFeaturesData_table : list (string * WebFeature) := [
    ("css-has-selector", web_feature "css-has-selector" newly (Some "2023-12")
       [("chrome", "105"); ("firefox", "121"); ("safari", "15.4")]
       "https://developer.mozilla.org/en-US/docs/Web/CSS/:has");
    ("css-focus-visible", web_feature "css-focus-visible" newly (Some "2023-03")
       [("chrome", "86"); ("firefox", "85"); ("safari", "15.4")]
       "https://developer.mozilla.org/en-US/docs/Web/CSS/:focus-visible");
    ("clipboard-api", web_feature "clipboard-api" limited (None)
       [("chrome", "76"); ("firefox", "127"); ("safari", "13.1")]
       "https://developer.mozilla.org/en-US/docs/Web/API/Clipboard_API");
    ("file-system-access", web_feature "file-system-access" limited (None)
       [("chrome", "86"); ("edge", "86")]
       "https://developer.mozilla.org/en-US/docs/Web/API/File_System_Access_API");
    ("view-transitions", web_feature "view-transitions" limited (None)
       [("chrome", "111")]
       "https://developer.mozilla.org/en-US/docs/Web/API/View_Transitions_API");
    ("web-share", web_feature "web-share" limited (None)
       [("chrome", "89"); ("safari", "14")]
       "https://developer.mozilla.org/en-US/docs/Web/API/Web_Share_API");
    ("dialog-element", web_feature "dialog-element" newly (Some "2022-03")
       [("chrome", "37"); ("firefox", "98"); ("safari", "15.4")]
       "https://developer.mozilla.org/en-US/docs/Web/HTML/Element/dialog");
    ("css-container-queries", web_feature "css-container-queries" newly (Some "2023-02")
       [("chrome", "105"); ("firefox", "110"); ("safari", "16")]
       "https://developer.mozilla.org/en-US/docs/Web/CSS/CSS_Container_Queries");
    ("css-oklch-color", web_feature "css-oklch-color" newly (Some "2023-08")
       [("chrome", "111"); ("firefox", "113"); ("safari", "15.4")]
       "https://developer.mozilla.org/en-US/docs/Web/CSS/color_value/oklch");
    ("css-color-mix", web_feature "css-color-mix" newly (Some "2023-06")
       [("chrome", "111"); ("firefox", "113"); ("safari", "16.2")]
       "https://developer.mozilla.org/en-US/docs/Web/CSS/color_value/color-mix");
    ("css-accent-color", web_feature "css-accent-color" newly (Some "2022-03")
       [("chrome", "93"); ("firefox", "92"); ("safari", "15.4")]
       "https://developer.mozilla.org/en-US/docs/Web/CSS/accent-color");
    ("css-backdrop-filter", web_feature "css-backdrop-filter" newly (Some "2022-03")
       [("chrome", "76"); ("firefox", "103"); ("safari", "9")]
       "https://developer.mozilla.org/en-US/docs/Web/CSS/backdrop-filter");
    ("css-scroll-behavior", web_feature "css-scroll-behavior" newly (Some "2022-03")
       [("chrome", "61"); ("firefox", "36"); ("safari", "15.4")]
       "https://developer.mozilla.org/en-US/docs/Web/CSS/scroll-behavior");
    ("intersection-observer", web_feature "intersection-observer" newly (Some "2022-03")
       [("chrome", "51"); ("firefox", "55"); ("safari", "12.1")]
       "https://developer.mozilla.org/en-US/docs/Web/API/Intersection_Observer_API");
    ("resize-observer", web_feature "resize-observer" newly (Some "2023-03")
       [("chrome", "64"); ("firefox", "69"); ("safari", "13.1")]
       "https://developer.mozilla.org/en-US/docs/Web/API/Resize_Observer_API");
    ("broadcast-channel", web_feature "broadcast-channel" newly (Some "2022-03")
       [("chrome", "54"); ("firefox", "38"); ("safari", "15.4")]
       "https://developer.mozilla.org/en-US/docs/Web/API/Broadcast_Channel_API");
    ("array-flat", web_feature "array-flat" newly (Some "2022-03")
       [("chrome", "69"); ("firefox", "62"); ("safari", "12")]
       "https://developer.mozilla.org/en-US/docs/Web/JavaScript/Reference/Global_Objects/Array/flat");
    ("array-flatmap", web_feature "array-flatmap" newly (Some "2022-03")
       [("chrome", "69"); ("firefox", "62"); ("safari", "12")]
       "https://developer.mozilla.org/en-US/docs/Web/JavaScript/Reference/Global_Objects/Array/flatMap");
    ("object-fromentries", web_feature "object-fromentries" newly (Some "2022-03")
       [("chrome", "73"); ("firefox", "63"); ("safari", "12.1")]
       "https://developer.mozilla.org/en-US/docs/Web/JavaScript/Reference/Global_Objects/Object/fromEntries");
    ("string-matchall", web_feature "string-matchall" newly (Some "2022-03")
       [("chrome", "73"); ("firefox", "67"); ("safari", "13")]
       "https://developer.mozilla.org/en-US/docs/Web/JavaScript/Reference/Global_Objects/String/matchAll");
    ("bigint", web_feature "bigint" newly (Some "2022-03")
       [("chrome", "67"); ("firefox", "68"); ("safari", "14")]
       "https://developer.mozilla.org/en-US/docs/Web/JavaScript/Reference/Global_Objects/BigInt");
    ("globalthis", web_feature "globalthis" newly (Some "2022-03")
       [("chrome", "71"); ("firefox", "65"); ("safari", "12.1")]
       "https://developer.mozilla.org/en-US/docs/Web/JavaScript/Reference/Global_Objects/globalThis");
    ("array-at", web_feature "array-at" newly (Some "2022-03")
       [("chrome", "92"); ("firefox", "90"); ("safari", "15.4")]
       "https://developer.mozilla.org/en-US/docs/Web/JavaScript/Reference/Global_Objects/Array/at")
  ].

Definition catalog : Catalog :=
  {| baselineFeatures := list_to_map baselineFeatures_table;
     webFeaturesData := list_to_map webFeaturesData_table |}.

(** ** The coverage rule in the words of its description

    A resolved entry is read as an engine/version pair; a pair is
    supported when the feature records a minimum version for the engine
    and that minimum is at most the pair's version. *)

Record Pair := {
  engine : string;
  version : JS.number
}.

Definition pair_of (browser : string) : Pair :=
  let parts := JS.split browser " " in
  {| engine := BaselineEngine.normalizeBrowserName (default EmptyString (head parts));
     version := JS.parseFloat (default "undefined" (parts !! 1)) |}.

Definition pair_supported (w : WebFeature) (p : Pair) : bool :=
  match prop (browser_support w) (engine p) with
  | Some minimum => JS.le (JS.parseFloat minimum) (version p)
  | None => false
  end.

Definition supported_pairs (w : WebFeature) (pairs : list Pair) : nat :=
  length (List.filter (pair_supported w) pairs).

(** ** The severity precedence in the words of its description

    Rule entry first, then the severity map, then the default; [None]
    when either level says [ignore]. *)
Definition effective_severity (rule entry : option Override) (dflt : Severity)
    : option Severity :=
  match rule, entry with
  | Some ignore, _ | _, Some ignore => None
  | Some (level s), _ => Some s
  | None, Some (level s) => Some s
  | None, None => Some dflt
  end.

(** ** The aggregator, unit by unit

    [occurrences] lists what the matchers find in each unit the
    aggregator iterates over (nothing for an unreadable file), and
    [diagnostic] is what an occurrence looks like once it has gone
    through the configuration and the baseline engine. *)

Definition occurrences `{Catalog} `{Externals} (files : Files) (config : BaselineConfig)
    : list (list CompatibilityResult) :=
  let of_paths (filePaths : list string) :=
    map (fun file =>
           match readFileSync file with
           | Some content => Checker.scanFile file content
           | None => []
           end) (Checker.selectFiles config filePaths) in
  match files with
  | paths filePaths => of_paths filePaths
  | documents [] => of_paths []
  | documents docs => map Checker.scanDocument docs
  end.

Definition diagnostic `{Catalog} (config : BaselineConfig) (occurrence : CompatibilityResult)
    : CompatibilityResult :=
  {| file := file occurrence;
     line := line occurrence;
     column := column occurrence;
     feature := feature occurrence;
     message :=
       message occurrence +:+ " - "
         +:+ BaselineEngine.getBaselineMessage (feature occurrence);
     severity := Config.getFeatureSeverity (feature occurrence) config;
     baseline := baseline occurrence;
     browserSupport := browserSupport occurrence;
     fixes := fixes occurrence |}.

(** ** Sample inputs

    A small world for the closed examples: each source text is listed
    with the tree its parser builds for it, each query with the list it
    resolves to; anything else fails to parse or to resolve. *)

Module Sample.

Definition at_ (l c : Z) : option Position := Some {| pos_line := l; pos_column := c |}.

(** Texts that contain double quotes are written with single quotes and
    converted. *)
Fixpoint dq (s : string) : string :=
  match s with
  | EmptyString => EmptyString
  | String c r => String (if Ascii.eqb c "'" then "034"%char else c) (dq r)
  end.

(** [const x = a?.b ?? c;] *)
Definition chain_text : string := "const x = a?.b ?? c;".

Definition chain_ast : Node :=
  Other (at_ 1 0) [                                   (* File, Program *)
    Other (at_ 1 0) [                                 (* VariableDeclaration *)
      Other (at_ 1 6) [                               (* VariableDeclarator *)
        Identifier (at_ 1 6) "x";
        LogicalExpression (at_ 1 10) "??"
          (OptionalMemberExpression (at_ 1 10)
             (Identifier (at_ 1 10) "a") (Identifier (at_ 1 13) "b"))
          (Identifier (at_ 1 18) "c") ] ] ].

(** [navigator.share(data);] *)
Definition share_text : string := "navigator.share(data);".

Definition share_ast : Node :=
  Other (at_ 1 0) [                                   (* File, Program *)
    Other (at_ 1 0) [                                 (* ExpressionStatement *)
      CallExpression (at_ 1 0)
        (MemberExpression (at_ 1 0)
           (Identifier (at_ 1 0) "navigator") (Identifier (at_ 1 10) "share"))
        [ Identifier (at_ 1 16) "data" ] ] ].

(** Two statements, the first with a marker appended to its line. *)
Definition inline_text : string :=
  "x ?? 1; // baseline-buddy-ignore" +:+ String "010" "y ?? 2;".

Definition inline_ast : Node :=
  Other (at_ 1 0) [
    Other (at_ 1 0) [
      LogicalExpression (at_ 1 0) "??" (Identifier (at_ 1 0) "x") (Other (at_ 1 5) []) ];
    Other (at_ 2 0) [
      LogicalExpression (at_ 2 0) "??" (Identifier (at_ 2 0) "y") (Other (at_ 2 5) []) ] ].

(** A marker alone on the first line, then two statements. *)
Definition standalone_text : string :=
  "// baseline-buddy-ignore" +:+ String "010" "x ?? 1;" +:+ String "010" "y ?? 2;".

Definition standalone_ast : Node :=
  Other (at_ 1 0) [
    Other (at_ 2 0) [
      LogicalExpression (at_ 2 0) "??" (Identifier (at_ 2 0) "x") (Other (at_ 2 5) []) ];
    Other (at_ 3 0) [
      LogicalExpression (at_ 3 0) "??" (Identifier (at_ 3 0) "y") (Other (at_ 3 5) []) ] ].

(** The same two statements without any marker. *)
Definition plain_text : string := "x ?? 1;" +:+ String "010" "y ?? 2;".

Definition plain_ast : Node :=
  Other (at_ 1 0) [
    Other (at_ 1 0) [
      LogicalExpression (at_ 1 0) "??" (Identifier (at_ 1 0) "x") (Other (at_ 1 5) []) ];
    Other (at_ 2 0) [
      LogicalExpression (at_ 2 0) "??" (Identifier (at_ 2 0) "y") (Other (at_ 2 5) []) ] ].

(** A script that does not parse. *)
Definition broken_text : string := dq "const invalid = {missing: quote'".

(** [.card:has(.x) {}] *)
Definition has_text : string := ".card:has(.x) {}".

Definition has_ast : list CssNode := [ Rule (at_ 1 1) ".card:has(.x)" [] ].

(** A configuration file that asks for a custom target and gives no
    query list. *)
Definition custom_config_text : string :=
  dq "{'baseline':{'target':'custom'},'severity':{'default':'warning'}}".

Definition custom_config : json :=
  JObject [ ("baseline", JObject [ ("target", JString "custom") ]);
            ("severity", JObject [ ("default", JString "warning") ]) ].

(** The same with an empty query list. *)
Definition empty_list_config_text : string :=
  dq "{'baseline':{'target':'custom','browserslist':[]},'severity':{'default':'warning'}}".

Definition empty_list_config : json :=
  JObject [ ("baseline", JObject [ ("target", JString "custom");
                                   ("browserslist", JArray []) ]);
            ("severity", JObject [ ("default", JString "warning") ]) ].

(** Twenty resolved entries: nineteen releases of one engine and one of
    an engine for which [array-at] records no minimum. *)
Definition twenty : list string :=
  map (fun v => "chrome " +:+ v)
    ["120"; "119"; "118"; "117"; "116"; "115"; "114"; "113"; "112"; "111";
     "110"; "109"; "108"; "107"; "106"; "105"; "104"; "103"; "102"]
  ++ ["edge 120"].

(** Twenty resolved entries of which eighteen are supported. *)
Definition twenty_less : list string :=
  map (fun v => "chrome " +:+ v)
    ["120"; "119"; "118"; "117"; "116"; "115"; "114"; "113"; "112"; "111";
     "110"; "109"; "108"; "107"; "106"; "105"; "104"; "103"]
  ++ ["edge 120"; "edge 119"].

Definition world : Externals :=
  {| babel_parse content :=
       if String.eqb content chain_text then Some chain_ast
       else if String.eqb content share_text then Some share_ast
       else if String.eqb content inline_text then Some inline_ast
       else if String.eqb content standalone_text then Some standalone_ast
       else if String.eqb content plain_text then Some plain_ast
       else None;
     postcss_parse content :=
       if String.eqb content has_text then Some has_ast else None;
     browserslist query :=
       if bool_decide (query = ["chrome >= 102"; "edge 120"]) then Some twenty
       else if bool_decide (query = ["chrome >= 103"; "edge >= 119"]) then Some twenty_less
       else if bool_decide (query = ["ie 5"]) then Some []
       else if bool_decide (query = []) then Some []
       else None;
     minimatch _ _ := false;
     glob _ _ := [];
     readFileSync path :=
       if String.eqb path "/work/baseline.config.json" then Some custom_config_text
       else if String.eqb path "/work/empty.json" then Some empty_list_config_text
       else None;
     existsSync path := String.eqb path "/work/baseline.config.json";
     JSON_parse text :=
       if String.eqb text custom_config_text then Some custom_config
       else if String.eqb text empty_list_config_text then Some empty_list_config
       else None;
     process_cwd := "/work";
     path_join dir name := dir +:+ "/" +:+ name |}.

Definition document (name text : string) : DocumentInput :=
  {| filename := name; content := text; languageId := None |}.

Definition share_document : DocumentInput := document "app.js" share_text.

(** The two occurrences the script matcher finds in [share_text]. *)
Definition web_share_occurrence : CompatibilityResult :=
  {| file := "app.js"; line := 1; column := 0;
     feature := "web-share";
     message := "navigator.share() is not widely supported (limited)";
     severity := warning;
     baseline := "limited";
     browserSupport := ["chrome"; "safari"];
     fixes := Some [ {| fix_type := "documentation";
                        fix_description := "Learn more on MDN";
                        fix_url := Some "https://developer.mozilla.org/en-US/docs/Web/API/Web_Share_API" |} ] |}.

Definition web_share_api_occurrence : CompatibilityResult :=
  {| file := "app.js"; line := 1; column := 0;
     feature := "web-share-api";
     message := "navigator.share() - Web Share API is not widely supported";
     severity := warning;
     baseline := "limited";
     browserSupport := [];
     fixes := None |}.

(** A configuration with both kinds of override for one feature. *)
Definition override_config : BaselineConfig :=
  {| target := target_2024;
     cfg_browserslist := None;
     severity_default := warning;
     severity_features := Some {[ "web-share-api" := level info ]};
     include := None;
     exclude := None;
     rules := Some {[ "web-share-api" :=
                        {| rule_severity := Some (level error); rule_message := None |} ]} |}.

End Sample.


(** ** [cli/index.ts]: the exit status of the [check] command *)

Definition severity_string (s : Severity) : string :=
  match s with
  | error => "error"
  | warning => "warning"
  | info => "info"
  end.

Module Cli.

(** [results.filter(r => r.severity === level).length] *)
Definition count (level : string) (results : list CompatibilityResult) : nat :=
  length (List.filter (fun r => String.eqb (severity_string (severity r)) level) results).

(** Whether the command exits with status 1 after printing, for the
    value of [--fail-on]. *)
Definition shouldFail (failOn : string) (results : list CompatibilityResult) : bool :=
  if 0 <? length results then
    let errorCount := count "error" results in
    let warningCount := count "warning" results in
    let infoCount := count "info" results in
    if String.eqb failOn "error" then 0 <? errorCount
    else if String.eqb failOn "warning" then (0 <? errorCount) || (0 <? warningCount)
    else if String.eqb failOn "info" then
      (0 <? errorCount) || (0 <? warningCount) || (0 <? infoCount)
    else if String.eqb failOn "any" then 0 <? length results
    else false
  else false.

End Cli.

(** ** [extension/diagnostic-provider.ts] and [extension/code-action-provider.ts] *)

Inductive DiagnosticSeverity :=
| SeverityError
| SeverityWarning
| SeverityInformation
| SeverityHint.

(** An editor diagnostic: a range on one line, from [character] to
    [character_end]. *)
Record Diagnostic := {
  range_line : Z;
  character : Z;
  character_end : Z;
  diagnostic_message : string;
  diagnostic_severity : DiagnosticSeverity;
  diagnostic_source : string;
  diagnostic_code : string;
  relatedInformation : option string
}.

Module Editor.

Definition mapSeverity (severity : string) : DiagnosticSeverity :=
  if String.eqb severity "error" then SeverityError
  else if String.eqb severity "warning" then SeverityWarning
  else if String.eqb severity "info" then SeverityInformation
  else SeverityWarning.

(** [convertToDiagnostics], for the document named [fileName]. *)
Definition convertToDiagnostics (results : list CompatibilityResult) (fileName : string)
    : list Diagnostic :=
  map (fun result =>
         let line := Z.max 0 (line result - 1) in
         let character := Z.max 0 (column result) in
         {| range_line := line;
            character := character;
            character_end := (character + 10)%Z;
            diagnostic_message := message result;
            diagnostic_severity := mapSeverity (severity_string (severity result));
            diagnostic_source := "Greenlight";
            diagnostic_code := feature result;
            relatedInformation :=
              match browserSupport result with
              | [] => None
              | engines => Some ("Supported in: " +:+ String.concat ", " engines)
              end |})
    (List.filter (fun result => String.eqb (file result) fileName) results).

(** [getIgnoreCommentForLanguage] of the code action provider: the
    comment its "ignore" quick fix inserts. *)
Definition getIgnoreCommentForLanguage (languageId : string) : string :=
  if JS.array_includes ["css"; "scss"; "less"] languageId
  then "/* greenlight-ignore */"
  else "// greenlight-ignore".

End Editor.

(** ** Shapes of script trees used in the statements *)

Module Shape.

(** The number of nodes of a tree. *)
Fixpoint size (node : Node) : nat :=
  S match node with
    | Identifier _ _ | StringLiteral _ _ => 0
    | PrivateName _ id => size id
    | MemberExpression _ object property
    | OptionalMemberExpression _ object property => size object + size property
    | CallExpression _ callee arguments
    | OptionalCallExpression _ callee arguments
    | NewExpression _ callee arguments =>
        size callee + list_sum (map size arguments)
    | LogicalExpression _ _ lhs rhs => size lhs + size rhs
    | AwaitExpression _ argument => size argument
    | ClassPrivateProperty _ key value =>
        size key + match value with Some v => size v | None => 0 end
    | ClassPrivateMethod _ key children => size key + list_sum (map size children)
    | FunctionNode _ children | Other _ children => list_sum (map size children)
    end.

(** An optional chain over plain names, with calls that take no
    argument: [a], [a?.b], [a?.b?.c], [a?.b?.()], ... *)
Fixpoint is_optional_chain (node : Node) : bool :=
  match node with
  | Identifier _ _ => true
  | OptionalMemberExpression _ object (Identifier _ _) => is_optional_chain object
  | OptionalCallExpression _ callee [] => is_optional_chain callee
  | _ => false
  end.

End Shape.

(** ** The suppression set in words

    A line number [n] is suppressed by the line [text] at index [i] of
    [total] lines, for a marker, when the line contains the marker and
    [n] is its number, or the number of the next line when the line is
    nothing but the marker and is not the last line. *)

Definition suppressed_by (marker text : string) (i total : nat) (n : Z) : Prop :=
  JS.includes text marker = true
  /\ (n = (Z.of_nat i + 1)%Z
      \/ n = (Z.of_nat i + 2)%Z /\ JS.trim text = marker /\ i + 1 < total).

(** ** Overlap of a marker with the text that follows

    [overlapping m c]: the ends of [m] that are beginnings of [c]; with
    one of them [m] can straddle the junction of a text and [c]. *)

Fixpoint overlapping (m c : string) : list string :=
  match m with
  | EmptyString => []
  | String _ m' => (if String.prefix m c then [m] else []) ++ overlapping m' c
  end.

(** ** Further sample inputs *)

Module Cases.

(** [async function f() { await a?.b?.c; }] *)
Definition async_text : string := "async function f() { await a?.b?.c; }".

Definition chain : Node :=
  OptionalMemberExpression (Sample.at_ 1 27)
    (OptionalMemberExpression (Sample.at_ 1 27)
       (Identifier (Sample.at_ 1 27) "a") (Identifier (Sample.at_ 1 30) "b"))
    (Identifier (Sample.at_ 1 33) "c").

Definition async_function : Node :=
  FunctionNode (Sample.at_ 1 0) [
    Identifier (Sample.at_ 1 15) "f";
    Other (Sample.at_ 1 19) [                         (* BlockStatement *)
      Other (Sample.at_ 1 21) [                       (* ExpressionStatement *)
        AwaitExpression (Sample.at_ 1 21) chain ] ] ].

Definition async_ast : Node :=
  Other (Sample.at_ 1 0) [ Other (Sample.at_ 1 0) [ async_function ] ].

(** The occurrence the matcher finds in [async_text]. *)
Definition chain_occurrence : CompatibilityResult :=
  {| file := "f.js"; line := 1; column := 27;
     feature := "optional-chaining";
     message := "Optional chaining (?.) requires modern browsers";
     severity := warning;
     baseline := "unknown";
     browserSupport := [];
     fixes := None |}.

(** The occurrence the stylesheet matcher finds in [Sample.has_text]. *)
Definition has_occurrence : CompatibilityResult :=
  {| file := "card.css"; line := 1; column := 1;
     feature := "css-has-selector";
     message := ":has() selector is not widely supported";
     severity := warning;
     baseline := "limited";
     browserSupport := ["chrome"; "firefox"; "safari"];
     fixes := None |}.

(** A configuration with a member the schema does not declare, as in the
    integration test. *)
Definition ignore_config : json :=
  JObject [ ("baseline", JObject [ ("target", JString "2024") ]);
            ("severity", JObject [ ("default", JString "warning") ]);
            ("include", JArray [ JString "**/*.{js,css}" ]);
            ("exclude", JArray [ JString "node_modules/**" ]);
            ("ignore", JObject [ ("features", JArray [ JString "nullish-coalescing" ]) ]) ].

(** A configuration whose only override is in the severity map. *)
Definition map_config : BaselineConfig :=
  {| target := target_2024;
     cfg_browserslist := None;
     severity_default := warning;
     severity_features := Some {[ "web-share-api" := level info ]};
     include := None;
     exclude := None;
     rules := None |}.

(** The same with "ignore" in the severity map. *)
Definition map_ignore_config : BaselineConfig :=
  {| target := target_2024;
     cfg_browserslist := None;
     severity_default := warning;
     severity_features := Some {[ "web-share-api" := ignore ]};
     include := None;
     exclude := None;
     rules := None |}.

(** A lone line marker behind a byte order mark, then a statement. *)
Definition marked_text : string :=
  String "239" (String "187" (String "191" "// baseline-buddy-ignore"))
  +:+ String "010" "x ?? 1;".

(** A package manifest without a section for the tool. *)
Definition package_text : string := Sample.dq "{'name':'app','version':'1.0.0'}".

Definition package_json : json :=
  JObject [ ("name", JString "app"); ("version", JString "1.0.0") ].

Definition world : Externals :=
  {| babel_parse content :=
       if String.eqb content async_text then Some async_ast else None;
     postcss_parse _ := None;
     browserslist query :=
       if bool_decide (query = ["last 1 chrome version"; "last 1 firefox version"])
       then Some ["chrome 120"; "firefox 121"]
       else if bool_decide (query = ["edge 120"]) then Some ["edge 120"]
       else None;
     minimatch _ _ := false;
     glob _ _ := [];
     readFileSync path :=
       if String.eqb path "/app/package.json" then Some package_text else None;
     existsSync path := String.eqb path "/app/package.json";
     JSON_parse text :=
       if String.eqb text package_text then Some package_json else None;
     process_cwd := "/app";
     path_join dir name := dir +:+ "/" +:+ name |}.

Definition array_at : WebFeature :=
  web_feature "array-at" newly (Some "2022-03")
    [("chrome", "92"); ("firefox", "90"); ("safari", "15.4")]
    "https://developer.mozilla.org/en-US/docs/Web/JavaScript/Reference/Global_Objects/Array/at".

End Cases.
(** * Properties *)

(** ** The pipeline of one unit *)

Section Pipeline.
Context `{Catalog} `{Externals}.

Local Abbreviation configured config r0 :=
  {| file := file r0; line := line r0; column := column r0;
     feature := feature r0; message := message r0;
     severity := Config.getFeatureSeverity (feature r0) config;
     baseline := baseline r0; browserSupport := browserSupport r0;
     fixes := fixes r0 |}.

Lemma in_applyConfiguration (config : BaselineConfig) (results : list CompatibilityResult)
    (r : CompatibilityResult) :
  In r (Checker.applyConfiguration results config) <->
  exists r0, In r0 results
    /\ Config.shouldIgnoreFeature (feature r0) config = false
    /\ r = configured config r0.
Proof.
  unfold Checker.applyConfiguration. rewrite in_map_iff. split.
  - intros (r0 & <- & Hin). apply filter_In in Hin as [Hin Hkeep].
    exists r0. apply negb_true_iff in Hkeep. auto.
  - intros (r0 & Hin & Hkeep & ->). exists r0. split; [reflexivity|].
    apply filter_In. split; [assumption|]. now rewrite Hkeep.
Qed.

(** What one unit contributes: the occurrences that are neither ignored
    by the configuration nor judged baseline, each as its diagnostic. *)
Lemma in_unit (config : BaselineConfig) (this : BaselineTarget)
    (results : list CompatibilityResult) (r : CompatibilityResult) :
  In r (BaselineEngine.enhanceResults
          (BaselineEngine.filterResults this (Checker.applyConfiguration results config)))
  <->
  exists r0, In r0 results
    /\ Config.shouldIgnoreFeature (feature r0) config = false
    /\ BaselineEngine.isFeatureBaseline this (feature r0) = false
    /\ r = diagnostic config r0.
Proof.
  unfold BaselineEngine.enhanceResults, BaselineEngine.filterResults.
  rewrite in_map_iff. split.
  - intros (r1 & <- & Hin). apply filter_In in Hin as [Hin Hkeep].
    apply in_applyConfiguration in Hin as (r0 & Hin & Hign & ->).
    cbn in Hkeep. apply negb_true_iff in Hkeep.
    exists r0. auto.
  - intros (r0 & Hin & Hign & Hbase & ->).
    exists (configured config r0). split; [reflexivity|].
    apply filter_In. split.
    + apply in_applyConfiguration. exists r0. auto.
    + cbn. now rewrite Hbase.
Qed.

Lemma check_by_unit (files : Files) (config : BaselineConfig) :
  Checker.checkCompatibilityWithConfig files config =
  flat_map (fun results =>
              BaselineEngine.enhanceResults
                (BaselineEngine.filterResults (Checker.engineOf config)
                   (Checker.applyConfiguration results config)))
    (occurrences files config).
Proof.
  unfold Checker.checkCompatibilityWithConfig, occurrences.
  assert (Hpaths : forall l,
    flat_map (Checker.checkFile config (Checker.engineOf config)) l =
    flat_map (fun results =>
                BaselineEngine.enhanceResults
                  (BaselineEngine.filterResults (Checker.engineOf config)
                     (Checker.applyConfiguration results config)))
      (map (fun file => match readFileSync file with
                        | Some content => Checker.scanFile file content
                        | None => []
                        end) l)).
  { induction l as [|file l IH]; [reflexivity|]. cbn [flat_map map]. rewrite IH.
    f_equal. unfold Checker.checkFile. now destruct (readFileSync file). }
  destruct files as [filePaths|[|doc docs]]; try apply Hpaths.
  generalize (doc :: docs). intros l.
  induction l as [|d l IH]; [reflexivity|]. cbn [flat_map map]. now rewrite IH.
Qed.

(** The final list, characterised: a diagnostic is in it exactly when it
    comes from an occurrence of some unit that is neither ignored nor
    baseline. *)
Lemma in_check (files : Files) (config : BaselineConfig) (r : CompatibilityResult) :
  In r (Checker.checkCompatibilityWithConfig files config) <->
  exists results r0, In results (occurrences files config) /\ In r0 results
    /\ Config.shouldIgnoreFeature (feature r0) config = false
    /\ BaselineEngine.isFeatureBaseline (Checker.engineOf config) (feature r0) = false
    /\ r = diagnostic config r0.
Proof.
  rewrite check_by_unit, in_flat_map. split.
  - intros (results & Hu & Hr). apply in_unit in Hr as (r0 & ?). exists results, r0. tauto.
  - intros (results & r0 & Hu & Hr). exists results. split; [assumption|].
    apply in_unit. exists r0. assumption.
Qed.

End Pipeline.

(** ** Widely supported features *)

Section Widely.
Context `{Catalog} `{Externals}.

Lemma widely_is_baseline (this : BaselineTarget) (featureId : string) (entry : BaselineInfo) :
  BaselineEngine.featureOf featureId = Some entry ->
  status entry = widely ->
  BaselineEngine.isFeatureBaseline this featureId = true.
Proof.
  intros Hentry Hstatus. unfold BaselineEngine.isFeatureBaseline.
  now rewrite Hentry, Hstatus.
Qed.

Lemma filterResults_not_baseline (this : BaselineTarget)
    (results : list CompatibilityResult) (r : CompatibilityResult) :
  In r (BaselineEngine.filterResults this results) ->
  BaselineEngine.isFeatureBaseline this (feature r) = false.
Proof.
  unfold BaselineEngine.filterResults. intros Hin.
  apply filter_In in Hin as [_ Hkeep]. now apply negb_true_iff in Hkeep.
Qed.

(** C1. For a feature whose catalog entry has status "widely",
    [isFeatureBaseline] answers true under every target, [filterResults]
    keeps no occurrence of it, and no diagnostic of the final list of the
    aggregator carries it, whatever the input and the configuration. *)
Theorem C1_widely_never_reported (featureId : string) (entry : BaselineInfo) :
  BaselineEngine.featureOf featureId = Some entry ->
  status entry = widely ->
  (forall this, BaselineEngine.isFeatureBaseline this featureId = true)
  /\ (forall this results r,
        In r (BaselineEngine.filterResults this results) -> feature r <> featureId)
  /\ (forall files config r,
        In r (Checker.checkCompatibilityWithConfig files config) ->
        feature r <> featureId).
Proof.
  intros Hentry Hstatus. split; [|split].
  - intros this. eapply widely_is_baseline; eassumption.
  - intros this results r Hin Heq.
    apply filterResults_not_baseline in Hin. rewrite Heq in Hin.
    rewrite (widely_is_baseline this featureId entry) in Hin by assumption.
    discriminate.
  - intros files config r Hin Heq.
    apply in_check in Hin as (results & r0 & _ & _ & _ & Hbase & ->).
    cbn in Heq. subst featureId.
    rewrite (widely_is_baseline _ _ entry) in Hbase by assumption.
    discriminate.
Qed.

End Widely.

Lemma C1_witness :
  (forall this, BaselineEngine.isFeatureBaseline (H := catalog) (H0 := Sample.world)
                  this "fetch" = true)
  /\ (forall this results r,
        In r (BaselineEngine.filterResults (H := catalog) (H0 := Sample.world) this results) ->
        feature r <> "fetch")
  /\ (forall files config r,
        In r (Checker.checkCompatibilityWithConfig (H := catalog) (H0 := Sample.world)
                files config) ->
        feature r <> "fetch").
Proof.
  apply (C1_widely_never_reported (H := catalog) (H0 := Sample.world) "fetch"
           {| status := widely; since := Some "2017-03" |}).
  - vm_compute. reflexivity.
  - reflexivity.
Defined.

(** In the repository's catalog the two registries never disagree on
    "widely": no web feature is recorded as widely supported, so a
    feature is "widely" exactly when [baselineFeatures] says so. *)
Lemma catalog_widely_entries :
  forallb (fun '(_, w) => match status (wf_baseline w) with widely => false | _ => true end)
    webFeaturesData_table = true
  /\ map fst (List.filter (fun '(_, d) => match bd_status d with widely => true | _ => false end)
                baselineFeatures_table)
     = ["fetch"; "promises"; "arrow-functions"; "let-const"; "template-literals";
        "css-grid"; "css-flexbox"; "css-variables"; "details-element"].
Proof. split; vm_compute; reflexivity. Qed.

(** ** Severity of the diagnostics *)

Section Severity.
Context `{Catalog} `{Externals}.

(** The two functions of the loader, taken together, compute the
    precedence as it is described. *)
Lemma effective_severity_loader (featureId : string) (config : BaselineConfig) :
  effective_severity (Config.ruleSeverity featureId config)
    (Config.featureSeverity featureId config) (severity_default config)
  = if Config.shouldIgnoreFeature featureId config then None
    else Some (Config.getFeatureSeverity featureId config).
Proof.
  unfold Config.shouldIgnoreFeature, Config.getFeatureSeverity, effective_severity.
  destruct (Config.ruleSeverity featureId config) as [[s1|]|];
    destruct (Config.featureSeverity featureId config) as [[s2|]|]; reflexivity.
Qed.

Lemma in_check_severity (files : Files) (config : BaselineConfig) (r : CompatibilityResult) :
  In r (Checker.checkCompatibilityWithConfig files config) ->
  Config.shouldIgnoreFeature (feature r) config = false
  /\ severity r = Config.getFeatureSeverity (feature r) config.
Proof.
  intros Hin. apply in_check in Hin as (results & r0 & _ & _ & Hign & _ & ->).
  cbn. auto.
Qed.

(** C7. The severity of every diagnostic of the final list is the one
    the precedence gives for its feature, read from the configuration
    itself: the severity of its entry in [rules], else its entry in the
    severity map, else the default (so a rule entry "error" wins over a
    map entry "info"); and a feature with "ignore" at either level has
    no diagnostic in the list, whatever its baseline status. *)
Theorem C7_severity_precedence (files : Files) (config : BaselineConfig)
    (r : CompatibilityResult) :
  In r (Checker.checkCompatibilityWithConfig files config) ->
  let rule :=
    match rules config with
    | Some table =>
        match table !! feature r with
        | Some entry => rule_severity entry
        | None => None
        end
    | None => None
    end in
  let entry :=
    match severity_features config with
    | Some table => table !! feature r
    | None => None
    end in
  effective_severity rule entry (severity_default config) = Some (severity r)
  /\ rule <> Some ignore
  /\ entry <> Some ignore
  /\ (rule = Some (level error) -> entry = Some (level info) -> severity r = error)
  /\ (rule = None -> forall s, entry = Some (level s) -> severity r = s).
Proof.
  intros Hin rule entry.
  change rule with (Config.ruleSeverity (feature r) config).
  change entry with (Config.featureSeverity (feature r) config).
  clear rule entry.
  apply in_check_severity in Hin as [Hign Hsev].
  pose proof (effective_severity_loader (feature r) config) as Heff.
  rewrite Hign, <- Hsev in Heff.
  split; [assumption|]. split; [|split; [|split]].
  - intros Hrule. rewrite Hrule in Heff. discriminate.
  - intros Hmap. rewrite Hmap in Heff.
    destruct (Config.ruleSeverity (feature r) config) as [[?|]|]; discriminate.
  - intros Hrule Hmap. rewrite Hrule, Hmap in Heff. cbn in Heff. congruence.
  - intros Hrule s Hmap. rewrite Hrule, Hmap in Heff. cbn in Heff. congruence.
Qed.

(** C5, as the code has it. Without a per-feature override the severity
    of a diagnostic is the default severity of the configuration,
    whatever the catalog says about the feature; [getSeverityForFeature]
    does map "limited" to "error" and "newly" to "warning", but
    [enhanceResults] keeps the configured severity. *)
Theorem C5_default_severity_without_override (files : Files) (config : BaselineConfig)
    (r : CompatibilityResult) :
  In r (Checker.checkCompatibilityWithConfig files config) ->
  Config.ruleSeverity (feature r) config = None ->
  Config.featureSeverity (feature r) config = None ->
  BaselineEngine.isFeatureBaseline (Checker.engineOf config) (feature r) = false
  /\ severity r = severity_default config
  /\ (forall entry, BaselineEngine.featureOf (feature r) = Some entry ->
        status entry = limited ->
        BaselineEngine.getSeverityForFeature (feature r) = error)
  /\ (forall entry, BaselineEngine.featureOf (feature r) = Some entry ->
        status entry = newly ->
        BaselineEngine.getSeverityForFeature (feature r) = warning).
Proof.
  intros Hin Hrule Hmap.
  apply in_check in Hin as (results & r0 & _ & _ & _ & Hbase & ->). cbn in *.
  split; [assumption|]. split.
  - unfold Config.getFeatureSeverity. now rewrite Hrule, Hmap.
  - unfold BaselineEngine.getSeverityForFeature.
    split; intros entry -> ->; reflexivity.
Qed.

(** Every hit of [checkWebAPI] records the status "limited". *)
Lemma checkWebAPI_baseline (apiCall : string) (loc : option Position) (property : Node)
    (filename : string) (ignoredLines : gset Z) (r : CompatibilityResult) :
  Javascript.checkWebAPI apiCall loc property filename ignoredLines = Some r ->
  baseline r = "limited".
Proof.
  unfold Javascript.checkWebAPI.
  repeat match goal with
         | |- context [if ?b then _ else _] => destruct b
         end; intros Heq; inversion Heq; reflexivity.
Qed.

(** C6, as the code has it. An occurrence whose feature id is in neither
    registry is judged not baseline and, under the default configuration,
    is in the final list with severity "warning", the message extended
    with the unknown-status text, and the baseline field the matcher gave
    it: "unknown" when [createResult] got no descriptor, "limited" for
    the hits of [checkWebAPI]. *)
Theorem C6_unknown_feature_reported (files : Files)
    (results : list CompatibilityResult) (r0 : CompatibilityResult) :
  In results (occurrences files (Config.mergeWithDefaults (JObject []))) ->
  In r0 results ->
  baselineFeatures !! feature r0 = None ->
  webFeaturesData !! feature r0 = None ->
  let r := diagnostic (Config.mergeWithDefaults (JObject [])) r0 in
  (forall this, BaselineEngine.isFeatureBaseline this (feature r0) = false)
  /\ In r (Checker.checkCompatibilityWithConfig files (Config.mergeWithDefaults (JObject [])))
  /\ feature r = feature r0 /\ file r = file r0 /\ line r = line r0 /\ column r = column r0
  /\ severity r = warning
  /\ baseline r = baseline r0
  /\ message r = message r0 +:+ " - Unknown baseline status"
  /\ (forall f l c id m s, baseline (Javascript.createResult f l c id m s None) = "unknown")
  /\ (forall apiCall loc property f ign hit,
        Javascript.checkWebAPI apiCall loc property f ign = Some hit ->
        baseline hit = "limited").
Proof.
  intros Hunit Hin Hb Hw r.
  assert (Hnone : BaselineEngine.featureOf (feature r0) = None).
  { unfold BaselineEngine.featureOf. now rewrite Hb, Hw. }
  assert (Hbase : forall this, BaselineEngine.isFeatureBaseline this (feature r0) = false).
  { intros this. unfold BaselineEngine.isFeatureBaseline. now rewrite Hnone. }
  split; [assumption|]. split.
  { apply in_check. exists results, r0.
    split; [assumption|]. split; [assumption|]. split; [reflexivity|].
    split; [apply Hbase | reflexivity]. }
  subst r. cbn. unfold BaselineEngine.getBaselineMessage. rewrite Hnone.
  repeat split; try reflexivity.
  intros. eapply checkWebAPI_baseline; eassumption.
Qed.

End Severity.

Lemma mergeWithDefaults_empty : Config.mergeWithDefaults (JObject []) = DEFAULT_CONFIG.
Proof. reflexivity. Qed.

Lemma C7_witness :
  severity (diagnostic (H := catalog) Sample.override_config Sample.web_share_api_occurrence)
  = error
  /\ severity (diagnostic (H := catalog) Cases.map_config Sample.web_share_api_occurrence)
     = info.
Proof.
  split.
  - refine (proj1 (proj2 (proj2 (proj2
      (C7_severity_precedence (H := catalog) (H0 := Sample.world)
         (documents [Sample.share_document]) Sample.override_config
         (diagnostic (H := catalog) Sample.override_config Sample.web_share_api_occurrence)
         _)))) _ _).
    + vm_compute. right. left. reflexivity.
    + vm_compute. reflexivity.
    + vm_compute. reflexivity.
  - refine (proj2 (proj2 (proj2 (proj2
      (C7_severity_precedence (H := catalog) (H0 := Sample.world)
         (documents [Sample.share_document]) Cases.map_config
         (diagnostic (H := catalog) Cases.map_config Sample.web_share_api_occurrence)
         _)))) _ info _).
    + vm_compute. right. left. reflexivity.
    + vm_compute. reflexivity.
    + vm_compute. reflexivity.
Defined.

(** With "ignore" in the severity map alone, the feature has no
    diagnostic left: of the two occurrences of the sample script only
    the other one is reported. *)
Lemma map_ignore_removes :
  map feature
    (Checker.checkCompatibilityWithConfig (H := catalog) (H0 := Sample.world)
       (documents [Sample.share_document]) Cases.map_ignore_config)
  = ["web-share"]
  /\ map feature
       (Checker.checkCompatibilityWithConfig (H := catalog) (H0 := Sample.world)
          (documents [Sample.share_document]) Cases.map_config)
     = ["web-share"; "web-share-api"].
Proof. split; vm_compute; reflexivity. Qed.

Lemma C5_witness :
  severity (diagnostic (H := catalog) DEFAULT_CONFIG Sample.web_share_occurrence)
  = severity_default DEFAULT_CONFIG.
Proof.
  apply (C5_default_severity_without_override (H := catalog) (H0 := Sample.world)
           (documents [Sample.share_document]) DEFAULT_CONFIG
           (diagnostic (H := catalog) DEFAULT_CONFIG Sample.web_share_occurrence)).
  - vm_compute. left. reflexivity.
  - reflexivity.
  - reflexivity.
Defined.

(** Against C5 as stated: [web-share] is "limited", is not baseline
    under the default configuration, has no override, and its diagnostic
    carries "warning", not "error". *)
Lemma C5_counterexample :
  exists r,
    In r (Checker.checkCompatibilityWithConfig (H := catalog) (H0 := Sample.world)
            (documents [Sample.share_document]) (Config.mergeWithDefaults (JObject [])))
    /\ status <$> BaselineEngine.featureOf (H := catalog) (feature r) = Some limited
    /\ BaselineEngine.isFeatureBaseline (H := catalog) (H0 := Sample.world)
         (Checker.engineOf (Config.mergeWithDefaults (JObject []))) (feature r) = false
    /\ Config.ruleSeverity (feature r) (Config.mergeWithDefaults (JObject [])) = None
    /\ Config.featureSeverity (feature r) (Config.mergeWithDefaults (JObject [])) = None
    /\ severity r = warning
    /\ severity r <> error.
Proof.
  exists (diagnostic (H := catalog) DEFAULT_CONFIG Sample.web_share_occurrence).
  split; [vm_compute; left; reflexivity|].
  repeat split; try (vm_compute; reflexivity). discriminate.
Qed.

Lemma C6_witness :
  In (diagnostic (H := catalog) DEFAULT_CONFIG Sample.web_share_api_occurrence)
     (Checker.checkCompatibilityWithConfig (H := catalog) (H0 := Sample.world)
        (documents [Sample.share_document]) DEFAULT_CONFIG).
Proof.
  apply (C6_unknown_feature_reported (H := catalog) (H0 := Sample.world)
           (documents [Sample.share_document])
           [Sample.web_share_occurrence; Sample.web_share_api_occurrence]
           Sample.web_share_api_occurrence).
  - vm_compute. left. reflexivity.
  - right. left. reflexivity.
  - vm_compute. reflexivity.
  - vm_compute. reflexivity.
Defined.

(** Against C6 as stated: the occurrence [web-share-api] found in
    [navigator.share(data);] has an id that is in neither registry, is
    in the final list under the default configuration, and its baseline
    field is "limited", not "unknown". *)
Lemma C6_counterexample :
  exists r,
    In r (Checker.checkCompatibilityWithConfig (H := catalog) (H0 := Sample.world)
            (documents [Sample.share_document]) (Config.mergeWithDefaults (JObject [])))
    /\ baselineFeatures (Catalog := catalog) !! feature r = None
    /\ webFeaturesData (Catalog := catalog) !! feature r = None
    /\ baseline r = "limited"
    /\ baseline r <> "unknown".
Proof.
  exists (diagnostic (H := catalog) DEFAULT_CONFIG Sample.web_share_api_occurrence).
  split; [vm_compute; right; left; reflexivity|].
  repeat split; try (vm_compute; reflexivity). discriminate.
Qed.

(** ** Coverage of a resolved query *)

Section Coverage.
Context `{Catalog} `{Externals}.

(** The loop body reads an entry as a pair and tests it as described. *)
Lemma supports_pair (w : WebFeature) (browser : string) :
  BaselineEngine.supports w browser = pair_supported w (pair_of browser).
Proof.
  unfold BaselineEngine.supports, pair_supported, pair_of. cbn.
  destruct (prop (browser_support w) _) as [[|c minimum]|]; reflexivity.
Qed.

Lemma counter_fold (f : string -> bool) (l : list string) (k : nat) :
  fold_left (fun n b => if f b then S n else n) l k = k + length (List.filter f l).
Proof.
  revert k. induction l as [|b l IH]; intros k; cbn; [lia|].
  rewrite IH. destruct (f b); cbn; lia.
Qed.

Lemma filter_map_length {A B : Type} (f : A -> B) (p : B -> bool) (l : list A) :
  length (List.filter p (map f l)) = length (List.filter (fun a => p (f a)) l).
Proof.
  induction l as [|a l IH]; [reflexivity|]. cbn. destruct (p (f a)); cbn; now rewrite IH.
Qed.

Lemma supported_counter (w : WebFeature) (browsers : list string) :
  fold_left (fun n browser => if BaselineEngine.supports w browser then S n else n) browsers 0
  = supported_pairs w (map pair_of browsers).
Proof.
  rewrite counter_fold. unfold supported_pairs. rewrite filter_map_length. cbn.
  f_equal. apply filter_ext. intros b. apply supports_pair.
Qed.

Lemma supported_pairs_le (w : WebFeature) (pairs : list Pair) :
  supported_pairs w pairs <= length pairs.
Proof. unfold supported_pairs. apply filter_length_le. Qed.

(** The comparison of the ratio with the threshold, on the counters. *)
Lemma threshold (supported total : nat) :
  supported <= total ->
  JS.ge (JS.div supported total) (JS.Num (95 # 100)) = true
  <-> total <> 0 /\ (95 # 100 <= Z.of_nat supported # Pos.of_nat total)%Q.
Proof.
  intros Hle. destruct total as [|n].
  - assert (supported = 0) as -> by lia. cbn. split; [discriminate|]. intros [[] _]. reflexivity.
  - unfold JS.ge, JS.div, JS.le. rewrite Qle_bool_iff. split; [|tauto]. intros Hq. split; [lia|exact Hq].
Qed.

Lemma ratio_cross (supported total : nat) :
  total <> 0 ->
  (95 # 100 <= Z.of_nat supported # Pos.of_nat total)%Q <-> 19 * total <= 20 * supported.
Proof.
  intros Hpos. unfold Qle. cbn [Qnum Qden].
  replace (Z.pos (Pos.of_nat total)) with (Z.of_nat total).
  2:{ destruct total as [|n]; [congruence|].
      rewrite <- Pos.of_nat_succ, Zpos_P_of_succ_nat. lia. }
  lia.
Qed.

Lemma coverage_by_pairs (featureId : string) (w : WebFeature) (query browsers : list string) :
  webFeaturesData !! featureId = Some w ->
  browserslist query = Some browsers ->
  BaselineEngine.calculateBrowserslistCoverage featureId query
  = JS.ge (JS.div (supported_pairs w (map pair_of browsers)) (length (map pair_of browsers)))
      (JS.Num (95 # 100)).
Proof.
  intros Hw Hq. unfold BaselineEngine.calculateBrowserslistCoverage.
  rewrite Hw, Hq, supported_counter, length_map. reflexivity.
Qed.

Lemma custom_target_uses_coverage (this : BaselineTarget) (featureId : string)
    (entry : BaselineInfo) (query : list string) :
  BaselineEngine.featureOf featureId = Some entry ->
  status entry <> widely ->
  year this = target_custom ->
  customBrowserslist this = Some query ->
  BaselineEngine.isFeatureBaseline this featureId
  = BaselineEngine.calculateBrowserslistCoverage featureId query.
Proof.
  intros Hentry Hstatus Hyear Hquery. unfold BaselineEngine.isFeatureBaseline.
  rewrite Hentry, Hyear, Hquery. destruct (status entry); congruence.
Qed.

(** On doubles the threshold test gives the same answers as on exact
    rationals for all counters up to 40, the boundary case 19 of 20
    included, and 0/0 compares false. *)
Lemma binary64_threshold :
  Binary64.agrees_upto 40 = true
  /\ Binary64.meets_threshold 19 20 = true
  /\ Binary64.meets_threshold 18 20 = false
  /\ Binary64.meets_threshold 0 0 = false.
Proof. repeat split; vm_compute; reflexivity. Qed.

(** C2. For a feature with recorded minimum versions and a query that
    resolves to [total] engine/version pairs, of which [supported] are
    supported (the feature records a minimum for the engine and it is at
    most the pair's version), the coverage check succeeds exactly when
    supported/total >= 0.95; under a custom target this is the baseline
    verdict of every feature that is not "widely"; 19 of 20 passes and 18
    of 20 does not. *)
Theorem C2_coverage_threshold (featureId : string) (w : WebFeature)
    (query browsers : list string) :
  webFeaturesData !! featureId = Some w ->
  browserslist query = Some browsers ->
  let pairs := map pair_of browsers in
  let total := length pairs in
  let supported := supported_pairs w pairs in
  (BaselineEngine.calculateBrowserslistCoverage featureId query = true
   <-> total <> 0 /\ (95 # 100 <= Z.of_nat supported # Pos.of_nat total)%Q)
  /\ (forall this entry,
        BaselineEngine.featureOf featureId = Some entry ->
        status entry <> widely ->
        year this = target_custom ->
        customBrowserslist this = Some query ->
        (BaselineEngine.isFeatureBaseline this featureId = true
         <-> total <> 0 /\ (95 # 100 <= Z.of_nat supported # Pos.of_nat total)%Q))
  /\ (total = 20 -> supported = 19 ->
      BaselineEngine.calculateBrowserslistCoverage featureId query = true)
  /\ (total = 20 -> supported = 18 ->
      BaselineEngine.calculateBrowserslistCoverage featureId query = false).
Proof.
  intros Hw Hq pairs total supported.
  pose proof (coverage_by_pairs _ _ _ _ Hw Hq) as Hcov. fold pairs total supported in Hcov.
  assert (Hiff : BaselineEngine.calculateBrowserslistCoverage featureId query = true
                 <-> total <> 0 /\ (95 # 100 <= Z.of_nat supported # Pos.of_nat total)%Q).
  { rewrite Hcov. apply threshold. apply supported_pairs_le. }
  split; [exact Hiff|]. split; [|split].
  - intros this entry Hentry Hstatus Hyear Hquery.
    now rewrite (custom_target_uses_coverage this featureId entry query).
  - intros Ht Hs. rewrite Hcov, Ht, Hs. reflexivity.
  - intros Ht Hs. rewrite Hcov, Ht, Hs. reflexivity.
Qed.

(** C10, as the code has it. When the query resolves to no pair at all,
    the coverage check returns false (the ratio 0/0 compares false with
    the threshold; no failure arises), so under a custom target a
    feature is judged not baseline unless its status is "widely": a
    widely supported feature is baseline there as everywhere, the
    coverage check is not consulted for it. *)
Theorem C10_empty_resolution (featureId : string) (query : list string) :
  browserslist query = Some [] ->
  BaselineEngine.calculateBrowserslistCoverage featureId query = false
  /\ (forall this,
        year this = target_custom ->
        customBrowserslist this = Some query ->
        (BaselineEngine.isFeatureBaseline this featureId = false
         <-> status <$> BaselineEngine.featureOf featureId <> Some widely)).
Proof.
  intros Hq.
  assert (Hcov : BaselineEngine.calculateBrowserslistCoverage featureId query = false).
  { unfold BaselineEngine.calculateBrowserslistCoverage. rewrite Hq.
    now destruct (webFeaturesData !! featureId). }
  split; [exact Hcov|]. intros this Hyear Hquery.
  destruct (BaselineEngine.featureOf featureId) as [entry|] eqn:Hentry.
  - destruct (status entry) eqn:Hstatus.
    + rewrite (widely_is_baseline this featureId entry Hentry Hstatus). cbn.
      rewrite Hstatus. split; [discriminate|congruence].
    + rewrite (custom_target_uses_coverage this featureId entry query); try assumption;
        [|congruence]. rewrite Hcov. cbn. rewrite Hstatus. split; [discriminate|reflexivity].
    + rewrite (custom_target_uses_coverage this featureId entry query); try assumption;
        [|congruence]. rewrite Hcov. cbn. rewrite Hstatus. split; [discriminate|reflexivity].
  - unfold BaselineEngine.isFeatureBaseline. rewrite Hentry. cbn.
    split; [discriminate|reflexivity].
Qed.

End Coverage.

Lemma C2_witness :
  BaselineEngine.calculateBrowserslistCoverage (H := catalog) (H0 := Sample.world)
    "array-at" ["chrome >= 102"; "edge 120"] = true
  /\ BaselineEngine.calculateBrowserslistCoverage (H := catalog) (H0 := Sample.world)
       "array-at" ["chrome >= 103"; "edge >= 119"] = false.
Proof.
  split.
  - refine (proj1 (proj2 (proj2
      (C2_coverage_threshold (H := catalog) (H0 := Sample.world) "array-at"
         (web_feature "array-at" newly (Some "2022-03")
            [("chrome", "92"); ("firefox", "90"); ("safari", "15.4")]
            "https://developer.mozilla.org/en-US/docs/Web/JavaScript/Reference/Global_Objects/Array/at")
         ["chrome >= 102"; "edge 120"] Sample.twenty _ _))) _ _);
      vm_compute; reflexivity.
  - refine (proj2 (proj2 (proj2
      (C2_coverage_threshold (H := catalog) (H0 := Sample.world) "array-at"
         (web_feature "array-at" newly (Some "2022-03")
            [("chrome", "92"); ("firefox", "90"); ("safari", "15.4")]
            "https://developer.mozilla.org/en-US/docs/Web/JavaScript/Reference/Global_Objects/Array/at")
         ["chrome >= 103"; "edge >= 119"] Sample.twenty_less _ _))) _ _);
      vm_compute; reflexivity.
Defined.

Lemma C10_witness :
  BaselineEngine.calculateBrowserslistCoverage (H := catalog) (H0 := Sample.world)
    "array-at" ["ie 5"] = false
  /\ BaselineEngine.isFeatureBaseline (H := catalog) (H0 := Sample.world)
       {| year := target_custom; customBrowserslist := Some ["ie 5"] |} "array-at" = false.
Proof.
  split.
  - apply (C10_empty_resolution (H := catalog) (H0 := Sample.world) "array-at" ["ie 5"]).
    vm_compute. reflexivity.
  - refine (proj2 (proj2 (C10_empty_resolution (H := catalog) (H0 := Sample.world)
                            "array-at" ["ie 5"] _)
                     {| year := target_custom; customBrowserslist := Some ["ie 5"] |}
                     _ _) _).
    + vm_compute. reflexivity.
    + reflexivity.
    + reflexivity.
    + vm_compute. discriminate.
Defined.

(** Against C10 as stated: the query resolves to the empty list, and
    [fetch], which the catalog records as widely supported, is judged
    baseline under that custom target. *)
Lemma C10_counterexample :
  browserslist (Externals := Sample.world) ["ie 5"] = Some []
  /\ BaselineEngine.calculateBrowserslistCoverage (H := catalog) (H0 := Sample.world)
       "fetch" ["ie 5"] = false
  /\ BaselineEngine.isFeatureBaseline (H := catalog) (H0 := Sample.world)
       {| year := target_custom; customBrowserslist := Some ["ie 5"] |} "fetch" = true.
Proof. repeat split; vm_compute; reflexivity. Qed.

(** In the repository's catalog no feature with recorded minimum versions
    resolves to "widely", so there the verdict under a custom target is
    the coverage check for every such feature. *)
Lemma catalog_support_not_widely :
  forallb (fun '(featureId, _) =>
             match BaselineEngine.featureOf (H := catalog) featureId with
             | Some entry => match status entry with widely => false | _ => true end
             | None => false
             end) webFeaturesData_table = true.
Proof. vm_compute. reflexivity. Qed.

(** ** Parse failures *)

Section ParseFailure.
Context `{Catalog} `{Externals}.

Lemma parseJavaScript_invalid (content filename : string) :
  babel_parse content = None -> Javascript.parseJavaScript content filename = [].
Proof. intros Hfail. unfold Javascript.parseJavaScript. now rewrite Hfail. Qed.

Lemma parseCSS_invalid (content filename : string) :
  postcss_parse content = None -> Css.parseCSS content filename = [].
Proof. intros Hfail. unfold Css.parseCSS. now rewrite Hfail. Qed.

Lemma checkDocument_nothing (config : BaselineConfig) (doc : DocumentInput) :
  Checker.scanDocument doc = [] ->
  Checker.checkDocument config (Checker.engineOf config) doc = [].
Proof. intros Hscan. unfold Checker.checkDocument. now rewrite Hscan. Qed.

Lemma checkFile_nothing (config : BaselineConfig) (file content : string) :
  readFileSync file = Some content ->
  Checker.scanFile file content = [] ->
  Checker.checkFile config (Checker.engineOf config) file = [].
Proof. intros Hread Hscan. unfold Checker.checkFile. now rewrite Hread, Hscan. Qed.

(** C9. A script or stylesheet that fails to parse yields an empty
    occurrence list (the failure is caught inside the parser), and a
    batch that contains such a unit, given as documents or as file paths,
    produces what its other units produce. *)
Theorem C9_parse_failure_is_soft :
  (forall content filename,
     babel_parse content = None -> Javascript.parseJavaScript content filename = [])
  /\ (forall content filename,
        postcss_parse content = None -> Css.parseCSS content filename = [])
  /\ (forall config before doc after,
        (Checker.isJavaScript doc = true /\ babel_parse (content doc) = None)
        \/ (Checker.isJavaScript doc = false /\ Checker.isCSS doc = true
            /\ postcss_parse (content doc) = None) ->
        Checker.checkCompatibilityWithConfig (documents (before ++ doc :: after)) config
        = flat_map (Checker.checkDocument config (Checker.engineOf config)) (before ++ after))
  /\ (forall config filePaths before file after text,
        Checker.selectFiles config filePaths = before ++ file :: after ->
        readFileSync file = Some text ->
        (JS.array_includes Checker.script_extensions (Checker.extension_of file) = true
         /\ babel_parse text = None)
        \/ (JS.array_includes Checker.script_extensions (Checker.extension_of file) = false
            /\ JS.array_includes Checker.style_extensions (Checker.extension_of file) = true
            /\ postcss_parse text = None) ->
        Checker.checkCompatibilityWithConfig (paths filePaths) config
        = flat_map (Checker.checkFile config (Checker.engineOf config)) (before ++ after)).
Proof.
  split; [exact parseJavaScript_invalid|]. split; [exact parseCSS_invalid|]. split.
  - intros config before doc after Hbad.
    assert (Hscan : Checker.scanDocument doc = []).
    { unfold Checker.scanDocument.
      destruct Hbad as [[-> Hfail]|(-> & -> & Hfail)].
      - now apply parseJavaScript_invalid.
      - now apply parseCSS_invalid. }
    unfold Checker.checkCompatibilityWithConfig.
    destruct (before ++ doc :: after) as [|d l] eqn:Hl.
    { destruct before; discriminate. }
    rewrite <- Hl. rewrite !flat_map_app. cbn [flat_map].
    now rewrite (checkDocument_nothing config doc Hscan).
  - intros config filePaths before file after text Hsel Hread Hbad.
    assert (Hscan : Checker.scanFile file text = []).
    { unfold Checker.scanFile.
      destruct Hbad as [[-> Hfail]|(-> & -> & Hfail)].
      - now apply parseJavaScript_invalid.
      - now apply parseCSS_invalid. }
    unfold Checker.checkCompatibilityWithConfig. rewrite Hsel, !flat_map_app.
    cbn [flat_map]. now rewrite (checkFile_nothing config file text Hread Hscan).
Qed.

End ParseFailure.

Lemma C9_witness :
  Checker.checkCompatibilityWithConfig (H := catalog) (H0 := Sample.world)
    (documents ([Sample.share_document]
                  ++ Sample.document "invalid.js" Sample.broken_text
                  :: [Sample.document "card.css" Sample.has_text]))
    DEFAULT_CONFIG
  = flat_map (Checker.checkDocument (H := catalog) (H0 := Sample.world)
                DEFAULT_CONFIG (Checker.engineOf DEFAULT_CONFIG))
      ([Sample.share_document] ++ [Sample.document "card.css" Sample.has_text]).
Proof.
  apply (proj1 (proj2 (proj2 (C9_parse_failure_is_soft (H := catalog) (H0 := Sample.world))))).
  left. split; vm_compute; reflexivity.
Defined.

(** ** The end-to-end example under the default configuration *)

(** C3, on the code. With the tree the parser builds for
    [const x = a?.b ?? c;], the matcher finds the two occurrences, both at
    the start of the expression (line 1, column 10) with severity
    "warning"; but both features are "newly" since 2022 and have no
    recorded minimum versions, so under the target "2024" of the default
    configuration both are judged baseline and the final list is empty. *)
Theorem C3_chain_example_is_filtered `{Externals} (doc : DocumentInput) :
  content doc = Sample.chain_text ->
  Checker.isJavaScript doc = true ->
  babel_parse Sample.chain_text = Some Sample.chain_ast ->
  Javascript.parseJavaScript (H := catalog) (content doc) (filename doc)
  = [ Javascript.createResult (filename doc) 1 10 "nullish-coalescing"
        "Nullish coalescing (??) requires modern browsers" warning None;
      Javascript.createResult (filename doc) 1 10 "optional-chaining"
        "Optional chaining (?.) requires modern browsers" warning None ]
  /\ BaselineEngine.isFeatureBaseline (H := catalog)
       (Checker.engineOf (Config.mergeWithDefaults (JObject []))) "optional-chaining" = true
  /\ BaselineEngine.isFeatureBaseline (H := catalog)
       (Checker.engineOf (Config.mergeWithDefaults (JObject []))) "nullish-coalescing" = true
  /\ Checker.checkCompatibilityWithConfig (H := catalog) (documents [doc])
       (Config.mergeWithDefaults (JObject [])) = [].
Proof.
  intros Hcontent Hjs Hparse.
  assert (Hscan : Javascript.parseJavaScript (H := catalog) (content doc) (filename doc)
                  = [ Javascript.createResult (filename doc) 1 10 "nullish-coalescing"
                        "Nullish coalescing (??) requires modern browsers" warning None;
                      Javascript.createResult (filename doc) 1 10 "optional-chaining"
                        "Optional chaining (?.) requires modern browsers" warning None ]).
  { unfold Javascript.parseJavaScript. rewrite Hcontent, Hparse.
    generalize (filename doc). intros name. vm_compute. reflexivity. }
  split; [exact Hscan|]. split; [vm_compute; reflexivity|]. split; [vm_compute; reflexivity|].
  unfold Checker.checkCompatibilityWithConfig. cbn [flat_map].
  unfold Checker.checkDocument, Checker.scanDocument. rewrite Hjs, Hscan.
  generalize (filename doc). intros name. vm_compute. reflexivity.
Qed.

Lemma C3_witness :
  Checker.checkCompatibilityWithConfig (H := catalog) (H0 := Sample.world)
    (documents [Sample.document "input.js" Sample.chain_text])
    (Config.mergeWithDefaults (JObject [])) = [].
Proof.
  apply (C3_chain_example_is_filtered (H := Sample.world)
           (Sample.document "input.js" Sample.chain_text)); reflexivity.
Defined.

(** ** Suppression markers *)

Section Suppression.
Context `{Catalog}.

Lemma mark_superset (marker text : string) (i total : nat) (ignoredLines : gset Z) :
  ignoredLines ⊆ Javascript.mark marker text i total ignoredLines.
Proof. unfold Javascript.mark. repeat case_match; set_solver. Qed.

Lemma mark_adds (marker text : string) (i total : nat) (ignoredLines : gset Z) :
  JS.includes text marker = true ->
  (Z.of_nat i + 1)%Z ∈ Javascript.mark marker text i total ignoredLines.
Proof. intros Hm. unfold Javascript.mark. rewrite Hm. case_match; set_solver. Qed.

Lemma mark_adds_next (marker text : string) (i total : nat) (ignoredLines : gset Z) :
  JS.includes text marker = true ->
  JS.trim text = marker ->
  i + 1 < total ->
  (Z.of_nat i + 1 + 1)%Z ∈ Javascript.mark marker text i total ignoredLines.
Proof.
  intros Hm Htrim Hlt. unfold Javascript.mark. rewrite Hm, Htrim, String.eqb_refl.
  destruct (Nat.ltb_spec (i + 1) total); [|lia]. cbn. set_solver.
Qed.

Lemma scan_superset (lines : list string) (i total : nat) (ignoredLines : gset Z) :
  ignoredLines ⊆ Javascript.scan lines i total ignoredLines.
Proof.
  revert i ignoredLines. induction lines as [|text rest IH]; intros i acc; cbn; [done|].
  etrans; [|apply IH]. etrans; apply mark_superset.
Qed.

(** A line that contains a marker is in the set, and so is the next one
    when the marker stands alone and is not on the last line. *)
Lemma scan_marks (lines : list string) (total : nat) (j : nat) (text : string) :
  forall (k : nat) (ignoredLines : gset Z),
  lines !! j = Some text ->
  (JS.includes text Javascript.line_marker = true
   \/ JS.includes text Javascript.block_marker = true) ->
  (Z.of_nat (k + j) + 1)%Z ∈ Javascript.scan lines k total ignoredLines
  /\ ((JS.includes text Javascript.line_marker = true
       /\ JS.trim text = Javascript.line_marker
       \/ JS.includes text Javascript.block_marker = true
          /\ JS.trim text = Javascript.block_marker) ->
      k + j + 1 < total ->
      (Z.of_nat (k + j) + 1 + 1)%Z ∈ Javascript.scan lines k total ignoredLines).
Proof.
  revert j. induction lines as [|first rest IH]; intros j k acc Hj Hm; [discriminate|].
  destruct j as [|j]; cbn in Hj.
  - injection Hj as ->. rewrite Nat.add_0_r. cbn [Javascript.scan]. split.
    + apply scan_superset. destruct Hm as [Hm|Hm].
      * apply mark_superset. now apply mark_adds.
      * now apply mark_adds.
    + intros Halone Hlt. apply scan_superset. destruct Halone as [[Hi Ht]|[Hi Ht]].
      * apply mark_superset. now apply mark_adds_next.
      * now apply mark_adds_next.
  - cbn [Javascript.scan]. replace (k + S j) with (S k + j) by lia. now apply IH.
Qed.

(** Nothing is reported for a node whose line the suppression test
    accepts. *)
Lemma visitor_ignored (filename : string) (ignoredLines : gset Z) (parent : option Node)
    (insideFunction : bool) (node : Node) :
  Javascript.isLineIgnored (Javascript.start_line (Javascript.loc_of node)) ignoredLines = true ->
  Javascript.visitor filename ignoredLines parent insideFunction node = [].
Proof.
  intros Hign. destruct node; cbn in Hign |- *;
    unfold Javascript.flag, Javascript.report, Javascript.checkWebAPI;
    rewrite ?Hign; repeat case_match; try reflexivity; try discriminate.
Qed.

(** C4, on the code. A line that contains a marker, whether alone or
    after real content, also silences every construct on the following
    line; and a marker that stands alone (not on the last line) silences
    the line after that as well: the test looks for the construct's line
    and for the line before it in a set that already holds the line below
    a lone marker. *)
Theorem C4_marker_covers_following_lines (content : string) (i : nat) (text : string) :
  JS.split content "010" !! i = Some text ->
  (JS.includes text Javascript.line_marker = true
   \/ JS.includes text Javascript.block_marker = true) ->
  let ignoredLines := Javascript.parseIgnoreComments content in
  let marked := (Z.of_nat i + 1)%Z in
  (forall filename parent insideFunction node,
     Javascript.start_line (Javascript.loc_of node) = (marked + 1)%Z ->
     Javascript.visitor filename ignoredLines parent insideFunction node = [])
  /\ ((JS.includes text Javascript.line_marker = true
       /\ JS.trim text = Javascript.line_marker
       \/ JS.includes text Javascript.block_marker = true
          /\ JS.trim text = Javascript.block_marker) ->
      i + 1 < length (JS.split content "010") ->
      forall filename parent insideFunction node,
        Javascript.start_line (Javascript.loc_of node) = (marked + 2)%Z ->
        Javascript.visitor filename ignoredLines parent insideFunction node = []).
Proof.
  intros Hline Hm ignoredLines marked.
  destruct (scan_marks (JS.split content "010") (length (JS.split content "010")) i text
              0 ∅ Hline Hm) as [Hin Hnext].
  cbn [Nat.add] in Hin, Hnext. fold marked in Hin, Hnext.
  split.
  - intros filename parent inside node Hloc. apply visitor_ignored.
    unfold Javascript.isLineIgnored. rewrite Hloc.
    replace (marked + 1 - 1)%Z with marked by lia.
    apply orb_true_iff. right. now apply bool_decide_eq_true.
  - intros Halone Hlt filename parent inside node Hloc. apply visitor_ignored.
    unfold Javascript.isLineIgnored. rewrite Hloc.
    replace (marked + 2 - 1)%Z with (marked + 1)%Z by lia.
    apply orb_true_iff. right. apply bool_decide_eq_true. now apply Hnext.
Qed.

(** The stylesheet parser has the same two functions, with the block
    marker only, and the same reach. *)
Lemma css_scan_superset (lines : list string) (i total : nat) (ignoredLines : gset Z) :
  ignoredLines ⊆ Css.scan lines i total ignoredLines.
Proof.
  revert i ignoredLines. induction lines as [|text rest IH]; intros i acc; cbn; [done|].
  etrans; [|apply IH]. repeat case_match; set_solver.
Qed.

Lemma css_scan_marks (lines : list string) (total : nat) (j : nat) (text : string) :
  forall (k : nat) (ignoredLines : gset Z),
  lines !! j = Some text ->
  JS.includes text Css.block_marker = true ->
  (Z.of_nat (k + j) + 1)%Z ∈ Css.scan lines k total ignoredLines
  /\ (JS.trim text = Css.block_marker ->
      k + j + 1 < total ->
      (Z.of_nat (k + j) + 1 + 1)%Z ∈ Css.scan lines k total ignoredLines).
Proof.
  revert j. induction lines as [|first rest IH]; intros j k acc Hj Hm; [discriminate|].
  destruct j as [|j]; cbn in Hj.
  - injection Hj as ->. rewrite Nat.add_0_r. cbn [Css.scan]. rewrite Hm. split.
    + apply css_scan_superset.
      destruct (_ && _); [apply elem_of_union_r|]; apply elem_of_union_l, elem_of_singleton_2;
        reflexivity.
    + intros Htrim Hlt. apply css_scan_superset.
      rewrite Htrim, String.eqb_refl.
      destruct (Nat.ltb_spec (k + 1) total); [|lia]. cbn.
      apply elem_of_union_l, elem_of_singleton_2. reflexivity.
  - cbn [Css.scan]. replace (k + S j) with (S k + j) by lia. now apply IH.
Qed.

Lemma css_marker_covers_following_lines (content : string) (i : nat) (text : string) :
  JS.split content "010" !! i = Some text ->
  JS.includes text Css.block_marker = true ->
  let ignoredLines := Css.parseIgnoreComments content in
  Css.isLineIgnored (Z.of_nat i + 1) ignoredLines = true
  /\ Css.isLineIgnored (Z.of_nat i + 2) ignoredLines = true
  /\ (JS.trim text = Css.block_marker ->
      i + 1 < length (JS.split content "010") ->
      Css.isLineIgnored (Z.of_nat i + 3) ignoredLines = true).
Proof.
  intros Hline Hm ignoredLines.
  destruct (css_scan_marks (JS.split content "010") (length (JS.split content "010")) i text
              0 ∅ Hline Hm) as [Hin Hnext].
  cbn [Nat.add] in Hin, Hnext. unfold Css.isLineIgnored.
  split; [|split].
  - apply orb_true_iff. left. now apply bool_decide_eq_true.
  - apply orb_true_iff. right. apply bool_decide_eq_true.
    now replace (Z.of_nat i + 2 - 1)%Z with (Z.of_nat i + 1)%Z by lia.
  - intros Htrim Hlt. apply orb_true_iff. right. apply bool_decide_eq_true.
    replace (Z.of_nat i + 3 - 1)%Z with (Z.of_nat i + 1 + 1)%Z by lia. now apply Hnext.
Qed.

End Suppression.

Lemma C4_witness :
  Javascript.visitor (H := catalog) "app.js"
    (Javascript.parseIgnoreComments Sample.inline_text) None false
    (LogicalExpression (Sample.at_ 2 0) "??"
       (Identifier (Sample.at_ 2 0) "y") (Other (Sample.at_ 2 5) []))
  = [].
Proof.
  apply (proj1 (C4_marker_covers_following_lines (H := catalog) Sample.inline_text 0
                  "x ?? 1; // baseline-buddy-ignore" eq_refl (or_introl eq_refl))).
  reflexivity.
Defined.

(** The two sample scripts with a marker, and the same script without:
    the marker appended to line 1 leaves nothing of line 2, and the lone
    marker on line 1 leaves nothing of lines 2 and 3. *)
Lemma marker_examples :
  Javascript.parseJavaScript (H := catalog) (H0 := Sample.world) Sample.inline_text "app.js" = []
  /\ Javascript.parseJavaScript (H := catalog) (H0 := Sample.world)
       Sample.standalone_text "app.js" = []
  /\ map line (Javascript.parseJavaScript (H := catalog) (H0 := Sample.world)
                 Sample.plain_text "app.js") = [1%Z; 2%Z].
Proof. repeat split; vm_compute; reflexivity. Qed.

(** White space is trimmed in its encoded form: a byte order mark, a
    no-break space and a line separator around a text go, as the ASCII
    white space does; and a lone marker behind a byte order mark
    suppresses its own line and the next. *)
Lemma trim_examples :
  JS.trim (String "239" (String "187" (String "191" (String "194" (String "160"
            ("a b" +:+ String "226" (String "128" (String "168" " "))))))))
  = "a b"
  /\ JS.trim (String "009" "a" +:+ String "013" EmptyString) = "a"
  /\ JS.trim (String "226" (String "128" "a")) = String "226" (String "128" "a")
  /\ forall n : Z,
       n ∈ Javascript.parseIgnoreComments Cases.marked_text <-> n = 1%Z \/ n = 2%Z.
Proof.
  split; [vm_compute; reflexivity|]. split; [vm_compute; reflexivity|].
  split; [vm_compute; reflexivity|]. intros n.
  assert (Hset : Javascript.parseIgnoreComments Cases.marked_text
                 = {[ 2%Z ]} ∪ ({[ 1%Z ]} ∪ ∅)).
  { unfold Javascript.parseIgnoreComments.
    replace (JS.split Cases.marked_text "010")
      with [String "239" (String "187" (String "191" "// baseline-buddy-ignore")); "x ?? 1;"]
      by (vm_compute; reflexivity).
    cbn [length Javascript.scan]. unfold Javascript.mark.
    repeat match goal with
           | |- context [JS.includes ?t ?m] =>
               let b := eval vm_compute in (JS.includes t m) in
               replace (JS.includes t m) with b by (vm_compute; reflexivity)
           | |- context [String.eqb (JS.trim ?t) ?m] =>
               let b := eval vm_compute in (String.eqb (JS.trim t) m) in
               replace (String.eqb (JS.trim t) m) with b by (vm_compute; reflexivity)
           end.
    cbn. reflexivity. }
  rewrite Hset, !elem_of_union, !elem_of_singleton. split.
  - intros [Hn|[Hn|Hn]]; [now right|now left|now apply not_elem_of_empty in Hn].
  - intros [Hn|Hn]; [right; now left|now left].
Qed.

(** ** Loading a configuration with a custom target *)

Section Loading.
Context `{Externals}.

Lemma validateConfigSchema_valid (config : json) (configPath : string) :
  Config.validate config baselineConfigSchema EmptyString = [] ->
  Config.validateConfigSchema config configPath = OK tt.
Proof. intros Hvalid. unfold Config.validateConfigSchema. now rewrite Hvalid. Qed.

(** The schema puts no bound on the length of the query list. *)
Lemma schema_accepts_empty_list (path : string) :
  Config.validate (JArray []) (array_schema (string_schema None)) path = [].
Proof. reflexivity. Qed.

(** C8, as the code has it. For a user configuration that passes the
    schema and asks for the custom target, the loader consults the
    resolver only when a query list is present, and rejects the
    configuration exactly when the resolver throws on that list; a
    missing list is accepted and yields a custom target without a list,
    and an empty list is handed to the resolver like any other. *)
Theorem C8_custom_target_loading (configCache : gmap string BaselineConfig)
    (path text : string) (userConfig : json) :
  truthy (Some path) = true ->
  configCache !! path = None ->
  JS.endsWith path "package.json" = false ->
  readFileSync path = Some text ->
  JSON_parse text = Some userConfig ->
  Config.validate userConfig baselineConfigSchema EmptyString = [] ->
  Config.get (Config.get (Some userConfig) "baseline") "target" = Some (JString "custom") ->
  let merged := Config.mergeWithDefaults userConfig in
  let listed := Config.get (Config.get (Some userConfig) "baseline") "browserslist" in
  target merged = target_custom
  /\ cfg_browserslist merged = Config.as_strings listed
  /\ fst (Config.loadConfig configCache None (Some path))
     = match Config.as_strings listed with
       | None => OK merged
       | Some query =>
           match browserslist query with
           | Some _ => OK merged
           | None =>
               Throw ("Failed to load config from " +:+ path
                        +:+ ": Invalid browserslist configuration")
           end
       end
  /\ (listed = None -> fst (Config.loadConfig configCache None (Some path)) = OK merged)
  /\ (listed = Some (JArray []) ->
      fst (Config.loadConfig configCache None (Some path))
      = match browserslist [] with
        | Some _ => OK merged
        | None =>
            Throw ("Failed to load config from " +:+ path
                     +:+ ": Invalid browserslist configuration")
        end).
Proof.
  intros Hpath Hcache Hpkg Hread Hparse Hvalid Htarget merged listed.
  assert (Hmt : target merged = target_custom).
  { subst merged. unfold Config.mergeWithDefaults. cbn [target]. now rewrite Htarget. }
  assert (Hml : cfg_browserslist merged = Config.as_strings listed) by reflexivity.
  assert (Hload : fst (Config.loadConfig configCache None (Some path))
     = match Config.as_strings listed with
       | None => OK merged
       | Some query =>
           match browserslist query with
           | Some _ => OK merged
           | None =>
               Throw ("Failed to load config from " +:+ path
                        +:+ ": Invalid browserslist configuration")
           end
       end).
  { unfold Config.loadConfig. rewrite Hpath. cbn [default id]. rewrite Hpath, Hcache.
    unfold Config.readConfig. rewrite Hread, Hparse, Hpkg.
    rewrite (validateConfigSchema_valid _ _ Hvalid).
    fold merged. rewrite Hmt, Hml.
    destruct (Config.as_strings listed) as [query|]; [|reflexivity].
    unfold Config.validateBrowserslist. now destruct (browserslist query). }
  split; [exact Hmt|]. split; [exact Hml|]. split; [exact Hload|]. split.
  - intros Hnone. rewrite Hload, Hnone. reflexivity.
  - intros Hempty. rewrite Hload, Hempty. reflexivity.
Qed.

End Loading.

Lemma C8_witness :
  fst (Config.loadConfig (H := Sample.world) ∅ None (Some "/work/baseline.config.json"))
  = OK (Config.mergeWithDefaults Sample.custom_config).
Proof.
  refine (proj1 (proj2 (proj2 (proj2
    (C8_custom_target_loading (H := Sample.world) ∅ "/work/baseline.config.json"
       Sample.custom_config_text Sample.custom_config _ _ _ _ _ _ _)))) _);
    vm_compute; reflexivity.
Defined.

(** Against C8 as stated: a configuration file that asks for the custom
    target and has no query list passes the schema and is loaded, from
    the workspace root, as a configuration whose target is custom and
    whose list is missing. *)
Lemma C8_counterexample :
  exists config,
    JSON_parse (Externals := Sample.world) Sample.custom_config_text = Some Sample.custom_config
    /\ Config.get (Config.get (Some Sample.custom_config) "baseline") "target"
       = Some (JString "custom")
    /\ Config.get (Config.get (Some Sample.custom_config) "baseline") "browserslist" = None
    /\ Config.validate Sample.custom_config baselineConfigSchema EmptyString = []
    /\ fst (Config.loadConfig (H := Sample.world) ∅ (Some "/work") None) = OK config
    /\ target config = target_custom
    /\ cfg_browserslist config = None.
Proof.
  exists (Config.mergeWithDefaults Sample.custom_config).
  repeat split; vm_compute; reflexivity.
Qed.

(** * Further properties of the checker *)

(** ** The script matcher *)

Section ScriptMatcher.
Context `{Catalog}.

(** A property of everything the visitor returns, as long as the flag
    stays acceptable on the way down, holds of everything the traversal
    returns. *)
Lemma traverse_Forall (P : CompatibilityResult -> Prop) (R : bool -> Prop)
    (visit : option Node -> bool -> Node -> list CompatibilityResult) :
  (forall b, R b -> R true) ->
  (forall parent inside node, R inside -> Forall P (visit parent inside node)) ->
  forall node parent inside, R inside ->
    Forall P (Javascript.traverse visit parent inside node).
Proof.
  intros Hup Hvisit. fix IH 1. intros node parent inside Hr.
  pose proof (Hup _ Hr) as Htrue.
  destruct node as [loc name|loc value|loc id|loc object property|loc object property
                   |loc callee arguments|loc callee arguments|loc callee arguments
                   |loc operator lhs rhs|loc argument|loc key value|loc key children
                   |loc children|loc children];
    cbn [Javascript.traverse]; apply Forall_app; split;
    try (apply Hvisit; exact Hr); try (constructor; fail);
    repeat (apply Forall_app; split); try (apply IH; assumption).
  all: try (destruct value as [v|]; [apply IH; assumption|constructor]).
  all: match goal with
       | |- Forall _ (flat_map (Javascript.traverse _ ?p _) ?l) =>
           generalize p; intros p'; induction l as [|a l IHl]; cbn; [constructor|];
           apply Forall_app; split; [apply IH; assumption|exact IHl]
       end.
Qed.

Lemma flag_spec (filename : string) (ignoredLines : gset Z) (loc : option Position)
    (id text : string) (r : CompatibilityResult) :
  In r (Javascript.flag filename ignoredLines loc id text) ->
  Javascript.isLineIgnored (Javascript.start_line loc) ignoredLines = false
  /\ r = Javascript.createResult filename (Javascript.start_line loc)
           (Javascript.start_column loc) id text warning None.
Proof.
  unfold Javascript.flag.
  destruct (Javascript.isLineIgnored _ _); cbn; [tauto|]. intros [<-|[]]. auto.
Qed.

Lemma report_spec (filename : string) (ignoredLines : gset Z) (loc : option Position)
    (found : option WebFeature) (text : WebFeature -> string) (r : CompatibilityResult) :
  In r (Javascript.report filename ignoredLines loc found text) ->
  exists w, found = Some w
    /\ status (wf_baseline w) <> widely
    /\ Javascript.isLineIgnored (Javascript.start_line loc) ignoredLines = false
    /\ r = Javascript.createResult filename (Javascript.start_line loc)
             (Javascript.start_column loc) (wf_id w) (text w) warning
             (Some (catalog_entry w)).
Proof.
  unfold Javascript.report. destruct found as [w|]; [|intros []].
  destruct (status (wf_baseline w)) eqn:Hs; cbn; [intros []| |];
    (destruct (Javascript.isLineIgnored _ _); cbn; [intros []|];
     intros [<-|[]]; exists w; rewrite Hs; repeat split; congruence).
Qed.

Lemma checkWebAPI_spec (apiCall : string) (loc : option Position) (property : Node)
    (filename : string) (ignoredLines : gset Z) (r : CompatibilityResult) :
  Javascript.checkWebAPI apiCall loc property filename ignoredLines = Some r ->
  Javascript.isLineIgnored (Javascript.start_line loc) ignoredLines = false
  /\ exists id text,
       r = Javascript.createResult filename (Javascript.start_line loc)
             (Javascript.start_column loc) id text warning (Some (status_only limited))
       /\ In id ["dialog-element"; "clipboard-api"; "web-share-api"; "view-transitions";
                 "css-typed-om"; "intersection-observer-v2"].
Proof.
  unfold Javascript.checkWebAPI.
  destruct (Javascript.isLineIgnored _ _); [discriminate|]. split; [reflexivity|].
  repeat match goal with
         | Hyp : context [if ?b then _ else _] |- _ => destruct b
         end;
    match goal with
    | Hyp : Some _ = Some _ |- _ => injection Hyp as <-; do 2 eexists; split; [reflexivity|]; cbn; tauto
    | Hyp : None = Some _ |- _ => discriminate
    end.
Qed.

(** Where an occurrence returned for one node comes from: a construct
    with a fixed id, a hit of [checkWebAPI], or a catalog entry found by
    [detectWebFeatures] that is not widely supported. *)
Lemma visitor_spec (filename : string) (ignoredLines : gset Z) (parent : option Node)
    (inside : bool) (node : Node) (r : CompatibilityResult) :
  In r (Javascript.visitor filename ignoredLines parent inside node) ->
  Javascript.isLineIgnored (Javascript.start_line (Javascript.loc_of node)) ignoredLines = false
  /\ exists id text descriptor,
       r = Javascript.createResult filename (Javascript.start_line (Javascript.loc_of node))
             (Javascript.start_column (Javascript.loc_of node)) id text warning descriptor
       /\ (descriptor = None
             /\ (In id ["optional-chaining"; "nullish-coalescing"; "private-class-fields"]
                 \/ id = "top-level-await" /\ inside = false)
           \/ descriptor = Some (status_only limited)
              /\ In id ["dialog-element"; "clipboard-api"; "web-share-api"; "view-transitions";
                        "css-typed-om"; "intersection-observer-v2"]
           \/ exists w apiCall, descriptor = Some (catalog_entry w) /\ id = wf_id w
                /\ detectWebFeatures apiCall = Some w /\ status (wf_baseline w) <> widely).
Proof.
  intros Hin.
  destruct node; cbn in Hin |- *; try contradiction;
    repeat match type of Hin with
           | In _ (if ?b then _ else _) => destruct b eqn:?
           | In _ (match ?x with _ => _ end) => destruct x eqn:?
           | In _ [] => contradiction
           end;
    try (apply flag_spec in Hin as [Hline ->]; split; [exact Hline|];
         do 3 eexists; split; [reflexivity|]; left; split; [reflexivity|];
         cbn; first [left; tauto | right; split; [reflexivity|]; now destruct inside]);
    try (apply report_spec in Hin as (w & Hfound & Hstatus & Hline & ->);
         split; [exact Hline|]; do 3 eexists; split; [reflexivity|];
         right; right; eauto 10).
  destruct Hin as [<-|[]].
  match goal with
  | Hc : Javascript.checkWebAPI _ _ _ _ _ = Some _ |- _ =>
      apply checkWebAPI_spec in Hc as (Hline & id & text & -> & Hid)
  end.
  split; [exact Hline|]. do 3 eexists. split; [reflexivity|]. right. left. auto.
Qed.

Lemma traverse_visitor_spec (filename : string) (ignoredLines : gset Z)
    (node : Node) (parent : option Node) (inside : bool) (r : CompatibilityResult) :
  In r (Javascript.traverse (Javascript.visitor filename ignoredLines) parent inside node) ->
  exists parent' inside' node',
    In r (Javascript.visitor filename ignoredLines parent' inside' node').
Proof.
  intros Hin.
  pose proof (traverse_Forall
    (fun r => exists parent' inside' node',
                In r (Javascript.visitor filename ignoredLines parent' inside' node'))
    (fun _ => True) (Javascript.visitor filename ignoredLines)
    (fun _ _ => I)) as Hall.
  assert (Hv : forall p b n, True ->
            Forall (fun r => exists parent' inside' node',
                      In r (Javascript.visitor filename ignoredLines parent' inside' node'))
              (Javascript.visitor filename ignoredLines p b n)).
  { intros p b n _. apply List.Forall_forall. intros x Hx. eauto. }
  exact (proj1 (List.Forall_forall _ _) (Hall Hv node parent inside I) r Hin).
Qed.

(** X1. Every occurrence the script parser returns carries the file name
    it was given and the severity "warning", and is of one of three
    kinds: a construct with a fixed id, reported without any look at the
    catalog, with the baseline field "unknown"; a hit of [checkWebAPI],
    one of its six ids, with the field "limited"; or an entry of the
    catalog found by [detectWebFeatures], whose recorded status is not
    "widely" and is the field.  So the field is never "widely", and an
    occurrence that stems from a catalog entry is never one of a widely
    supported entry. *)
Theorem script_occurrences_shape `{Externals} (content filename : string)
    (r : CompatibilityResult) :
  In r (Javascript.parseJavaScript content filename) ->
  file r = filename
  /\ severity r = warning
  /\ (baseline r = "unknown"
        /\ In (feature r) ["optional-chaining"; "nullish-coalescing";
                            "private-class-fields"; "top-level-await"]
      \/ baseline r = "limited"
         /\ In (feature r) ["dialog-element"; "clipboard-api"; "web-share-api";
                             "view-transitions"; "css-typed-om"; "intersection-observer-v2"]
      \/ exists w apiCall,
           detectWebFeatures apiCall = Some w
           /\ feature r = wf_id w
           /\ status (wf_baseline w) <> widely
           /\ baseline r = status_string (status (wf_baseline w)))
  /\ baseline r <> "widely".
Proof.
  unfold Javascript.parseJavaScript. destruct (babel_parse content) as [ast|]; [|intros []].
  intros Hin. apply traverse_visitor_spec in Hin as (p & b & n & Hin).
  apply visitor_spec in Hin as (_ & id & text & d & -> & Hd). cbn.
  split; [reflexivity|]. split; [reflexivity|].
  destruct Hd as [[-> Hid]|[[-> Hid]|(w & apiCall & -> & -> & Hdet & Hs)]]; cbn.
  - split; [|discriminate]. left. split; [reflexivity|].
    destruct Hid as [Hid|[-> _]]; [cbn in Hid |- *; tauto|cbn; auto 10].
  - split; [|discriminate]. right. left. split; [reflexivity|exact Hid].
  - split; [right; right; exists w, apiCall; auto|].
    destruct (status (wf_baseline w)); cbn; congruence.
Qed.

(** X2. No occurrence is returned on a line that the suppression test
    accepts for the text that was parsed. *)
Theorem script_occurrences_not_suppressed `{Externals} (content filename : string)
    (r : CompatibilityResult) :
  In r (Javascript.parseJavaScript content filename) ->
  Javascript.isLineIgnored (line r) (Javascript.parseIgnoreComments content) = false.
Proof.
  unfold Javascript.parseJavaScript. destruct (babel_parse content) as [ast|]; [|intros []].
  intros Hin. apply traverse_visitor_spec in Hin as (p & b & n & Hin).
  apply visitor_spec in Hin as (Hline & id & text & d & -> & _). exact Hline.
Qed.

Lemma detectWebFeatures_catalog (apiCall : string) (w : WebFeature) :
  detectWebFeatures apiCall = Some w -> exists k, webFeaturesData !! k = Some w.
Proof.
  unfold detectWebFeatures.
  repeat match goal with
         | |- context [match ?x with _ => _ end] => destruct x
         | |- context [if ?b then _ else _] => destruct b
         end; eauto; discriminate.
Qed.

(** X3. A suspension expression enclosed by a function is never flagged:
    below a function boundary the traversal returns no "top-level-await"
    occurrence (as long as the catalog has no entry of that id). *)
Theorem await_inside_function_not_flagged (filename : string) (ignoredLines : gset Z)
    (parent : option Node) (inside : bool) (node : Node) (r : CompatibilityResult) :
  (forall k w, webFeaturesData !! k = Some w -> wf_id w <> "top-level-await") ->
  Javascript.isFunction node = true ->
  In r (Javascript.traverse (Javascript.visitor filename ignoredLines) parent inside node) ->
  feature r <> "top-level-await".
Proof.
  intros Hcat Hfun Hin.
  assert (Hvisit : forall p b n, (b = true \/ Javascript.isFunction n = true) ->
            Forall (fun r => feature r <> "top-level-await")
              (Javascript.visitor filename ignoredLines p b n)).
  { intros p b n Hb. apply List.Forall_forall. intros x Hx.
    pose proof (visitor_spec _ _ _ _ _ _ Hx) as (_ & id & text & d & Heq & Hd).
    rewrite Heq. cbn.
    destruct Hd as [[_ [Hid|[-> ->]]]|[[_ Hid]|(w & apiCall & _ & -> & Hdet & _)]].
    - cbn in Hid. intuition (subst; discriminate).
    - destruct Hb as [Hb|Hb]; [discriminate|].
      destruct n; try discriminate; cbn in Hx; [|contradiction].
      apply flag_spec in Hx as [_ Hflag]. rewrite Hflag in Heq.
      apply (f_equal feature) in Heq. discriminate.
    - cbn in Hid. intuition (subst; discriminate).
    - apply detectWebFeatures_catalog in Hdet as [k Hk]. eapply Hcat; eassumption. }
  assert (Hdown : forall n p, Forall (fun r => feature r <> "top-level-await")
            (Javascript.traverse (Javascript.visitor filename ignoredLines) p true n)).
  { intros n p.
    apply (traverse_Forall _ (fun b => b = true) _ (fun _ _ => eq_refl)); [|reflexivity].
    intros p' b n' ->. apply Hvisit. now left. }
  assert (Hlist : forall l p, Forall (fun r => feature r <> "top-level-await")
            (flat_map (Javascript.traverse (Javascript.visitor filename ignoredLines) p true) l)).
  { intros l p. induction l as [|a l IHl]; cbn; [constructor|].
    apply Forall_app. split; [apply Hdown|exact IHl]. }
  revert r Hin. apply List.Forall_forall.
  destruct node; try discriminate; cbn [Javascript.traverse]; apply Forall_app; split;
    try (apply Hvisit; now right); repeat (apply Forall_app; split);
    try apply Hdown; try apply Hlist.
Qed.

Lemma visitor_length (filename : string) (ignoredLines : gset Z) (parent : option Node)
    (inside : bool) (node : Node) :
  length (Javascript.visitor filename ignoredLines parent inside node) <= 1.
Proof.
  destruct node; cbn; unfold Javascript.flag, Javascript.report;
    repeat match goal with
           | |- context [match ?x with _ => _ end] => destruct x
           | |- context [if ?b then _ else _] => destruct b
           end; cbn; lia.
Qed.

Lemma traverse_length (visit : option Node -> bool -> Node -> list CompatibilityResult) :
  (forall parent inside node, length (visit parent inside node) <= 1) ->
  forall node parent inside,
    length (Javascript.traverse visit parent inside node) <= Shape.size node.
Proof.
  intros Hvisit. fix IH 1. intros node parent inside.
  pose proof (Hvisit parent inside node) as Hv.
  destruct node as [loc name|loc value|loc id|loc object property|loc object property
                   |loc callee arguments|loc callee arguments|loc callee arguments
                   |loc operator lhs rhs|loc argument|loc key value|loc key children
                   |loc children|loc children];
    cbn [Javascript.traverse Shape.size]; rewrite ?length_app;
    repeat match goal with
           | |- context [length (Javascript.traverse ?f ?p ?b ?n)] =>
               lazymatch goal with
               | _ : length (Javascript.traverse f p b n) <= Shape.size n |- _ => fail
               | _ => pose proof (IH n p b)
               end
           end;
    try (cbn; lia).
  all: try match goal with
       | |- context [length (flat_map (Javascript.traverse ?f ?p ?b) ?l)] =>
           assert (length (flat_map (Javascript.traverse f p b) l)
                   <= list_sum (map Shape.size l));
           [generalize p; intros p'; clear - IH; induction l as [|a l IHl];
            cbn [flat_map map list_sum fold_right length]; [lia|];
            rewrite length_app; pose proof (IH a p' b); unfold list_sum in IHl; lia|lia]
       end.
  destruct value as [v|]; [pose proof (IH v (Some (ClassPrivateProperty loc key (Some v))) inside)|];
    cbn; lia.
Qed.

(** X4. The matcher returns at most one occurrence per node: the number of
    occurrences of a script never exceeds the number of nodes of its
    tree. *)
Theorem script_occurrences_bounded `{Externals} (content filename : string) (ast : Node) :
  babel_parse content = Some ast ->
  length (Javascript.parseJavaScript content filename) <= Shape.size ast.
Proof.
  intros Hparse. unfold Javascript.parseJavaScript. rewrite Hparse.
  apply traverse_length. intros. apply visitor_length.
Qed.

Lemma optional_chain_inner (filename : string) (ignoredLines : gset Z) (node : Node) :
  Shape.is_optional_chain node = true ->
  forall parent inside,
    Javascript.parent_is_optional parent = true ->
    Javascript.traverse (Javascript.visitor filename ignoredLines) parent inside node = [].
Proof.
  induction node; try discriminate; intros Hchain parent inside Hparent.
  - reflexivity.
  - cbn in Hchain. destruct node2; try discriminate.
    cbn [Javascript.traverse Javascript.visitor]. rewrite Hparent.
    rewrite IHnode1 by (assumption || reflexivity). reflexivity.
  - cbn in Hchain. destruct arguments; try discriminate.
    cbn [Javascript.traverse Javascript.visitor flat_map]. rewrite Hparent.
    rewrite IHnode by (assumption || reflexivity). reflexivity.
Qed.

(** X5. One occurrence per maximal optional chain: for a chain over plain
    names whose parent is not part of the chain, the traversal of the
    whole chain returns exactly the occurrence of its outermost node, or
    nothing when that node's line is suppressed. *)
Theorem optional_chain_reported_once (filename : string) (ignoredLines : gset Z)
    (parent : option Node) (inside : bool) (node : Node) :
  Shape.is_optional_chain node = true ->
  Javascript.isOptionalMemberExpression node || Javascript.isOptionalCallExpression node = true ->
  Javascript.parent_is_optional parent = false ->
  Javascript.traverse (Javascript.visitor filename ignoredLines) parent inside node
  = if Javascript.isLineIgnored (Javascript.start_line (Javascript.loc_of node)) ignoredLines
    then []
    else [ Javascript.createResult filename
             (Javascript.start_line (Javascript.loc_of node))
             (Javascript.start_column (Javascript.loc_of node))
             "optional-chaining" "Optional chaining (?.) requires modern browsers"
             warning None ].
Proof.
  intros Hchain Hkind Hparent.
  destruct node as [| | | |loc object property| |loc callee arguments| | | | | | |];
    try discriminate; cbn in Hchain.
  - destruct property; try discriminate.
    cbn [Javascript.traverse Javascript.visitor]. rewrite Hparent.
    rewrite (optional_chain_inner _ _ object Hchain) by reflexivity.
    unfold Javascript.flag. cbn. now destruct (Javascript.isLineIgnored _ _).
  - destruct arguments; try discriminate.
    cbn [Javascript.traverse Javascript.visitor flat_map]. rewrite Hparent.
    rewrite (optional_chain_inner _ _ callee Hchain) by reflexivity.
    unfold Javascript.flag. cbn. now destruct (Javascript.isLineIgnored _ _).
Qed.

End ScriptMatcher.

(** ** The suppression sets *)

Section SuppressionSets.

Lemma mark_elem (marker text : string) (i total : nat) (ignoredLines : gset Z) (n : Z) :
  n ∈ Javascript.mark marker text i total ignoredLines
  <-> n ∈ ignoredLines \/ suppressed_by marker text i total n.
Proof.
  unfold Javascript.mark, suppressed_by.
  destruct (JS.includes text marker);
    [|split; [auto|intros [Hin|[Hf _]]; [exact Hin|discriminate]]].
  destruct (String.eqb_spec (JS.trim text) marker) as [Heq|Hne];
    destruct (Nat.ltb_spec (i + 1) total) as [Hlt|Hge]; cbn;
    rewrite ?elem_of_union, ?elem_of_singleton; split;
    intuition (try lia; try congruence).
Qed.

Lemma scan_elem (lines : list string) (total : nat) (n : Z) :
  forall (k : nat) (ignoredLines : gset Z),
  n ∈ Javascript.scan lines k total ignoredLines
  <-> n ∈ ignoredLines
      \/ exists j text, lines !! j = Some text
           /\ (suppressed_by Javascript.line_marker text (k + j) total n
               \/ suppressed_by Javascript.block_marker text (k + j) total n).
Proof.
  induction lines as [|first rest IH]; intros k acc; cbn [Javascript.scan].
  - split; [auto|]. intros [Hin|(j & text & Hj & _)]; [exact Hin|discriminate].
  - rewrite IH, !mark_elem. split.
    + intros [[[Hin|Hl]|Hb]|(j & text & Hj & Hm)].
      * now left.
      * right. exists 0, first. rewrite Nat.add_0_r. auto.
      * right. exists 0, first. rewrite Nat.add_0_r. auto.
      * right. exists (S j), text. replace (k + S j) with (S k + j) by lia. auto.
    + intros [Hin|(j & text & Hj & Hm)]; [auto|].
      destruct j as [|j]; cbn in Hj.
      * injection Hj as ->. rewrite Nat.add_0_r in Hm. tauto.
      * right. exists j, text. replace (S k + j) with (k + S j) by lia. auto.
Qed.

(** X6. The suppression set of a script is exactly this: the numbers of the
    lines that contain a marker, and the number of the line below each
    line that is nothing but a marker (unless it is the last line).  All
    its members are line numbers of the text. *)
Theorem script_suppression_set (content : string) (n : Z) :
  let lines := JS.split content "010" in
  (n ∈ Javascript.parseIgnoreComments content
   <-> exists i text, lines !! i = Some text
         /\ (suppressed_by Javascript.line_marker text i (length lines) n
             \/ suppressed_by Javascript.block_marker text i (length lines) n))
  /\ (n ∈ Javascript.parseIgnoreComments content -> (1 <= n <= Z.of_nat (length lines))%Z).
Proof.
  intros lines.
  assert (Hiff : n ∈ Javascript.parseIgnoreComments content
     <-> exists i text, lines !! i = Some text
         /\ (suppressed_by Javascript.line_marker text i (length lines) n
             \/ suppressed_by Javascript.block_marker text i (length lines) n)).
  { unfold Javascript.parseIgnoreComments. fold lines. rewrite scan_elem. cbn [Nat.add].
    split; [intros [Hin|Hex]; [now apply not_elem_of_empty in Hin|exact Hex]|auto]. }
  split; [exact Hiff|]. intros Hin. apply Hiff in Hin as (i & text & Hi & Hm).
  apply lookup_lt_Some in Hi. unfold suppressed_by in Hm. lia.
Qed.

Lemma css_scan_elem (lines : list string) (total : nat) (n : Z) :
  forall (k : nat) (ignoredLines : gset Z),
  n ∈ Css.scan lines k total ignoredLines
  <-> n ∈ ignoredLines
      \/ exists j text, lines !! j = Some text
           /\ suppressed_by Css.block_marker text (k + j) total n.
Proof.
  induction lines as [|first rest IH]; intros k acc; cbn [Css.scan].
  - split; [auto|]. intros [Hin|(j & text & Hj & _)]; [exact Hin|discriminate].
  - rewrite IH.
    match goal with
    | |- (_ ∈ ?X \/ _) <-> _ =>
        change X with (Javascript.mark Css.block_marker first k total acc)
    end.
    rewrite mark_elem. split.
    + intros [[Hin|Hb]|(j & text & Hj & Hm)].
      * now left.
      * right. exists 0, first. rewrite Nat.add_0_r. auto.
      * right. exists (S j), text. replace (k + S j) with (S k + j) by lia. auto.
    + intros [Hin|(j & text & Hj & Hm)]; [auto|].
      destruct j as [|j]; cbn in Hj.
      * injection Hj as ->. rewrite Nat.add_0_r in Hm. tauto.
      * right. exists j, text. replace (S k + j) with (k + S j) by lia. auto.
Qed.

(** X7. The suppression set of a stylesheet, likewise, with the block marker
    only. *)
Theorem stylesheet_suppression_set (content : string) (n : Z) :
  let lines := JS.split content "010" in
  (n ∈ Css.parseIgnoreComments content
   <-> exists i text, lines !! i = Some text
         /\ suppressed_by Css.block_marker text i (length lines) n)
  /\ (n ∈ Css.parseIgnoreComments content -> (1 <= n <= Z.of_nat (length lines))%Z).
Proof.
  intros lines.
  assert (Hiff : n ∈ Css.parseIgnoreComments content
     <-> exists i text, lines !! i = Some text
         /\ suppressed_by Css.block_marker text i (length lines) n).
  { unfold Css.parseIgnoreComments. fold lines. rewrite css_scan_elem. cbn [Nat.add].
    split; [intros [Hin|Hex]; [now apply not_elem_of_empty in Hin|exact Hex]|auto]. }
  split; [exact Hiff|]. intros Hin. apply Hiff in Hin as (i & text & Hi & Hm).
  apply lookup_lt_Some in Hi. unfold suppressed_by in Hm. lia.
Qed.

End SuppressionSets.

(** ** The stylesheet matcher *)

Section StylesheetMatcher.
Context `{Catalog}.

Lemma walk_Forall (P : CompatibilityResult -> Prop)
    (callback : CssNode -> list CompatibilityResult) :
  (forall node, Forall P (callback node)) ->
  forall node, Forall P (Css.walk callback node).
Proof.
  intros Hcb. fix IH 1. intros node.
  destruct node as [source name params nodes|source selector nodes|source prop_name value
                   |source text];
    cbn [Css.walk]; apply Forall_app; split; try apply Hcb; try constructor.
  all: induction nodes as [|a l IHl]; cbn; [constructor|];
       apply Forall_app; split; [apply IH|exact IHl].
Qed.

Lemma walks_Forall (P : CompatibilityResult -> Prop)
    (callback : CssNode -> list CompatibilityResult) (ast : list CssNode) :
  (forall node, Forall P (callback node)) ->
  Forall P (flat_map (Css.walk callback) ast).
Proof.
  intros Hcb. induction ast as [|a l IHl]; cbn; [constructor|].
  apply Forall_app. split; [now apply walk_Forall|exact IHl].
Qed.

Lemma when_Forall (P : CompatibilityResult -> Prop) (b : bool) (r : CompatibilityResult) :
  (b = true -> P r) -> Forall P (Css.when b r).
Proof. destruct b; cbn; intros Hp; constructor; auto. Qed.

(** X8. Every occurrence the stylesheet parser returns carries the file name
    it was given and the severity "warning", its baseline field is
    "limited" or "newly" (never "widely"), and its line is not one that
    the suppression test accepts. *)
Theorem stylesheet_occurrences_shape `{Externals} (content filename : string)
    (r : CompatibilityResult) :
  In r (Css.parseCSS content filename) ->
  file r = filename
  /\ severity r = warning
  /\ (baseline r = "limited" \/ baseline r = "newly")
  /\ Css.isLineIgnored (line r) (Css.parseIgnoreComments content) = false.
Proof.
  unfold Css.parseCSS. destruct (postcss_parse content) as [ast|]; [|intros []].
  set (ignoredLines := Css.parseIgnoreComments content).
  set (P := fun r => file r = filename /\ severity r = warning
                     /\ (baseline r = "limited" \/ baseline r = "newly")
                     /\ Css.isLineIgnored (line r) ignoredLines = false).
  assert (Hresult : forall source id text engines,
            Css.isLineIgnored (Css.start_line source) ignoredLines = false ->
            P (Css.result filename source id text engines)).
  { intros. unfold P. cbn. auto. }
  revert r. apply List.Forall_forall.
  repeat (apply Forall_app; split); apply walks_Forall; intros node.
  - destruct node; cbn; try constructor. apply when_Forall. intros Hb.
    apply andb_true_iff in Hb as [_ Hb]. apply negb_true_iff in Hb. now apply Hresult.
  - destruct node; cbn; try constructor. apply when_Forall. intros Hb.
    apply andb_true_iff in Hb as [_ Hb]. apply negb_true_iff in Hb. now apply Hresult.
  - destruct node; cbn; try constructor.
    repeat (apply Forall_app; split); apply when_Forall; intros Hb;
      apply andb_true_iff in Hb as [_ Hb]; apply negb_true_iff in Hb; now apply Hresult.
  - destruct node; cbn; try constructor.
    destruct (Css.isLineIgnored (Css.start_line source) ignoredLines) eqn:Hline;
      [constructor|].
    repeat (apply Forall_app; split); try (apply when_Forall; intros _; now apply Hresult).
    match goal with
    | |- Forall _ (match ?found with _ => _ end) => destruct found as [f|]; [|constructor]
    end.
    apply when_Forall. intros Hb. unfold P. cbn.
    repeat split; try assumption.
    destruct (status (wf_baseline f)); cbn in Hb |- *; try discriminate; auto.
Qed.

End StylesheetMatcher.

(** ** The baseline engine *)

Section Engine.
Context `{Catalog} `{Externals}.

(** X9. A feature whose status is "limited" is never baseline under a year
    target, nor under a custom target that has no query list; only a
    custom query list can make it baseline. *)
Theorem limited_not_baseline_without_query (this : BaselineTarget) (featureId : string)
    (entry : BaselineInfo) :
  BaselineEngine.featureOf featureId = Some entry ->
  status entry = limited ->
  year this <> target_custom \/ customBrowserslist this = None ->
  BaselineEngine.isFeatureBaseline this featureId = false.
Proof.
  intros Hentry Hstatus Hno. unfold BaselineEngine.isFeatureBaseline.
  rewrite Hentry, Hstatus.
  destruct (year this), (customBrowserslist this); try reflexivity.
  destruct Hno; congruence.
Qed.

(** X10. Under a custom target with a query list, a feature that is not
    "widely" is not baseline when the catalog records no minimum versions
    for it, or when the resolver rejects the list: the coverage check is
    the only way to baseline there, and it fails closed. *)
Theorem custom_target_fails_closed (this : BaselineTarget) (featureId : string)
    (query : list string) :
  year this = target_custom ->
  customBrowserslist this = Some query ->
  status <$> BaselineEngine.featureOf featureId <> Some widely ->
  webFeaturesData !! featureId = None \/ browserslist query = None ->
  BaselineEngine.isFeatureBaseline this featureId = false.
Proof.
  intros Hyear Hquery Hstatus Hno.
  assert (Hcov : BaselineEngine.calculateBrowserslistCoverage featureId query = false).
  { unfold BaselineEngine.calculateBrowserslistCoverage.
    destruct Hno as [-> | ->]; [reflexivity|]. now destruct (webFeaturesData !! featureId). }
  unfold BaselineEngine.isFeatureBaseline.
  destruct (BaselineEngine.featureOf featureId) as [entry|]; [|reflexivity].
  rewrite Hyear, Hquery. destruct (status entry) eqn:Hs; try exact Hcov.
  exfalso. apply Hstatus. cbn. now rewrite Hs.
Qed.

Lemma le_NaN (x : JS.number) : JS.le x JS.NaN = false.
Proof. now destruct x as [|[]|]. Qed.

(** X11. Under a custom target without a query list (a configuration the
    loader accepts), a feature is baseline exactly when its status is
    "widely": the year comparison is made against a target that is not a
    number. *)
Theorem custom_target_without_list (this : BaselineTarget) (featureId : string) :
  year this = target_custom ->
  customBrowserslist this = None ->
  BaselineEngine.isFeatureBaseline this featureId = true
  <-> status <$> BaselineEngine.featureOf featureId = Some widely.
Proof.
  intros Hyear Hquery. unfold BaselineEngine.isFeatureBaseline.
  destruct (BaselineEngine.featureOf featureId) as [entry|]; cbn; [|split; discriminate].
  rewrite Hyear, Hquery. destruct (status entry); cbn.
  - tauto.
  - split; [|discriminate]. destruct (truthy (since entry)); [|discriminate].
    change (JS.parseInt "custom") with JS.NaN. rewrite le_NaN.
    destruct (webFeaturesData !! featureId); discriminate.
  - split; discriminate.
Qed.

Lemma le_2024_2025 (x : JS.number) :
  JS.le x (JS.parseInt "2024") = true -> JS.le x (JS.parseInt "2025") = true.
Proof.
  change (JS.parseInt "2024") with (JS.Num (inject_Z 2024)).
  change (JS.parseInt "2025") with (JS.Num (inject_Z 2025)).
  destruct x as [|[]|q]; cbn; try tauto.
  rewrite !Qle_bool_iff. intros Hq. eapply Qle_trans; [exact Hq|].
  unfold Qle. cbn. lia.
Qed.

(** X12. For a feature with no recorded minimum versions, moving the target
    from 2024 to 2025 never loses baseline status. *)
Theorem later_year_keeps_baseline (featureId : string) (l l' : option (list string)) :
  webFeaturesData !! featureId = None ->
  BaselineEngine.isFeatureBaseline
    {| year := target_2024; customBrowserslist := l |} featureId = true ->
  BaselineEngine.isFeatureBaseline
    {| year := target_2025; customBrowserslist := l' |} featureId = true.
Proof.
  intros Hw. unfold BaselineEngine.isFeatureBaseline. cbn [year customBrowserslist].
  destruct (BaselineEngine.featureOf featureId) as [entry|]; [|discriminate].
  rewrite Hw. destruct (status entry); try (intros; assumption || reflexivity).
  destruct (truthy (since entry)); [|discriminate].
  cbn [target_string]. apply le_2024_2025.
Qed.

Lemma filter_all {A : Type} (p : A -> bool) (l : list A) :
  (forall a, In a l -> p a = true) -> List.filter p l = l.
Proof.
  induction l as [|a l IHl]; intros Hall; [reflexivity|]. cbn.
  rewrite (Hall a) by now left. f_equal. apply IHl. intros b Hb. apply Hall. now right.
Qed.

Lemma filter_none {A : Type} (p : A -> bool) (l : list A) :
  (forall a, In a l -> p a = false) -> List.filter p l = [].
Proof.
  induction l as [|a l IHl]; intros Hall; [reflexivity|]. cbn.
  rewrite (Hall a) by now left. apply IHl. intros b Hb. apply Hall. now right.
Qed.

(** X13. The coverage check at its two ends: it succeeds when the resolved
    list is not empty and every entry is supported, and fails when no
    entry is supported. *)
Theorem coverage_extremes (featureId : string) (w : WebFeature)
    (query browsers : list string) :
  webFeaturesData !! featureId = Some w ->
  browserslist query = Some browsers ->
  (browsers <> [] ->
   (forall b, In b browsers -> BaselineEngine.supports w b = true) ->
   BaselineEngine.calculateBrowserslistCoverage featureId query = true)
  /\ ((forall b, In b browsers -> BaselineEngine.supports w b = false) ->
      BaselineEngine.calculateBrowserslistCoverage featureId query = false).
Proof.
  intros Hw Hq. unfold BaselineEngine.calculateBrowserslistCoverage. rewrite Hw, Hq.
  rewrite counter_fold. cbn [Nat.add]. split.
  - intros Hne Hall. rewrite filter_all by exact Hall.
    destruct browsers as [|b l]; [congruence|].
    apply threshold; [lia|]. split; [discriminate|].
    apply ratio_cross; [discriminate|]. lia.
  - intros Hnone. rewrite filter_none by exact Hnone. cbn [length].
    destruct browsers as [|b l]; [reflexivity|].
    apply not_true_is_false. intros Hge.
    apply threshold in Hge as [_ Hge]; [|lia].
    apply ratio_cross in Hge; [|discriminate]. cbn [length] in Hge. lia.
Qed.

(** X14. Engine names are normalised once and for all: a normalised name is
    unchanged by a second normalisation. *)
Theorem normalizeBrowserName_idempotent (browserName : string) :
  BaselineEngine.normalizeBrowserName (BaselineEngine.normalizeBrowserName browserName)
  = BaselineEngine.normalizeBrowserName browserName.
Proof.
  unfold BaselineEngine.normalizeBrowserName at 2 3.
  destruct (BaselineEngine.browserMap !! browserName) as [n|] eqn:Hn.
  - apply elem_of_list_to_map_2 in Hn.
    repeat (apply elem_of_cons in Hn as [Hn|Hn]; [injection Hn as -> ->; reflexivity|]).
    now apply elem_of_nil in Hn.
  - unfold BaselineEngine.normalizeBrowserName. now rewrite Hn.
Qed.

(** X15. The loader and the engine agree on the default queries: for a year
    target, and for a custom target without a list, the targets the
    loader answers are the engine's defaults for that target. *)
Theorem default_queries_agree (config : BaselineConfig) :
  target config <> target_custom \/ cfg_browserslist config = None ->
  Config.getBrowserslistTargets config
  = BaselineEngine.getDefaultBrowserslistForYear (target config).
Proof.
  unfold Config.getBrowserslistTargets.
  destruct (target config), (cfg_browserslist config); intros [Hno|Hno];
    congruence || reflexivity.
Qed.

End Engine.

(** ** The aggregator *)

Section Aggregator.
Context `{Catalog} `{Externals}.

Lemma map_filter_concat {A B : Type} (f : A -> B) (p : A -> bool) (q : B -> bool)
    (g : B -> B) (units : list (list A)) :
  flat_map (fun l => map g (List.filter q (map f (List.filter p l)))) units
  = map g (List.filter q (map f (List.filter p (concat units)))).
Proof.
  induction units as [|l units IH]; [reflexivity|]. cbn [flat_map concat].
  rewrite IH, !List.filter_app, !map_app, !List.filter_app, !map_app. reflexivity.
Qed.

Lemma filter_map_swap {A B : Type} (f : A -> B) (q : B -> bool) (l : list A) :
  List.filter q (map f l) = map f (List.filter (fun a => q (f a)) l).
Proof.
  induction l as [|a l IH]; [reflexivity|]. cbn. destruct (q (f a)); cbn; now rewrite IH.
Qed.

Lemma filter_filter {A : Type} (p q : A -> bool) (l : list A) :
  List.filter q (List.filter p l) = List.filter (fun a => p a && q a) l.
Proof.
  induction l as [|a l IH]; [reflexivity|]. cbn.
  destruct (p a); cbn; [destruct (q a)|]; now rewrite IH.
Qed.

(** X16. The aggregator only filters and annotates: its result is the list of
    all occurrences of the batch, in unit order, from which the ignored
    and the baseline features are removed, each remaining occurrence
    turned into its diagnostic; so there are never more diagnostics than
    occurrences. *)
Theorem check_is_filter_then_annotate (files : Files) (config : BaselineConfig) :
  Checker.checkCompatibilityWithConfig files config
  = map (diagnostic config)
      (List.filter
         (fun r0 => negb (Config.shouldIgnoreFeature (feature r0) config)
                    && negb (BaselineEngine.isFeatureBaseline (Checker.engineOf config)
                               (feature r0)))
         (concat (occurrences files config)))
  /\ length (Checker.checkCompatibilityWithConfig files config)
     <= length (concat (occurrences files config)).
Proof.
  assert (Heq : Checker.checkCompatibilityWithConfig files config
    = map (diagnostic config)
        (List.filter
           (fun r0 => negb (Config.shouldIgnoreFeature (feature r0) config)
                      && negb (BaselineEngine.isFeatureBaseline (Checker.engineOf config)
                                 (feature r0)))
           (concat (occurrences files config)))).
  { rewrite check_by_unit.
    unfold BaselineEngine.enhanceResults, BaselineEngine.filterResults,
      Checker.applyConfiguration.
    rewrite map_filter_concat, filter_map_swap, map_map, filter_filter. reflexivity. }
  split; [exact Heq|]. rewrite Heq, length_map. apply filter_length_le.
Qed.

(** X17. Results follow the order of the units: checking a batch of documents
    gives the results of its first part followed by those of the rest. *)
Theorem check_documents_app (config : BaselineConfig) (first rest : list DocumentInput) :
  first <> [] -> rest <> [] ->
  Checker.checkCompatibilityWithConfig (documents (first ++ rest)) config
  = Checker.checkCompatibilityWithConfig (documents first) config
    ++ Checker.checkCompatibilityWithConfig (documents rest) config.
Proof.
  intros Hf Hr. unfold Checker.checkCompatibilityWithConfig.
  destruct first as [|d1 first]; [congruence|]. destruct rest as [|d2 rest]; [congruence|].
  cbn [app]. rewrite <- flat_map_app. reflexivity.
Qed.

Lemma parseJavaScript_file (content filename : string) (r : CompatibilityResult) :
  In r (Javascript.parseJavaScript content filename) -> file r = filename.
Proof.
  unfold Javascript.parseJavaScript. destruct (babel_parse content) as [ast|]; [|intros []].
  intros Hin. apply traverse_visitor_spec in Hin as (p & b & n & Hin).
  apply visitor_spec in Hin as (_ & id & text & d & -> & _). reflexivity.
Qed.

Lemma parseCSS_file (content filename : string) (r : CompatibilityResult) :
  In r (Css.parseCSS content filename) -> file r = filename.
Proof.
  unfold Css.parseCSS. destruct (postcss_parse content) as [ast|]; [|intros []].
  set (ignoredLines := Css.parseIgnoreComments content).
  revert r. apply List.Forall_forall.
  repeat (apply Forall_app; split); apply walks_Forall; intros node;
    destruct node; cbn; try constructor;
    try (apply when_Forall; intros _; reflexivity);
    try (repeat (apply Forall_app; split); apply when_Forall; intros _; reflexivity).
  destruct (Css.isLineIgnored (Css.start_line source) ignoredLines); [constructor|].
  repeat (apply Forall_app; split); try (apply when_Forall; intros _; reflexivity).
  match goal with
  | |- Forall _ (match ?found with _ => _ end) => destruct found as [f|]; [|constructor]
  end.
  apply when_Forall. intros _. reflexivity.
Qed.

Lemma scanDocument_file (doc : DocumentInput) (r : CompatibilityResult) :
  In r (Checker.scanDocument doc) -> file r = filename doc.
Proof.
  unfold Checker.scanDocument.
  destruct (Checker.isJavaScript doc); [apply parseJavaScript_file|].
  destruct (Checker.isCSS doc); [apply parseCSS_file|intros []].
Qed.

Lemma scanFile_file (path text : string) (r : CompatibilityResult) :
  In r (Checker.scanFile path text) -> file r = path.
Proof.
  unfold Checker.scanFile.
  destruct (JS.array_includes Checker.script_extensions _);
    [apply parseJavaScript_file|].
  destruct (JS.array_includes Checker.style_extensions _);
    [apply parseCSS_file|intros []].
Qed.

(** X18. Every diagnostic names a unit of the batch: a document that was
    handed in, or a file path that was selected; in particular a path
    that an exclude pattern matches never shows up in the results of an
    explicit file list. *)
Theorem diagnostics_name_their_unit (config : BaselineConfig) (r : CompatibilityResult) :
  (forall docs, docs <> [] ->
     In r (Checker.checkCompatibilityWithConfig (documents docs) config) ->
     In (file r) (map filename docs))
  /\ (forall filePaths,
        In r (Checker.checkCompatibilityWithConfig (paths filePaths) config) ->
        In (file r) (Checker.selectFiles config filePaths))
  /\ (forall filePaths patterns,
        filePaths <> [] -> exclude config = Some patterns ->
        In r (Checker.checkCompatibilityWithConfig (paths filePaths) config) ->
        In (file r) filePaths /\ Checker.isFileExcluded (file r) patterns = false).
Proof.
  assert (Hpaths : forall filePaths,
            In r (Checker.checkCompatibilityWithConfig (paths filePaths) config) ->
            In (file r) (Checker.selectFiles config filePaths)).
  { intros filePaths Hin.
    apply in_check in Hin as (results & r0 & Hu & Hr0 & _ & _ & ->). cbn [diagnostic file].
    cbn [occurrences] in Hu. apply in_map_iff in Hu as (path & <- & Hpath).
    destruct (readFileSync path) as [text|]; [|contradiction].
    apply scanFile_file in Hr0. now rewrite Hr0. }
  split; [|split; [exact Hpaths|]].
  - intros docs Hne Hin.
    apply in_check in Hin as (results & r0 & Hu & Hr0 & _ & _ & ->). cbn [diagnostic file].
    destruct docs as [|d docs]; [congruence|]. cbn [occurrences] in Hu.
    apply in_map_iff in Hu as (doc & <- & Hdoc).
    apply scanDocument_file in Hr0. rewrite Hr0. now apply in_map.
  - intros filePaths patterns Hne Hex Hin. apply Hpaths in Hin.
    unfold Checker.selectFiles in Hin. rewrite Hex in Hin. cbn [default] in Hin.
    destruct filePaths as [|p l]; [congruence|].
    destruct patterns as [|pat pats].
    + split; [exact Hin|reflexivity].
    + apply filter_In in Hin as [Hin Hkeep]. split; [exact Hin|].
      now apply negb_true_iff in Hkeep.
Qed.

End Aggregator.

(** ** The configuration loader *)

Section Loader.

(** X19. A second load of the same path is served from the cache, whatever has
    become of the file system in between; and a load that fails leaves
    the cache as it was. *)
Theorem loadConfig_cache (before after : Externals)
    (configCache configCache' : gmap string BaselineConfig)
    (workspaceRoot workspaceRoot' : option string) (path : string)
    (outcome : Exc BaselineConfig) :
  truthy (Some path) = true ->
  Config.loadConfig (H := before) configCache workspaceRoot (Some path)
  = (outcome, configCache') ->
  match outcome with
  | OK config =>
      Config.loadConfig (H := after) configCache' workspaceRoot' (Some path)
      = (OK config, configCache')
  | Throw _ => configCache' = configCache
  end.
Proof.
  intros Hpath. unfold Config.loadConfig. rewrite Hpath. cbn [default id]. rewrite Hpath.
  destruct (configCache !! path) as [cached|] eqn:Hcache.
  - intros [= <- <-]. now rewrite Hcache.
  - destruct (Config.readConfig path) as [merged|m]; intros [= <- <-]; [|reflexivity].
    now rewrite lookup_insert_eq.
Qed.

Context `{Externals}.

(** X20. Discovery tries [baseline.config.json], then [.baseline.json], then
    [package.json], under the workspace root (or the working directory);
    when none of them exists the loader answers the built-in defaults and
    leaves the cache alone. *)
Theorem config_discovery (configCache : gmap string BaselineConfig)
    (workspaceRoot : option string) :
  let searchPath := if truthy workspaceRoot then default EmptyString workspaceRoot
                    else process_cwd in
  let first := path_join searchPath "baseline.config.json" in
  let second := path_join searchPath ".baseline.json" in
  let third := path_join searchPath "package.json" in
  (existsSync first = true -> Config.findConfigFile workspaceRoot = Some first)
  /\ (existsSync first = false -> existsSync second = true ->
      Config.findConfigFile workspaceRoot = Some second)
  /\ (existsSync first = false -> existsSync second = false -> existsSync third = false ->
      Config.findConfigFile workspaceRoot = None
      /\ Config.loadConfig configCache workspaceRoot None = (OK DEFAULT_CONFIG, configCache)).
Proof.
  intros searchPath first second third.
  unfold Config.findConfigFile. fold searchPath. fold first second third.
  split; [|split].
  - intros ->. reflexivity.
  - intros -> ->. reflexivity.
  - intros H1 H2 H3.
    assert (Hnone : Config.findConfigFile workspaceRoot = None).
    { unfold Config.findConfigFile. fold searchPath. fold first second third.
      now rewrite H1, H2, H3. }
    split; [|unfold Config.loadConfig; cbn [truthy]; rewrite Hnone; reflexivity].
    now rewrite H1, H2, H3.
Qed.

Lemma flat_map_nil {A B : Type} (f : A -> list B) (l : list A) (a : A) :
  flat_map f l = [] -> In a l -> f a = [].
Proof.
  induction l as [|x l IH]; [intros _ []|]. cbn. intros Happ [<-|Hin].
  - now apply app_eq_nil in Happ.
  - apply IH; [|exact Hin]. now apply app_eq_nil in Happ.
Qed.

Lemma prop_In {A : Type} (o : list (string * A)) (k : string) (v : A) :
  prop o k = Some v -> In (k, v) o.
Proof.
  induction o as [|[k' v'] o IH]; [discriminate|]. cbn.
  destruct (String.eqb_spec k' k) as [->|_]; [intros [= ->]; now left|right; auto].
Qed.

Lemma validate_object (data : json) (properties : list (string * Schema))
    (pattern : option Schema) (required : list string) (additional : bool) (path : string) :
  Config.validate data (object_schema properties pattern required additional) path = [] ->
  exists members, data = JObject members
    /\ (forall r, In r required -> prop members r <> None)
    /\ (forall k v s, In (k, v) members -> prop properties k = Some s ->
          Config.validate v s (path +:+ "/" +:+ k) = []).
Proof.
  destruct data; try discriminate. cbn [Config.validate]. intros Hnil.
  apply app_eq_nil in Hnil as [Hreq Hmem]. exists members. split; [reflexivity|]. split.
  - intros r Hr Hnone. apply (flat_map_nil _ _ r) in Hreq; [|exact Hr].
    cbn beta in Hreq. rewrite Hnone in Hreq. discriminate.
  - intros k v s Hin Hs. apply (flat_map_nil _ _ (k, v)) in Hmem; [|exact Hin].
    cbn beta iota in Hmem. rewrite Hs in Hmem. destruct pattern.
    + now apply app_eq_nil in Hmem.
    + now apply app_eq_nil in Hmem.
Qed.

Lemma validate_required (data : json) (properties : list (string * Schema))
    (pattern : option Schema) (required : list string) (additional : bool) (path : string)
    (k : string) (s : Schema) :
  Config.validate data (object_schema properties pattern required additional) path = [] ->
  In k required -> prop properties k = Some s ->
  exists v, Config.get (Some data) k = Some v
    /\ Config.validate v s (path +:+ "/" +:+ k) = [].
Proof.
  intros Hvalid Hk Hs. apply validate_object in Hvalid as (members & -> & Hreq & Hmem).
  cbn [Config.get]. destruct (prop members k) as [v|] eqn:Hv; [|now apply Hreq in Hk].
  exists v. split; [reflexivity|]. eapply Hmem; [|exact Hs]. now apply prop_In.
Qed.

Lemma validate_enum (data : json) (values : list string) (path : string) :
  Config.validate data (string_schema (Some values)) path = [] ->
  exists s, data = JString s /\ In s values.
Proof.
  destruct data; try discriminate. cbn [Config.validate].
  destruct (JS.array_includes values s) eqn:Hin; [|discriminate]. intros _.
  exists s. split; [reflexivity|]. unfold JS.array_includes in Hin.
  apply existsb_exists in Hin as (x & Hx & Heq). apply String.eqb_eq in Heq. now subst.
Qed.

(** X21. A document that passes the schema always states its target and its
    default severity, each as one of the enumerated values, and the
    merged configuration carries exactly those: for a loaded file the
    built-in fallbacks of these two members are never used. *)
Theorem valid_config_states_target_and_default (userConfig : json) :
  Config.validate userConfig baselineConfigSchema EmptyString = [] ->
  exists t s,
    Config.get (Config.get (Some userConfig) "baseline") "target"
    = Some (JString (target_string t))
    /\ Config.get (Config.get (Some userConfig) "severity") "default"
       = Some (JString (severity_string s))
    /\ target (Config.mergeWithDefaults userConfig) = t
    /\ severity_default (Config.mergeWithDefaults userConfig) = s.
Proof.
  intros Hvalid. unfold baselineConfigSchema in Hvalid.
  destruct (validate_required _ _ _ _ _ _ "baseline" _ Hvalid
              ltac:(cbn; tauto) eq_refl) as (b & Hb & Hbv).
  destruct (validate_required _ _ _ _ _ _ "severity" _ Hvalid
              ltac:(cbn; tauto) eq_refl) as (sv & Hsv & Hsvv).
  destruct (validate_required _ _ _ _ _ _ "target" _ Hbv
              ltac:(cbn; tauto) eq_refl) as (t & Ht & Htv).
  destruct (validate_required _ _ _ _ _ _ "default" _ Hsvv
              ltac:(cbn; tauto) eq_refl) as (d & Hd & Hdv).
  apply validate_enum in Htv as (ts & -> & Hts).
  apply validate_enum in Hdv as (ds & -> & Hds).
  unfold Config.mergeWithDefaults. cbn [target severity_default].
  rewrite Hb, Hsv, Ht, Hd.
  cbn in Hts, Hds.
  destruct Hts as [<-|[<-|[<-|[]]]]; destruct Hds as [<-|[<-|[<-|[]]]];
    first [ exists target_2024, error; repeat split; reflexivity
          | exists target_2024, warning; repeat split; reflexivity
          | exists target_2024, info; repeat split; reflexivity
          | exists target_2025, error; repeat split; reflexivity
          | exists target_2025, warning; repeat split; reflexivity
          | exists target_2025, info; repeat split; reflexivity
          | exists target_custom, error; repeat split; reflexivity
          | exists target_custom, warning; repeat split; reflexivity
          | exists target_custom, info; repeat split; reflexivity ].
Qed.

Lemma prop_absent {A : Type} (o : list (string * A)) (k : string) :
  ~ In k (keys o) -> prop o k = None.
Proof.
  induction o as [|[k' v'] o IH]; [reflexivity|]. cbn. intros Hk.
  destruct (String.eqb_spec k' k) as [->|_]; [exfalso; apply Hk; now left|].
  apply IH. intros Hin. apply Hk. now right.
Qed.

(** X22. The schema is closed at the top level: a document with a member
    other than the six it declares is rejected, whatever else it holds. *)
Theorem unknown_member_is_rejected (members : list (string * json)) (k : string) (v : json)
    (configPath : string) :
  In (k, v) members ->
  ~ In k ["$schema"; "baseline"; "severity"; "include"; "exclude"; "rules"] ->
  exists m, Config.validateConfigSchema (JObject members) configPath = Throw m.
Proof.
  intros Hin Hk. unfold Config.validateConfigSchema.
  destruct (Config.validate (JObject members) baselineConfigSchema EmptyString)
    as [|e errors] eqn:Hvalid; [|eauto].
  exfalso. unfold baselineConfigSchema in Hvalid. cbn [Config.validate] in Hvalid.
  apply app_eq_nil in Hvalid as [_ Hmem].
  apply (flat_map_nil _ _ (k, v)) in Hmem; [|exact Hin]. cbn beta iota in Hmem.
  rewrite prop_absent in Hmem by exact Hk. discriminate.
Qed.

Lemma omap_strings (patterns : list string) :
  omap (fun e => Config.as_string (Some e)) (map JString patterns) = patterns.
Proof. induction patterns as [|p l IH]; [reflexivity|]. cbn. f_equal. exact IH. Qed.

(** X23. An exclude list given by the user replaces the default one, it is
    not added to it: the files selected from an explicit list are those
    that none of the user's patterns matches, so an empty list removes
    every default exclusion; without a list the default one applies. *)
Theorem exclude_replaces_default (userConfig : json) :
  (forall patterns,
     Config.get (Some userConfig) "exclude" = Some (JArray (map JString patterns)) ->
     exclude (Config.mergeWithDefaults userConfig) = Some patterns
     /\ forall filePaths, filePaths <> [] ->
          Checker.selectFiles (Config.mergeWithDefaults userConfig) filePaths
          = List.filter (fun file => negb (Checker.isFileExcluded file patterns)) filePaths)
  /\ (Config.get (Some userConfig) "exclude" = None ->
      exclude (Config.mergeWithDefaults userConfig)
      = Some ["**/node_modules/**"; "**/dist/**"; "**/build/**"; "**/.git/**"]).
Proof.
  split.
  - intros patterns Hget.
    assert (Hex : exclude (Config.mergeWithDefaults userConfig) = Some patterns).
    { unfold Config.mergeWithDefaults. cbn [exclude]. rewrite Hget.
      cbn [Config.as_strings]. now rewrite omap_strings. }
    split; [exact Hex|]. intros filePaths Hne. unfold Checker.selectFiles. rewrite Hex.
    destruct filePaths as [|p l]; [congruence|]. cbn [default].
    destruct patterns as [|pat pats]; [|reflexivity].
    symmetry. apply filter_all. reflexivity.
  - unfold Config.mergeWithDefaults. cbn [exclude]. intros ->. reflexivity.
Qed.

(** X24. A configuration path given explicitly that cannot be read, or whose
    content is not JSON, makes the entry point throw: nothing is checked
    and no default configuration is substituted. *)
Theorem unloadable_config_is_thrown `{Catalog} (files : Files) (options : CheckerOptions)
    (path : string) :
  opt_config options = Some path ->
  truthy (Some path) = true ->
  readFileSync path = None
  \/ (exists text, readFileSync path = Some text /\ JSON_parse text = None) ->
  exists m, Checker.checkCompatibility files options = Throw m.
Proof.
  intros Hopt Hpath Hbad. unfold Checker.checkCompatibility, Config.loadConfig.
  rewrite Hopt, Hpath. cbn [default id]. rewrite Hpath, lookup_empty.
  unfold Config.readConfig.
  destruct Hbad as [->|(text & -> & ->)]; cbn; eauto.
Qed.

End Loader.

(** ** The callers: loader entry with a package manifest, the command
    line and the editor *)

Section Callers.
Context `{Catalog} `{Externals}.

(** X25. A package manifest named explicitly as the configuration must hold
    a section for the tool: without one the empty object is validated in
    its place, which the schema rejects, so the load throws and caches
    nothing (discovery, by contrast, skips such a manifest). *)
Theorem package_manifest_needs_section (configCache : gmap string BaselineConfig)
    (workspaceRoot : option string) (path text : string) (pkg : json) :
  truthy (Some path) = true ->
  JS.endsWith path "package.json" = true ->
  configCache !! path = None ->
  readFileSync path = Some text ->
  JSON_parse text = Some pkg ->
  Config.json_truthy (Config.get (Some pkg) "baselineBuddy") = false ->
  exists m, Config.loadConfig configCache workspaceRoot (Some path) = (Throw m, configCache).
Proof.
  intros Hpath Hend Hcache Hread Hparse Hsection.
  unfold Config.loadConfig. rewrite Hpath. cbn [default id]. rewrite Hpath, Hcache.
  unfold Config.readConfig. rewrite Hread, Hparse, Hend, Hsection.
  destruct pkg; eauto;
    destruct (Config.validateConfigSchema (JObject []) path) eqn:Hvalid; eauto;
    unfold Config.validateConfigSchema in Hvalid; cbn in Hvalid; discriminate.
Qed.

Lemma count_total (results : list CompatibilityResult) :
  Cli.count "error" results + Cli.count "warning" results + Cli.count "info" results
  = length results.
Proof.
  unfold Cli.count. induction results as [|r l IH]; [reflexivity|].
  cbn [List.filter length]. destruct (severity r); cbn; lia.
Qed.

(** X26. The exit status of the command line by [--fail-on] level: the levels
    are ordered (what fails on "error" fails on "warning", and that on
    "info"); "info" and "any" are the same test, since every result
    carries one of the three severities; "any" fails exactly when there
    is a result; a level that is none of the four never fails. *)
Theorem fail_on_levels (results : list CompatibilityResult) :
  (Cli.shouldFail "error" results = true -> Cli.shouldFail "warning" results = true)
  /\ (Cli.shouldFail "warning" results = true -> Cli.shouldFail "info" results = true)
  /\ Cli.shouldFail "info" results = Cli.shouldFail "any" results
  /\ (Cli.shouldFail "any" results = true <-> results <> [])
  /\ (forall failOn, ~ In failOn ["error"; "warning"; "info"; "any"] ->
        Cli.shouldFail failOn results = false).
Proof.
  pose proof (count_total results) as Htotal.
  unfold Cli.shouldFail. cbn [String.eqb Ascii.eqb Bool.eqb].
  set (e := Cli.count "error" results) in *.
  set (w := Cli.count "warning" results) in *.
  set (i := Cli.count "info" results) in *.
  assert (Hne : results <> [] <-> 0 < length results).
  { destruct results; cbn; split; (congruence || lia). }
  destruct (Nat.ltb_spec 0 (length results)) as [Hlen|Hlen].
  - destruct (Nat.ltb_spec 0 e), (Nat.ltb_spec 0 w), (Nat.ltb_spec 0 i); cbn;
      repeat split; try tauto; try discriminate; try lia.
    all: intros failOn Hno; cbn in Hno;
      destruct (String.eqb_spec failOn "error"); [subst; tauto|];
      destruct (String.eqb_spec failOn "warning"); [subst; tauto|];
      destruct (String.eqb_spec failOn "info"); [subst; tauto|];
      destruct (String.eqb_spec failOn "any"); [subst; tauto|]; reflexivity.
  - repeat split; try discriminate; try tauto. intros Hr. apply Hne in Hr. lia.
Qed.

Lemma prefix_empty (s : string) : String.prefix EmptyString s = true.
Proof. now destruct s. Qed.

Lemma append_cons (x : ascii) (b a : string) : String x b +:+ a = String x (b +:+ a).
Proof. reflexivity. Qed.

Lemma append_empty (a : string) : EmptyString +:+ a = a.
Proof. reflexivity. Qed.

Lemma prefix_app (m b a : string) :
  String.prefix m b = true -> String.prefix m (b +:+ a) = true.
Proof.
  revert b. induction m as [|c m IH]; intros b; [intros _; apply prefix_empty|].
  destruct b as [|x b]; [discriminate|]. rewrite append_cons. cbn.
  destruct (ascii_dec c x); [apply IH|discriminate].
Qed.

Lemma prefix_app_overlap (m b c : string) :
  String.prefix m (b +:+ c) = true ->
  String.prefix m b = true \/ exists m2, m = b +:+ m2 /\ In m2 (overlapping m c).
Proof.
  revert b. induction m as [|a m IH]; intros b; [left; apply prefix_empty|].
  destruct b as [|x b].
  - rewrite append_empty. intros Hp. right. exists (String a m).
    split; [reflexivity|]. cbn [overlapping]. rewrite Hp. now left.
  - rewrite append_cons. cbn. destruct (ascii_dec a x) as [->|]; [|discriminate].
    intros Hp. apply IH in Hp as [Hp|(m2 & -> & Hm2)]; [now left|].
    right. exists m2. split; [reflexivity|].
    cbn [overlapping]. apply in_or_app. now right.
Qed.

Lemma includes_empty (m : string) :
  JS.includes EmptyString m = String.prefix m EmptyString.
Proof. cbn. apply orb_false_r. Qed.

Lemma includes_cons (x : ascii) (s m : string) :
  JS.includes (String x s) m = String.prefix m (String x s) || JS.includes s m.
Proof. reflexivity. Qed.

Lemma prefix_of_empty (m a : string) :
  String.prefix m EmptyString = true -> JS.includes a m = true.
Proof.
  destruct m; [|discriminate]. intros _.
  destruct a; cbn; [reflexivity|]. reflexivity.
Qed.

Lemma includes_app (b a m : string) :
  JS.includes (b +:+ a) m = false ->
  JS.includes b m = false /\ JS.includes a m = false.
Proof.
  induction b as [|x b IH].
  - rewrite append_empty. intros Ha. split; [|exact Ha].
    rewrite includes_empty. destruct (String.prefix m EmptyString) eqn:Hp; [|reflexivity].
    apply (prefix_of_empty _ a) in Hp. congruence.
  - rewrite append_cons, !includes_cons. intros Hb.
    apply orb_false_iff in Hb as [Hp Hb].
    apply IH in Hb as [Hb Ha]. split; [|exact Ha].
    apply orb_false_iff. split; [|exact Hb].
    destruct (String.prefix m (String x b)) eqn:Hpre; [|reflexivity].
    apply (prefix_app _ _ a) in Hpre. rewrite append_cons in Hpre. congruence.
Qed.

Lemma append_assoc (a b c : string) : (a +:+ b) +:+ c = a +:+ (b +:+ c).
Proof. induction a as [|x a IH]; [reflexivity|]. now rewrite !append_cons, IH. Qed.

Lemma includes_prefix (s m : string) : String.prefix m s = true -> JS.includes s m = true.
Proof.
  intros Hp. destruct s; [rewrite includes_empty|rewrite includes_cons]; now rewrite Hp.
Qed.

Lemma includes_suffix (b s m : string) :
  JS.includes s m = true -> JS.includes (b +:+ s) m = true.
Proof.
  intros Hs. induction b as [|x b IH]; [exact Hs|].
  rewrite append_cons, includes_cons, IH. apply orb_true_r.
Qed.

Lemma prefix_refl (m : string) : String.prefix m m = true.
Proof. induction m as [|a m IH]; [reflexivity|]. cbn. now destruct (ascii_dec a a). Qed.

(** Where a marker can come from in a joined text: from either part, or
    from a straddle, the first part ending where the marker begins and
    an end of the marker beginning the second part. *)
Lemma includes_app_overlap (b c m : string) :
  JS.includes (b +:+ c) m = true ->
  JS.includes b m = true \/ JS.includes c m = true
  \/ exists b1 b2 m2, b = b1 +:+ b2 /\ m = b2 +:+ m2 /\ In m2 (overlapping m c).
Proof.
  induction b as [|x b IH]; [rewrite append_empty; tauto|].
  rewrite append_cons, includes_cons. intros Hb. apply orb_true_iff in Hb as [Hp|Hb].
  - rewrite <- append_cons in Hp. apply prefix_app_overlap in Hp as [Hp|(m2 & Hm & Hm2)].
    + left. now apply includes_prefix.
    + right. right. exists EmptyString, (String x b), m2. auto.
  - apply IH in Hb as [Hb|[Hc|(b1 & b2 & m2 & -> & Hm & Hm2)]].
    + left. rewrite includes_cons, Hb. apply orb_true_r.
    + right. now left.
    + right. right. exists (String x b1), b2, m2. auto.
Qed.

(** X27. The comment that the editor's "ignore" quick fix inserts is not a
    marker of either parser: inserted at a position of a line that holds
    no marker (and where the first character of the comment does not
    complete one), it leaves two lines, the text before it with the
    comment and the rest of the line, neither of which marks any line as
    suppressed. *)
Theorem quick_fix_comment_is_not_a_marker (languageId before rest marker : string) :
  In marker [Javascript.line_marker; Javascript.block_marker; Css.block_marker] ->
  JS.includes (before +:+ rest) marker = false ->
  JS.includes (before +:+ "/") marker = false ->
  forall (i total : nat) (ignoredLines : gset Z),
    Javascript.mark marker (before +:+ Editor.getIgnoreCommentForLanguage languageId)
      i total ignoredLines = ignoredLines
    /\ Javascript.mark marker rest i total ignoredLines = ignoredLines.
Proof.
  intros Hmarker Hline Hslash i total ignoredLines.
  apply includes_app in Hline as [Hbefore Hrest].
  unfold Javascript.mark. rewrite Hrest. split; [|reflexivity].
  destruct (JS.includes (before +:+ Editor.getIgnoreCommentForLanguage languageId) marker)
    eqn:Hnew; [exfalso|reflexivity].
  apply includes_app_overlap in Hnew as [Hb|[Hc|(b1 & b2 & m2 & -> & Hm & Hm2)]].
  - congruence.
  - unfold Editor.getIgnoreCommentForLanguage in Hc.
    destruct (JS.array_includes _ languageId);
      cbn in Hmarker; destruct Hmarker as [<-|[<-|[<-|[]]]]; vm_compute in Hc; discriminate.
  - assert (Hm2' : m2 = "/").
    { unfold Editor.getIgnoreCommentForLanguage in Hm2.
      destruct (JS.array_includes _ languageId);
        cbn in Hmarker; destruct Hmarker as [<-|[<-|[<-|[]]]]; vm_compute in Hm2;
        intuition. }
    subst m2. rewrite append_assoc, <- Hm in Hslash.
    rewrite includes_suffix in Hslash; [discriminate|].
    apply includes_prefix, prefix_refl.
Qed.

(** The second condition cannot be dropped: a text that ends one
    character short of the block marker is completed by the comment. *)
Lemma quick_fix_comment_can_complete_a_marker :
  JS.includes ("x /* baseline-buddy-ignore *" +:+ EmptyString) Javascript.block_marker = false
  /\ Javascript.mark Javascript.block_marker
       ("x /* baseline-buddy-ignore *" +:+ Editor.getIgnoreCommentForLanguage "javascript")
       0 1 ∅ <> ∅.
Proof.
  split; [vm_compute; reflexivity|].
  unfold Javascript.mark.
  replace (JS.includes _ Javascript.block_marker) with true by (vm_compute; reflexivity).
  replace (String.eqb _ Javascript.block_marker) with false by (vm_compute; reflexivity).
  cbn. intros Heq. apply (f_equal (fun s : gset Z => bool_decide (1%Z ∈ s))) in Heq.
  revert Heq. vm_compute. discriminate.
Qed.

Lemma check_document_file (config : BaselineConfig) (doc : DocumentInput)
    (r : CompatibilityResult) :
  In r (Checker.checkCompatibilityWithConfig (documents [doc]) config) ->
  file r = filename doc.
Proof.
  intros Hin. apply in_check in Hin as (results & r0 & Hu & Hr0 & _ & _ & ->).
  cbn [diagnostic file]. cbn [occurrences map] in Hu. destruct Hu as [<-|[]].
  now apply scanDocument_file.
Qed.

(** X28. The editor shows every result of the document it checked: for the
    results of checking one document, the conversion to editor
    diagnostics for that document drops nothing and keeps the order
    (the codes are the features in turn), every diagnostic starts at a
    position that is not negative and ends ten characters further, and
    for any other document name the conversion gives nothing. *)
Theorem editor_shows_every_result (config : BaselineConfig) (doc : DocumentInput) :
  let results := Checker.checkCompatibilityWithConfig (documents [doc]) config in
  map diagnostic_code (Editor.convertToDiagnostics results (filename doc))
  = map feature results
  /\ Forall (fun d => (0 <= range_line d)%Z /\ (0 <= character d)%Z
                      /\ character_end d = (character d + 10)%Z
                      /\ diagnostic_severity d <> SeverityHint)
       (Editor.convertToDiagnostics results (filename doc))
  /\ (forall other, other <> filename doc ->
        Editor.convertToDiagnostics results other = []).
Proof.
  intros results.
  assert (Hfile : forall r, In r results -> file r = filename doc).
  { intros r. apply check_document_file. }
  unfold Editor.convertToDiagnostics. split; [|split].
  - rewrite filter_all; [now rewrite map_map|].
    intros r Hr. apply String.eqb_eq. now apply Hfile.
  - apply List.Forall_forall. intros d Hd. apply in_map_iff in Hd as (r & <- & _). cbn.
    repeat split; try lia. unfold Editor.mapSeverity. now destruct (severity r).
  - intros other Hother. rewrite filter_none; [reflexivity|].
    intros r Hr. apply String.eqb_neq. rewrite (Hfile r Hr). congruence.
Qed.

End Callers.

(** ** The message of a diagnostic *)

Section Messages.
Context `{Catalog} `{Externals}.

(** X29. Every diagnostic's message is the matcher's message followed by the
    baseline note of its feature, and that note is never the one for
    widely supported features: such features are filtered out before
    the notes are attached. *)
Theorem message_never_says_widely (files : Files) (config : BaselineConfig)
    (r : CompatibilityResult) :
  In r (Checker.checkCompatibilityWithConfig files config) ->
  (exists results r0, In results (occurrences files config) /\ In r0 results
     /\ feature r = feature r0
     /\ message r = message r0 +:+ " - " +:+ BaselineEngine.getBaselineMessage (feature r))
  /\ BaselineEngine.getBaselineMessage (feature r) <> "Widely supported across browsers".
Proof.
  intros Hin. apply in_check in Hin as (results & r0 & Hu & Hr0 & _ & Hbase & ->).
  cbn [diagnostic feature message]. split; [exists results, r0; auto|].
  unfold BaselineEngine.getBaselineMessage.
  destruct (BaselineEngine.featureOf (feature r0)) as [entry|] eqn:Hentry; [|discriminate].
  destruct (status entry) eqn:Hstatus.
  - rewrite (widely_is_baseline _ _ _ Hentry Hstatus) in Hbase. discriminate.
  - destruct (truthy (since entry)); [|discriminate].
    intros Heq. vm_compute in Heq. discriminate.
  - discriminate.
Qed.

End Messages.

(** ** The properties above at sample inputs *)

Lemma catalog_has_no_await (k : string) (w : WebFeature) :
  webFeaturesData (Catalog := catalog) !! k = Some w -> wf_id w <> "top-level-await".
Proof.
  intros Hk. apply elem_of_list_to_map_2, list_elem_of_In in Hk.
  assert (Hall : forallb (fun '(_, w) => negb (String.eqb (wf_id w) "top-level-await"))
                   webFeaturesData_table = true) by (vm_compute; reflexivity).
  rewrite forallb_forall in Hall. apply Hall in Hk.
  apply negb_true_iff, String.eqb_neq in Hk. exact Hk.
Qed.

Lemma script_occurrences_shape_witness :
  file Sample.web_share_occurrence = "app.js"
  /\ severity Sample.web_share_occurrence = warning
  /\ (baseline Sample.web_share_occurrence = "unknown"
        /\ In (feature Sample.web_share_occurrence)
             ["optional-chaining"; "nullish-coalescing";
              "private-class-fields"; "top-level-await"]
      \/ baseline Sample.web_share_occurrence = "limited"
         /\ In (feature Sample.web_share_occurrence)
              ["dialog-element"; "clipboard-api"; "web-share-api";
               "view-transitions"; "css-typed-om"; "intersection-observer-v2"]
      \/ exists w apiCall,
           detectWebFeatures (H := catalog) apiCall = Some w
           /\ feature Sample.web_share_occurrence = wf_id w
           /\ status (wf_baseline w) <> widely
           /\ baseline Sample.web_share_occurrence = status_string (status (wf_baseline w)))
  /\ baseline Sample.web_share_occurrence <> "widely".
Proof.
  apply (script_occurrences_shape (H := catalog) (H0 := Sample.world)
           Sample.share_text "app.js").
  vm_compute. left. reflexivity.
Defined.

Lemma script_occurrences_not_suppressed_witness :
  Javascript.isLineIgnored (line Cases.chain_occurrence)
    (Javascript.parseIgnoreComments Cases.async_text) = false.
Proof.
  apply (script_occurrences_not_suppressed (H := catalog) (H0 := Cases.world)
           Cases.async_text "f.js").
  vm_compute. left. reflexivity.
Defined.

Lemma await_inside_function_not_flagged_witness :
  feature Cases.chain_occurrence <> "top-level-await".
Proof.
  apply (await_inside_function_not_flagged (H := catalog) "f.js" ∅ None false
           Cases.async_function).
  - exact catalog_has_no_await.
  - reflexivity.
  - vm_compute. left. reflexivity.
Defined.

Lemma script_occurrences_bounded_witness :
  length (Javascript.parseJavaScript (H := catalog) (H0 := Cases.world)
            Cases.async_text "f.js")
  <= Shape.size Cases.async_ast.
Proof.
  apply (script_occurrences_bounded (H := catalog) (H0 := Cases.world)).
  reflexivity.
Defined.

Lemma optional_chain_reported_once_witness :
  Javascript.traverse (Javascript.visitor (H := catalog) "f.js" ∅)
    (Some (AwaitExpression (Sample.at_ 1 21) Cases.chain)) true Cases.chain
  = [ Cases.chain_occurrence ].
Proof.
  refine (eq_trans
            (optional_chain_reported_once (H := catalog) "f.js" ∅
               (Some (AwaitExpression (Sample.at_ 1 21) Cases.chain)) true Cases.chain
               _ _ _) _);
    vm_compute; reflexivity.
Defined.

Lemma stylesheet_occurrences_shape_witness :
  file Cases.has_occurrence = "card.css"
  /\ severity Cases.has_occurrence = warning
  /\ (baseline Cases.has_occurrence = "limited" \/ baseline Cases.has_occurrence = "newly")
  /\ Css.isLineIgnored (line Cases.has_occurrence)
       (Css.parseIgnoreComments Sample.has_text) = false.
Proof.
  apply (stylesheet_occurrences_shape (H := catalog) (H0 := Sample.world)
           Sample.has_text "card.css").
  vm_compute. left. reflexivity.
Defined.

Lemma limited_not_baseline_without_query_witness :
  BaselineEngine.isFeatureBaseline (H := catalog) (H0 := Sample.world)
    {| year := target_2025; customBrowserslist := None |} "web-share" = false.
Proof.
  apply (limited_not_baseline_without_query (H := catalog) (H0 := Sample.world)
           {| year := target_2025; customBrowserslist := None |} "web-share"
           {| status := limited; since := None |}).
  - vm_compute. reflexivity.
  - reflexivity.
  - left. discriminate.
Defined.

Lemma custom_target_fails_closed_witness :
  BaselineEngine.isFeatureBaseline (H := catalog) (H0 := Sample.world)
    {| year := target_custom; customBrowserslist := Some ["not a query"] |} "array-at"
  = false.
Proof.
  apply (custom_target_fails_closed (H := catalog) (H0 := Sample.world)
           {| year := target_custom; customBrowserslist := Some ["not a query"] |}
           "array-at" ["not a query"]).
  - reflexivity.
  - reflexivity.
  - vm_compute. discriminate.
  - right. vm_compute. reflexivity.
Defined.

Lemma custom_target_without_list_witness :
  BaselineEngine.isFeatureBaseline (H := catalog) (H0 := Sample.world)
    {| year := target_custom; customBrowserslist := None |} "array-at" = true
  <-> status <$> BaselineEngine.featureOf (H := catalog) "array-at" = Some widely.
Proof.
  apply (custom_target_without_list (H := catalog) (H0 := Sample.world)
           {| year := target_custom; customBrowserslist := None |} "array-at");
    reflexivity.
Defined.

Lemma later_year_keeps_baseline_witness :
  BaselineEngine.isFeatureBaseline (H := catalog) (H0 := Sample.world)
    {| year := target_2025; customBrowserslist := None |} "optional-chaining" = true.
Proof.
  apply (later_year_keeps_baseline (H := catalog) (H0 := Sample.world)
           "optional-chaining" None None); vm_compute; reflexivity.
Defined.

Lemma coverage_extremes_witness :
  BaselineEngine.calculateBrowserslistCoverage (H := catalog) (H0 := Cases.world)
    "array-at" ["last 1 chrome version"; "last 1 firefox version"] = true
  /\ BaselineEngine.calculateBrowserslistCoverage (H := catalog) (H0 := Cases.world)
       "array-at" ["edge 120"] = false.
Proof.
  split.
  - refine (proj1 (coverage_extremes (H := catalog) (H0 := Cases.world) "array-at"
                     Cases.array_at ["last 1 chrome version"; "last 1 firefox version"]
                     ["chrome 120"; "firefox 121"] _ _) _ _).
    + vm_compute. reflexivity.
    + vm_compute. reflexivity.
    + discriminate.
    + intros b [<-|[<-|[]]]; vm_compute; reflexivity.
  - refine (proj2 (coverage_extremes (H := catalog) (H0 := Cases.world) "array-at"
                     Cases.array_at ["edge 120"] ["edge 120"] _ _) _).
    + vm_compute. reflexivity.
    + vm_compute. reflexivity.
    + intros b [<-|[]]. vm_compute. reflexivity.
Defined.

Lemma default_queries_agree_witness :
  Config.getBrowserslistTargets DEFAULT_CONFIG
  = BaselineEngine.getDefaultBrowserslistForYear (target DEFAULT_CONFIG).
Proof. apply default_queries_agree. left. discriminate. Defined.

Lemma check_documents_app_witness :
  Checker.checkCompatibilityWithConfig (H := catalog) (H0 := Sample.world)
    (documents ([Sample.share_document] ++ [Sample.document "card.css" Sample.has_text]))
    DEFAULT_CONFIG
  = Checker.checkCompatibilityWithConfig (H := catalog) (H0 := Sample.world)
      (documents [Sample.share_document]) DEFAULT_CONFIG
    ++ Checker.checkCompatibilityWithConfig (H := catalog) (H0 := Sample.world)
         (documents [Sample.document "card.css" Sample.has_text]) DEFAULT_CONFIG.
Proof.
  apply (check_documents_app (H := catalog) (H0 := Sample.world)); discriminate.
Defined.

Lemma loadConfig_cache_witness :
  Config.loadConfig (H := Cases.world)
    (snd (Config.loadConfig (H := Sample.world) ∅ None (Some "/work/baseline.config.json")))
    (Some "/elsewhere") (Some "/work/baseline.config.json")
  = (OK (Config.mergeWithDefaults Sample.custom_config),
     snd (Config.loadConfig (H := Sample.world) ∅ None (Some "/work/baseline.config.json"))).
Proof.
  apply (loadConfig_cache Sample.world Cases.world ∅ _ None (Some "/elsewhere")
           "/work/baseline.config.json" (OK (Config.mergeWithDefaults Sample.custom_config))).
  - reflexivity.
  - vm_compute. reflexivity.
Defined.

Lemma valid_config_states_target_and_default_witness :
  exists t s,
    Config.get (Config.get (Some Sample.custom_config) "baseline") "target"
    = Some (JString (target_string t))
    /\ Config.get (Config.get (Some Sample.custom_config) "severity") "default"
       = Some (JString (severity_string s))
    /\ target (Config.mergeWithDefaults Sample.custom_config) = t
    /\ severity_default (Config.mergeWithDefaults Sample.custom_config) = s.
Proof.
  apply (valid_config_states_target_and_default Sample.custom_config).
  vm_compute. reflexivity.
Defined.

Lemma unknown_member_is_rejected_witness :
  exists m, Config.validateConfigSchema Cases.ignore_config "/work/baseline.config.json"
            = Throw m.
Proof.
  apply (unknown_member_is_rejected _ "ignore"
           (JObject [ ("features", JArray [ JString "nullish-coalescing" ]) ])).
  - do 4 right. left. reflexivity.
  - cbn. intuition discriminate.
Defined.

Lemma unloadable_config_is_thrown_witness :
  exists m, Checker.checkCompatibility (H := catalog) (H0 := Sample.world)
              (documents [Sample.share_document])
              {| opt_config := Some "/missing.json"; opt_workspaceRoot := None |}
            = Throw m.
Proof.
  apply (unloadable_config_is_thrown (H := Sample.world) (H0 := catalog)
           (documents [Sample.share_document])
           {| opt_config := Some "/missing.json"; opt_workspaceRoot := None |}
           "/missing.json").
  - reflexivity.
  - reflexivity.
  - left. reflexivity.
Defined.

Lemma package_manifest_needs_section_witness :
  exists m, Config.loadConfig (H := Cases.world) ∅ None (Some "/app/package.json")
            = (Throw m, ∅).
Proof.
  apply (package_manifest_needs_section (H0 := Cases.world) ∅ None "/app/package.json"
           Cases.package_text Cases.package_json); vm_compute; reflexivity.
Defined.

Lemma quick_fix_comment_is_not_a_marker_witness :
  Javascript.mark Javascript.line_marker
    ("  " +:+ Editor.getIgnoreCommentForLanguage "javascript") 0 2 ∅ = ∅
  /\ Javascript.mark Javascript.line_marker "navigator.share(data);" 0 2 ∅ = ∅.
Proof.
  apply (quick_fix_comment_is_not_a_marker "javascript" "  " "navigator.share(data);"
           Javascript.line_marker).
  - left. reflexivity.
  - vm_compute. reflexivity.
  - vm_compute. reflexivity.
Defined.

Lemma message_never_says_widely_witness :
  BaselineEngine.getBaselineMessage (H := catalog)
    (feature (diagnostic (H := catalog) DEFAULT_CONFIG Sample.web_share_occurrence))
  <> "Widely supported across browsers".
Proof.
  apply (message_never_says_widely (H := catalog) (H0 := Sample.world)
           (documents [Sample.share_document]) DEFAULT_CONFIG
           (diagnostic (H := catalog) DEFAULT_CONFIG Sample.web_share_occurrence)).
  vm_compute. left. reflexivity.
Defined.
